(** * The Kanban board of InvenTree's frontend (Tasks.tsx), embedded in Rocq

    The board is a React component.  Its state hooks become the fields of one
    record [Board]; every handler becomes a function on that record.  A handler
    that awaits a backend call is split at the [await]: the part before it
    ([_call]) returns the suspended call with the variables it captured, the
    part after it ([_resume]) takes the backend's answer and the state current
    at that moment, so that other handlers may run in between.

    Strings are sequences of 8-bit code units read as Latin-1 (the first 256
    code points of a JavaScript string); identifiers are integers. *)

From stdpp Require Import base list strings gmap pretty.
From Stdlib Require Import ZArith Ascii Bool Lia.
From Stdlib Require String.

Local Open Scope Z_scope.

(** ** JavaScript primitives used by the component *)

Module Js.

(** Code units with a distinct lower case in Latin-1: A-Z, and the accented
    capitals U+00C0..U+00DE except the multiplication sign U+00D7. *)
Definition isUpper (c : ascii) : bool :=
  let n := N_of_ascii c in
  ((65 <=? n) && (n <=? 90) || (192 <=? n) && (n <=? 222) && negb (n =? 215))%N.

Definition lowerChar (c : ascii) : ascii :=
  if isUpper c then ascii_of_N (N_of_ascii c + 32) else c.

(** [String.prototype.toLowerCase]. *)
Fixpoint toLowerCase (s : string) : string :=
  match s with
  | EmptyString => EmptyString
  | String c s' => String (lowerChar c) (toLowerCase s')
  end.

(** White space and line terminators of ECMAScript below U+0100. *)
Definition isWhiteSpace (c : ascii) : bool :=
  let n := N_of_ascii c in
  ((9 <=? n) && (n <=? 13) || (n =? 32) || (n =? 160))%N.

Definition isEmpty (s : string) : bool :=
  match s with EmptyString => true | String _ _ => false end.

Fixpoint trimStart (s : string) : string :=
  match s with
  | EmptyString => EmptyString
  | String c s' => if isWhiteSpace c then trimStart s' else s
  end.

Fixpoint trimEnd (s : string) : string :=
  match s with
  | EmptyString => EmptyString
  | String c s' =>
      let r := trimEnd s' in
      if isWhiteSpace c && isEmpty r then EmptyString else String c r
  end.

(** [String.prototype.trim]. *)
Definition trim (s : string) : string := trimEnd (trimStart s).

(** [haystack.includes(needle)]: the needle starts at some position. *)
Fixpoint includes (haystack needle : string) : bool :=
  String.prefix needle haystack ||
  match haystack with
  | EmptyString => false
  | String _ rest => includes rest needle
  end.

(** [Array.prototype.join]. *)
Definition join (sep : string) (parts : list string) : string :=
  String.concat sep parts.

(** [Array.prototype.includes] on an array of strings. *)
Definition arrayIncludes (x : string) (l : list string) : bool :=
  existsb (String.eqb x) l.

(** [new Set(iterable)] followed by [Array.from]: the values in order of
    first insertion. *)
Fixpoint addAll (acc l : list string) : list string :=
  match l with
  | [] => acc
  | x :: l' => addAll (if arrayIncludes x acc then acc else acc ++ [x]) l'
  end.

Definition arrayFromSet (l : list string) : list string := addAll [] l.

(** [Array.prototype.findIndex]: the first position whose element passes,
    or -1. *)
Fixpoint findIndex {A : Type} (p : A -> bool) (l : list A) : Z :=
  match l with
  | [] => -1
  | x :: l' =>
      if p x then 0
      else let r := findIndex p l' in if r <? 0 then -1 else r + 1
  end.

End Js.

(** ** slugify *)

(** The character class [[a-z0-9]]. *)
Definition isSlugChar (c : ascii) : bool :=
  let n := N_of_ascii c in
  ((97 <=? n) && (n <=? 122) || (48 <=? n) && (n <=? 57))%N.

Definition dash : ascii := "-"%char.

Definition isDash (c : ascii) : bool := Ascii.eqb c dash.

(** [.replace(/[^a-z0-9]+/g, '-')].  The pattern is a greedy repetition of one
    character class, so each match is a maximal run of characters outside the
    class; [inMatch] tells that the scan is inside such a match, whose
    replacement has already been written. *)
Fixpoint replaceNonSlugRuns (inMatch : bool) (s : string) : string :=
  match s with
  | EmptyString => EmptyString
  | String c s' =>
      if isSlugChar c then String c (replaceNonSlugRuns false s')
      else if inMatch then replaceNonSlugRuns true s'
      else String dash (replaceNonSlugRuns true s')
  end.

(** The alternative [-$] of the second pattern: a dash that is the last
    character.  It is the only alternative that can match after position 0. *)
Fixpoint dropFinalDash (s : string) : string :=
  match s with
  | EmptyString => EmptyString
  | String c s' =>
      if isDash c && Js.isEmpty s' then EmptyString
      else String c (dropFinalDash s')
  end.

(** [.replace(/(^-|-$)+/g, '')].  At position 0 the alternative [^-] removes a
    leading dash; the repetition can only go on with [-$], which is what the
    scan of the rest removes as well. *)
Definition replaceEdgeDashes (s : string) : string :=
  match s with
  | String c s' => if isDash c then dropFinalDash s' else dropFinalDash s
  | EmptyString => EmptyString
  end.

(** [generateId()] draws from [Math.random]; the drawn identifier is an
    argument here. *)
Definition slugify (generated : string) (value : string) : string :=
  let slug := replaceEdgeDashes (replaceNonSlugRuns false (Js.toLowerCase value)) in
  if (0 <? Z.of_nat (String.length slug)) then slug
  else String.append "column-" generated.

(** *** The slug as the specification words it *)

Module SlugSpec.

(** Every character outside [[a-z0-9]] is a separator. *)
Fixpoint separators (s : string) : string :=
  match s with
  | EmptyString => EmptyString
  | String c s' => String (if isSlugChar c then c else dash) (separators s')
  end.

(** A run of separators collapses to a single one. *)
Fixpoint collapse (s : string) : string :=
  match s with
  | EmptyString => EmptyString
  | String c s' =>
      match s' with
      | String c' _ =>
          if isDash c && isDash c' then collapse s' else String c (collapse s')
      | EmptyString => String c EmptyString
      end
  end.

(** Leading separators removed. *)
Fixpoint trimLeading (s : string) : string :=
  match s with
  | EmptyString => EmptyString
  | String c s' => if isDash c then trimLeading s' else s
  end.

(** Trailing separators removed. *)
Fixpoint trimTrailing (s : string) : string :=
  match s with
  | EmptyString => EmptyString
  | String c s' =>
      let r := trimTrailing s' in
      if isDash c && Js.isEmpty r then EmptyString else String c r
  end.

Definition slug (value : string) : string :=
  trimTrailing (trimLeading (collapse (separators (Js.toLowerCase value)))).

End SlugSpec.

(** ** Data model *)

(** [KanbanPriority = 'low' | 'medium' | 'high']. *)
Inductive KanbanPriority : Type := low | medium | high.

#[global] Instance KanbanPriority_eq_dec : EqDecision KanbanPriority.
Proof. solve_decision. Defined.

(** [PriorityFilterValue = KanbanPriority | 'all']. *)
Inductive PriorityFilterValue : Type :=
  | allPriorities
  | onlyPriority (p : KanbanPriority).

(** [KanbanCard], the record the server sends.  The fields read through [??]
    by [convertCardToTask] may be absent. *)
Module KanbanCard.
Record t : Type := mk {
  id : Z;
  title : string;
  description : option string;
  status : string;
  priority : KanbanPriority;
  due_date : option string;
  assignee : option string;
  tags : option (list string);
  company : option string;
  company_contact_name : option string;
  company_contact_phone : option string;
  job_number : option string;
  service_quote : option string;
  is_active : bool;
  created_at : string;
  updated_at : string
}.

(** The card after the server applied [{ status }]. *)
Definition withStatus (s : string) (card : t) : t :=
  mk (id card) (title card) (description card) s (priority card) (due_date card)
     (assignee card) (tags card) (company card) (company_contact_name card)
     (company_contact_phone card) (job_number card) (service_quote card)
     (is_active card) (created_at card) (updated_at card).
End KanbanCard.

Module Task.
Record t : Type := mk {
  id : Z;
  title : string;
  description : string;
  status : string;
  priority : KanbanPriority;
  dueDate : option string;
  assignee : string;
  tags : list string;
  company : string;
  companyContactName : string;
  companyContactPhone : string;
  jobNumber : string;
  serviceQuote : string;
  createdAt : string;
  updatedAt : string
}.

(** [{ ...task, status }]. *)
Definition withStatus (s : string) (task : t) : t :=
  mk (id task) (title task) (description task) s (priority task)
     (dueDate task) (assignee task) (tags task) (company task)
     (companyContactName task) (companyContactPhone task) (jobNumber task)
     (serviceQuote task) (createdAt task) (updatedAt task).
End Task.

Module Column.
Record t : Type := mk {
  id : string;
  label : string;
  color : string
}.
End Column.

Module ColumnFormValues.
Record t : Type := mk {
  label : string;
  color : string
}.
End ColumnFormValues.

Module Filters.
Record t : Type := mk {
  search : string;
  column : string;
  priority : PriorityFilterValue;
  tags : list string;
  assignee : string;
  jobNumber : string;
  serviceQuote : string
}.

(** The criteria the component starts with and [resetFilters] restores. *)
Definition initial : t :=
  mk "" "all" allPriorities [] "all" "all" "all".

(** [{ ...filters, field: value }], one per field. *)
Definition withSearch (v : string) (f : t) : t :=
  mk v (column f) (priority f) (tags f) (assignee f) (jobNumber f) (serviceQuote f).
Definition withColumn (v : string) (f : t) : t :=
  mk (search f) v (priority f) (tags f) (assignee f) (jobNumber f) (serviceQuote f).
Definition withPriority (v : PriorityFilterValue) (f : t) : t :=
  mk (search f) (column f) v (tags f) (assignee f) (jobNumber f) (serviceQuote f).
Definition withTags (v : list string) (f : t) : t :=
  mk (search f) (column f) (priority f) v (assignee f) (jobNumber f) (serviceQuote f).
Definition withAssignee (v : string) (f : t) : t :=
  mk (search f) (column f) (priority f) (tags f) v (jobNumber f) (serviceQuote f).
Definition withJobNumber (v : string) (f : t) : t :=
  mk (search f) (column f) (priority f) (tags f) (assignee f) v (serviceQuote f).
Definition withServiceQuote (v : string) (f : t) : t :=
  mk (search f) (column f) (priority f) (tags f) (assignee f) (jobNumber f) v.
End Filters.

Definition DEFAULT_TAG_OPTIONS : list string :=
  ["Service orders"; "Purchase orders"; "Sales orders"; "Miscellaneous"].

(** [value ?? ''] and [value ?? []]. *)
Definition orEmpty (v : option string) : string := default "" v.

Definition convertCardToTask (card : KanbanCard.t) : Task.t :=
  Task.mk (KanbanCard.id card) (KanbanCard.title card)
    (orEmpty (KanbanCard.description card)) (KanbanCard.status card)
    (KanbanCard.priority card) (KanbanCard.due_date card)
    (orEmpty (KanbanCard.assignee card)) (default [] (KanbanCard.tags card))
    (orEmpty (KanbanCard.company card))
    (orEmpty (KanbanCard.company_contact_name card))
    (orEmpty (KanbanCard.company_contact_phone card))
    (orEmpty (KanbanCard.job_number card))
    (orEmpty (KanbanCard.service_quote card))
    (KanbanCard.created_at card) (KanbanCard.updated_at card).

(** ** Filter engine *)

(** [a !== b] on strings. *)
Definition strNe (a b : string) : bool := negb (String.eqb a b).

Definition priorityMismatch (f : PriorityFilterValue) (p : KanbanPriority) : bool :=
  match f with
  | allPriorities => false
  | onlyPriority q => negb (bool_decide (p = q))
  end.

(** The text the free-text search looks into. *)
Definition haystack (task : Task.t) : string :=
  Js.toLowerCase
    (Js.join " "
       [Task.title task; Task.description task; Task.assignee task;
        Js.join " " (Task.tags task); Task.company task;
        Task.companyContactName task; Task.companyContactPhone task;
        Task.jobNumber task; Task.serviceQuote task]).

(** The callback of [tasks.filter] in [filteredTasks], one [if] per line of the
    source. *)
Definition keepTask (filters : Filters.t) (task : Task.t) : bool :=
  if strNe (Filters.column filters) "all"
     && strNe (Task.status task) (Filters.column filters) then false
  else if priorityMismatch (Filters.priority filters) (Task.priority task) then false
  else if (0 <? Z.of_nat (length (Filters.tags filters)))
          && negb (forallb (fun tag => Js.arrayIncludes tag (Task.tags task))
                     (Filters.tags filters)) then false
  else if strNe (Filters.assignee filters) "all"
          && strNe (Task.assignee task) (Filters.assignee filters) then false
  else if strNe (Filters.jobNumber filters) "all"
          && strNe (Task.jobNumber task) (Filters.jobNumber filters) then false
  else if strNe (Filters.serviceQuote filters) "all"
          && strNe (Task.serviceQuote task) (Filters.serviceQuote filters) then false
  else if 0 <? Z.of_nat (String.length (Js.trim (Filters.search filters))) then
    if negb (Js.includes (haystack task)
               (Js.toLowerCase (Js.trim (Filters.search filters))))
    then false else true
  else true.

Definition filteredTasks (tasks : list Task.t) (filters : Filters.t) : list Task.t :=
  List.filter (keepTask filters) tasks.

(** [filtersActive]. *)
Definition filtersActive (filters : Filters.t) : bool :=
  (0 <? Z.of_nat (String.length (Js.trim (Filters.search filters))))
  || strNe (Filters.column filters) "all"
  || match Filters.priority filters with allPriorities => false | _ => true end
  || (0 <? Z.of_nat (length (Filters.tags filters)))
  || strNe (Filters.assignee filters) "all"
  || strNe (Filters.jobNumber filters) "all"
  || strNe (Filters.serviceQuote filters) "all".


(** ** Component state *)

(** What the component does to the outside: the calls it sends to the backend
    through [api], the cache invalidation it asks the query client for, and
    the notifications it shows. *)
Inductive Effect : Type :=
  | ApiPatch (taskId : Z) (status : string)
  | ApiDelete (taskId : Z)
  | InvalidateQueries
  | ShowApiError (title : string)
  | ShowNotification (title : string).

#[global] Instance Effect_eq_dec : EqDecision Effect.
Proof. solve_decision. Defined.

(** [ColumnDeletionContext]. *)
Module ColumnDeletionContext.
Record t : Type := mk {
  column : Column.t;
  fallbackColumn : Column.t
}.
End ColumnDeletionContext.

(** The [useState] cells of [Kanban] and the column form, with two observation
    fields: [effects] lists the outside effects in the order they happened,
    [outstanding] holds the backend calls sent and not yet answered. *)
Record Board : Type := mkBoard {
  columns : list Column.t;
  tasks : list Task.t;
  columnModalOpen : bool;
  tagOptions : list string;
  newTagName : string;
  taskFormTags : list string;
  filters : Filters.t;
  isReordering : bool;
  pendingColumnOrder : list Column.t;
  columnDeletionContext : option ColumnDeletionContext.t;
  deletingTaskId : option Z;
  statusUpdating : gset Z;
  columnFormValues : ColumnFormValues.t;
  columnFormLabelError : option string;
  effects : list Effect;
  outstanding : list Effect
}.

(** State setters; each takes the updater function as React's setters do. *)
Definition setColumns (f : list Column.t -> list Column.t) (b : Board) : Board :=
  mkBoard (f (columns b)) (tasks b) (columnModalOpen b) (tagOptions b) (newTagName b)
    (taskFormTags b) (filters b) (isReordering b) (pendingColumnOrder b)
    (columnDeletionContext b) (deletingTaskId b) (statusUpdating b)
    (columnFormValues b) (columnFormLabelError b) (effects b) (outstanding b).

Definition setTasks (f : list Task.t -> list Task.t) (b : Board) : Board :=
  mkBoard (columns b) (f (tasks b)) (columnModalOpen b) (tagOptions b) (newTagName b)
    (taskFormTags b) (filters b) (isReordering b) (pendingColumnOrder b)
    (columnDeletionContext b) (deletingTaskId b) (statusUpdating b)
    (columnFormValues b) (columnFormLabelError b) (effects b) (outstanding b).

Definition setColumnModalOpen (v : bool) (b : Board) : Board :=
  mkBoard (columns b) (tasks b) v (tagOptions b) (newTagName b)
    (taskFormTags b) (filters b) (isReordering b) (pendingColumnOrder b)
    (columnDeletionContext b) (deletingTaskId b) (statusUpdating b)
    (columnFormValues b) (columnFormLabelError b) (effects b) (outstanding b).

Definition setTagOptions (f : list string -> list string) (b : Board) : Board :=
  mkBoard (columns b) (tasks b) (columnModalOpen b) (f (tagOptions b)) (newTagName b)
    (taskFormTags b) (filters b) (isReordering b) (pendingColumnOrder b)
    (columnDeletionContext b) (deletingTaskId b) (statusUpdating b)
    (columnFormValues b) (columnFormLabelError b) (effects b) (outstanding b).

Definition setNewTagName (v : string) (b : Board) : Board :=
  mkBoard (columns b) (tasks b) (columnModalOpen b) (tagOptions b) v
    (taskFormTags b) (filters b) (isReordering b) (pendingColumnOrder b)
    (columnDeletionContext b) (deletingTaskId b) (statusUpdating b)
    (columnFormValues b) (columnFormLabelError b) (effects b) (outstanding b).

Definition setTaskFormTags (v : list string) (b : Board) : Board :=
  mkBoard (columns b) (tasks b) (columnModalOpen b) (tagOptions b) (newTagName b)
    v (filters b) (isReordering b) (pendingColumnOrder b)
    (columnDeletionContext b) (deletingTaskId b) (statusUpdating b)
    (columnFormValues b) (columnFormLabelError b) (effects b) (outstanding b).

Definition setFilters (f : Filters.t -> Filters.t) (b : Board) : Board :=
  mkBoard (columns b) (tasks b) (columnModalOpen b) (tagOptions b) (newTagName b)
    (taskFormTags b) (f (filters b)) (isReordering b) (pendingColumnOrder b)
    (columnDeletionContext b) (deletingTaskId b) (statusUpdating b)
    (columnFormValues b) (columnFormLabelError b) (effects b) (outstanding b).

Definition setIsReordering (v : bool) (b : Board) : Board :=
  mkBoard (columns b) (tasks b) (columnModalOpen b) (tagOptions b) (newTagName b)
    (taskFormTags b) (filters b) v (pendingColumnOrder b)
    (columnDeletionContext b) (deletingTaskId b) (statusUpdating b)
    (columnFormValues b) (columnFormLabelError b) (effects b) (outstanding b).

Definition setPendingColumnOrder (f : list Column.t -> list Column.t) (b : Board) : Board :=
  mkBoard (columns b) (tasks b) (columnModalOpen b) (tagOptions b) (newTagName b)
    (taskFormTags b) (filters b) (isReordering b) (f (pendingColumnOrder b))
    (columnDeletionContext b) (deletingTaskId b) (statusUpdating b)
    (columnFormValues b) (columnFormLabelError b) (effects b) (outstanding b).

Definition setColumnDeletionContext (v : option ColumnDeletionContext.t) (b : Board) : Board :=
  mkBoard (columns b) (tasks b) (columnModalOpen b) (tagOptions b) (newTagName b)
    (taskFormTags b) (filters b) (isReordering b) (pendingColumnOrder b)
    v (deletingTaskId b) (statusUpdating b)
    (columnFormValues b) (columnFormLabelError b) (effects b) (outstanding b).

Definition setDeletingTaskId (v : option Z) (b : Board) : Board :=
  mkBoard (columns b) (tasks b) (columnModalOpen b) (tagOptions b) (newTagName b)
    (taskFormTags b) (filters b) (isReordering b) (pendingColumnOrder b)
    (columnDeletionContext b) v (statusUpdating b)
    (columnFormValues b) (columnFormLabelError b) (effects b) (outstanding b).

Definition setStatusUpdating (f : gset Z -> gset Z) (b : Board) : Board :=
  mkBoard (columns b) (tasks b) (columnModalOpen b) (tagOptions b) (newTagName b)
    (taskFormTags b) (filters b) (isReordering b) (pendingColumnOrder b)
    (columnDeletionContext b) (deletingTaskId b) (f (statusUpdating b))
    (columnFormValues b) (columnFormLabelError b) (effects b) (outstanding b).

Definition setColumnForm (values : ColumnFormValues.t) (error : option string)
    (b : Board) : Board :=
  mkBoard (columns b) (tasks b) (columnModalOpen b) (tagOptions b) (newTagName b)
    (taskFormTags b) (filters b) (isReordering b) (pendingColumnOrder b)
    (columnDeletionContext b) (deletingTaskId b) (statusUpdating b)
    values error (effects b) (outstanding b).

(** An outside effect happens. *)
Definition emit (e : Effect) (b : Board) : Board :=
  mkBoard (columns b) (tasks b) (columnModalOpen b) (tagOptions b) (newTagName b)
    (taskFormTags b) (filters b) (isReordering b) (pendingColumnOrder b)
    (columnDeletionContext b) (deletingTaskId b) (statusUpdating b)
    (columnFormValues b) (columnFormLabelError b) (effects b ++ [e]) (outstanding b).

(** Removes the first occurrence of a call from the outstanding ones. *)
Fixpoint removeFirst (e : Effect) (l : list Effect) : list Effect :=
  match l with
  | [] => []
  | x :: l' => if bool_decide (x = e) then l' else x :: removeFirst e l'
  end.

(** A backend call is sent: it is an effect, and outstanding until answered. *)
Definition send (e : Effect) (b : Board) : Board :=
  let b := emit e b in
  mkBoard (columns b) (tasks b) (columnModalOpen b) (tagOptions b) (newTagName b)
    (taskFormTags b) (filters b) (isReordering b) (pendingColumnOrder b)
    (columnDeletionContext b) (deletingTaskId b) (statusUpdating b)
    (columnFormValues b) (columnFormLabelError b) (effects b) (outstanding b ++ [e]).

(** The backend answers a call. *)
Definition answered (e : Effect) (b : Board) : Board :=
  mkBoard (columns b) (tasks b) (columnModalOpen b) (tagOptions b) (newTagName b)
    (taskFormTags b) (filters b) (isReordering b) (pendingColumnOrder b)
    (columnDeletionContext b) (deletingTaskId b) (statusUpdating b)
    (columnFormValues b) (columnFormLabelError b) (effects b)
    (removeFirst e (outstanding b)).

(** How many calls equal to [e] are outstanding. *)
Definition inFlight (e : Effect) (b : Board) : nat :=
  length (List.filter (fun x => bool_decide (x = e)) (outstanding b)).

Definition defaultColumns : list Column.t :=
  [Column.mk "backlog" "Backlog" "gray";
   Column.mk "in-progress" "In Progress" "indigo";
   Column.mk "review" "In Review" "yellow";
   Column.mk "done" "Done" "green"].

(** The state of a freshly mounted component. *)
Definition initialBoard : Board :=
  mkBoard defaultColumns [] false DEFAULT_TAG_OPTIONS "" [] Filters.initial false
    defaultColumns None None ∅ (ColumnFormValues.mk "" "gray") None [] [].


(** ** The backend *)

(** One answer per call: [patch] resolves with the card the server returns or
    rejects ([None]); [delete] resolves ([true]) or rejects ([false]). *)
Record Api : Type := mkApi {
  patch : Z -> string -> option KanbanCard.t;
  delete : Z -> bool
}.

(** ** Task mutation controller *)

Definition markStatusUpdating (taskId : Z) (updating : bool) (b : Board) : Board :=
  setStatusUpdating
    (fun current => if updating then {[taskId]} ∪ current else current ∖ {[taskId]}) b.

(** A call of [handleStatusChange] suspended at [await api.patch]: its two
    arguments and the [currentTask] it found. *)
Record StatusChange : Type := mkStatusChange {
  sc_taskId : Z;
  sc_status : string;
  sc_currentTask : Task.t
}.

(** [handleStatusChange] up to the [await].  [closure] is the [tasks] array of
    the render the handler belongs to; [b] is the state the setters act on. *)
Definition handleStatusChange_call (closure : list Task.t) (taskId : Z)
    (status : string) (b : Board) : Board * option StatusChange :=
  match List.find (fun task => Task.id task =? taskId) closure with
  | None => (b, None)
  | Some currentTask =>
      if String.eqb (Task.status currentTask) status then (b, None)
      else
        let b := markStatusUpdating taskId true b in
        let b := setTasks
                   (fun current =>
                      map (fun task =>
                             if Task.id task =? taskId
                             then Task.withStatus status task else task)
                        current) b in
        let b := send (ApiPatch taskId status) b in
        (b, Some (mkStatusChange taskId status currentTask))
  end.

(** [handleStatusChange] from the answer of [api.patch] on: the [try] branch
    when it resolved, the [catch] branch when it rejected, then [finally].
    [queryClient.invalidateQueries] is recorded as an effect; it changes no
    state of the component by itself. *)
Definition handleStatusChange_resume (k : StatusChange)
    (response : option KanbanCard.t) (b : Board) : Board :=
  let b := answered (ApiPatch (sc_taskId k) (sc_status k)) b in
  let b :=
    match response with
    | Some data =>
        let updated := convertCardToTask data in
        let b := setTasks
                   (fun current =>
                      map (fun task =>
                             if Task.id task =? Task.id updated then updated else task)
                        current) b in
        emit InvalidateQueries b
    | None =>
        let b := emit (ShowApiError "Could not update status") b in
        setTasks
          (fun current =>
             map (fun task =>
                    if Task.id task =? sc_taskId k
                    then Task.withStatus (Task.status (sc_currentTask k)) task
                    else task)
               current) b
    end in
  markStatusUpdating (sc_taskId k) false b.

(** [handleStatusChange] run from the current render with nothing else
    happening before the backend answers. *)
Definition handleStatusChange (api : Api) (taskId : Z) (status : string)
    (b : Board) : Board :=
  match handleStatusChange_call (tasks b) taskId status b with
  | (b1, None) => b1
  | (b1, Some k) => handleStatusChange_resume k (patch api taskId status) b1
  end.

(** [handleDeleteTask] up to [await api.delete]; the flag tells whether a call
    was sent ([false]: the guard returned). *)
Definition handleDeleteTask_call (taskId : Z) (b : Board) : Board * bool :=
  if bool_decide (deletingTaskId b = Some taskId) then (b, false)
  else
    let b := setDeletingTaskId (Some taskId) b in
    (send (ApiDelete taskId) b, true).

(** [handleDeleteTask] from the answer of [api.delete] on. *)
Definition handleDeleteTask_resume (taskId : Z) (resolved : bool) (b : Board) : Board :=
  let b := answered (ApiDelete taskId) b in
  let b :=
    if resolved then
      let b := setTasks
                 (fun current =>
                    List.filter (fun task => negb (Task.id task =? taskId)) current) b in
      let b := emit (ShowNotification "Task archived") b in
      emit InvalidateQueries b
    else emit (ShowApiError "Could not delete task") b in
  setDeletingTaskId None b.

Definition handleDeleteTask (api : Api) (taskId : Z) (b : Board) : Board :=
  match handleDeleteTask_call taskId b with
  | (b1, false) => b1
  | (b1, true) => handleDeleteTask_resume taskId (delete api taskId) b1
  end.

(** The effect on [cardsQuery.data]: the store is replaced by the fetched
    cards. *)
Definition receiveCards (data : option (list KanbanCard.t)) (b : Board) : Board :=
  setTasks (fun _ => map convertCardToTask (default [] data)) b.

(** ** Derived tag options *)

(** [Boolean(tag)] on a string. *)
Definition truthy (s : string) : bool := negb (Js.isEmpty s).

Definition serverTagsOf (tasks : list Task.t) : list string :=
  Js.arrayFromSet (List.filter truthy (flat_map Task.tags tasks)).

(** The updater passed to [setTagOptions] by the effect on [tasks]. *)
Definition combineTagOptions (serverTags current : list string) : list string :=
  let combined := Js.arrayFromSet (DEFAULT_TAG_OPTIONS ++ current ++ serverTags) in
  if (Z.of_nat (length combined) =? Z.of_nat (length current))
     && forallb (fun value => Js.arrayIncludes value current) combined
  then current else combined.

(** The effect on [tasks]. *)
Definition tagOptionsEffect (b : Board) : Board :=
  let serverTags := serverTagsOf (tasks b) in
  if Z.of_nat (length serverTags) =? 0 then b
  else setTagOptions (combineTagOptions serverTags) b.

(** The store is replaced and the effect on [tasks] has run. *)
Definition loadTasks (data : option (list KanbanCard.t)) (b : Board) : Board :=
  tagOptionsEffect (receiveCards data b).

Definition handleAddTagOption (b : Board) : Board :=
  let normalized := Js.trim (newTagName b) in
  if Js.isEmpty normalized then b
  else
    let b := setTagOptions
               (fun current =>
                  if Js.arrayIncludes normalized current then current
                  else current ++ [normalized]) b in
    let b := setNewTagName "" b in
    setTaskFormTags
      (if Js.arrayIncludes normalized (taskFormTags b) then taskFormTags b
       else taskFormTags b ++ [normalized]) b.

(** The tag vocabularies the component can be in: the initial one, and what
    the two writers of [tagOptions] make of a reachable one. *)
Inductive reachableTagOptions : list string -> Prop :=
  | reach_initial : reachableTagOptions DEFAULT_TAG_OPTIONS
  | reach_effect (b : Board) :
      reachableTagOptions (tagOptions b) ->
      reachableTagOptions (tagOptions (tagOptionsEffect b))
  | reach_add (b : Board) :
      reachableTagOptions (tagOptions b) ->
      reachableTagOptions (tagOptions (handleAddTagOption b)).


(** ** Column registry *)

(** [array[i]] for a JavaScript number [i]: absent outside the array. *)
Definition at_ {A : Type} (l : list A) (i : Z) : option A :=
  if i <? 0 then None else l !! Z.to_nat i.

Definition columnIs (columnId : string) (column : Column.t) : bool :=
  String.eqb (Column.id column) columnId.

Definition handleRequestDeleteColumn (columnId : string) (b : Board) : Board :=
  let columnIndex := Js.findIndex (columnIs columnId) (columns b) in
  if columnIndex <=? 0 then b
  else
    match at_ (columns b) columnIndex, at_ (columns b) (columnIndex - 1) with
    | Some column, Some fallbackColumn =>
        setColumnDeletionContext
          (Some (ColumnDeletionContext.mk column fallbackColumn)) b
    | _, _ => b
    end.

(** [affectedTasks.map((task) => handleStatusChange(task.id, fallbackId))]: the
    calls start one after the other, all from the same render, and each runs
    up to its [await]. *)
Fixpoint startStatusChanges (closure : list Task.t) (fallbackId : string)
    (affectedTasks : list Task.t) (b : Board) : Board * list StatusChange :=
  match affectedTasks with
  | [] => (b, [])
  | task :: rest =>
      let '(b1, k) := handleStatusChange_call closure (Task.id task) fallbackId b in
      let '(b2, ks) := startStatusChanges closure fallbackId rest b1 in
      (b2, match k with Some k => k :: ks | None => ks end)
  end.

(** [handleDeleteColumn] up to [await Promise.all]: [None] when the guard
    returned, otherwise the suspended status changes.  [findIndex] returned a
    position of [columns], so the column before it is there. *)
Definition handleDeleteColumn_call (columnId : string) (b : Board)
    : Board * option (list StatusChange) :=
  let columnIndex := Js.findIndex (columnIs columnId) (columns b) in
  if columnIndex <=? 0 then (b, None)
  else
    match at_ (columns b) (columnIndex - 1) with
    | None => (b, None)
    | Some fallbackColumn =>
        let fallbackId := Column.id fallbackColumn in
        let affectedTasks :=
          List.filter (fun task => String.eqb (Task.status task) columnId) (tasks b) in
        let '(b1, ks) := startStatusChanges (tasks b) fallbackId affectedTasks b in
        (b1, Some ks)
    end.

(** [handleDeleteColumn] after [Promise.all] resolved. *)
Definition handleDeleteColumn_resume (columnId : string) (b : Board) : Board :=
  let b := setColumns
             (fun currentColumns =>
                List.filter (fun column => negb (columnIs columnId column)) currentColumns) b in
  let b := setFilters
             (fun currentFilters =>
                Filters.withColumn
                  (if String.eqb (Filters.column currentFilters) columnId
                   then "all" else Filters.column currentFilters)
                  currentFilters) b in
  setColumnDeletionContext None b.

(** The suspended status changes are answered in the order they were sent. *)
Definition settleStatusChanges (api : Api) (ks : list StatusChange) (b : Board) : Board :=
  fold_left
    (fun acc k => handleStatusChange_resume k (patch api (sc_taskId k) (sc_status k)) acc)
    ks b.

Definition handleDeleteColumn (api : Api) (columnId : string) (b : Board) : Board :=
  match handleDeleteColumn_call columnId b with
  | (b1, None) => b1
  | (b1, Some ks) => handleDeleteColumn_resume columnId (settleStatusChanges api ks b1)
  end.

(** [columnForm.reset()] puts the initial values back and clears the errors. *)
Definition closeColumnModal (b : Board) : Board :=
  setColumnForm (ColumnFormValues.mk "" "gray") None (setColumnModalOpen false b).

(** The [validate] rule of [columnForm] for the label. *)
Definition validateLabel (value : string) : option string :=
  if Z.of_nat (String.length (Js.trim value)) =? 0
  then Some "Name cannot be empty." else None.

(** [handleColumnSubmit = columnForm.onSubmit(...)]: the form library runs the
    [validate] rules on the form's values and calls the handler only when none
    of them reports an error; otherwise it stores the errors. *)
Definition handleColumnSubmit (generated : string) (b : Board) : Board :=
  let values := columnFormValues b in
  match validateLabel (ColumnFormValues.label values) with
  | Some error => setColumnForm values (Some error) b
  | None =>
      let nextSlug := slugify generated (ColumnFormValues.label values) in
      if existsb (fun column => String.eqb (Column.id column) nextSlug) (columns b)
      then setColumnForm values (Some "Choose a unique name.") b
      else
        let b := setColumns
                   (fun current =>
                      current ++ [Column.mk nextSlug (ColumnFormValues.label values)
                                    (ColumnFormValues.color values)]) b in
        closeColumnModal b
  end.

(** ** Column reorder controller *)

Definition enterReorderMode (b : Board) : Board :=
  setIsReordering true (setPendingColumnOrder (fun _ => columns b) b).

Definition cancelReorderMode (b : Board) : Board :=
  setIsReordering false (setPendingColumnOrder (fun _ => columns b) b).

Definition saveColumnOrder (b : Board) : Board :=
  setIsReordering false (setColumns (fun _ => pendingColumnOrder b) b).

(** The updater of [moveColumn].  Both entries of the swap are read before
    either is written.  [None] stands for the array JavaScript builds when
    [index] itself is outside the draft while the target is inside: it holds
    [undefined] and is no [Column[]]. *)
Definition swapColumns (index direction : Z) (current : list Column.t)
    : option (list Column.t) :=
  let targetIndex := index + direction in
  if (targetIndex <? 0) || (targetIndex >=? Z.of_nat (length current)) then Some current
  else
    match at_ current index, at_ current targetIndex with
    | Some atIndex, Some atTarget =>
        Some (<[Z.to_nat index := atTarget]> (<[Z.to_nat targetIndex := atIndex]> current))
    | _, _ => None
    end.

Definition moveColumn (index direction : Z) (b : Board) : option Board :=
  match swapColumns index direction (pendingColumnOrder b) with
  | Some next => Some (setPendingColumnOrder (fun _ => next) b)
  | None => None
  end.

(** A sequence of [moveColumn] calls, each given as (index, direction). *)
Fixpoint moveColumns (moves : list (Z * Z)) (b : Board) : option Board :=
  match moves with
  | [] => Some b
  | (index, direction) :: rest =>
      match moveColumn index direction b with
      | Some b' => moveColumns rest b'
      | None => None
      end
  end.

(** The effect on [columns] and [isReordering]. *)
Definition pendingColumnOrderEffect (b : Board) : Board :=
  if negb (isReordering b) then setPendingColumnOrder (fun _ => columns b) b else b.

(** [isColumnOrderDirty]. *)
Definition isColumnOrderDirty (b : Board) : bool :=
  if negb (Nat.eqb (length (pendingColumnOrder b)) (length (columns b))) then true
  else
    existsb
      (fun '(index, column) =>
         match columns b !! index with
         | Some c => strNe (Column.id column) (Column.id c)
         | None => true
         end)
      (imap (fun index column => (index, column)) (pendingColumnOrder b)).


(** ** Notions the statements below use *)

(** No two separators in a row. *)
Fixpoint singleDashes (s : string) : Prop :=
  match s with
  | EmptyString => True
  | String c s' =>
      match s' with
      | String c' _ => (isDash c && isDash c' = false) /\ singleDashes s'
      | EmptyString => True
      end
  end.

(** Every character of the string passes the test. *)
Fixpoint everyChar (p : ascii -> bool) (s : string) : bool :=
  match s with
  | EmptyString => true
  | String c s' => p c && everyChar p s'
  end.

(** A character a slug is made of. *)
Definition isSlugOrDash (c : ascii) : bool := isSlugChar c || isDash c.

(** [needle] occurs in [text]. *)
Definition occursIn (needle text : string) : Prop :=
  exists before after, text = String.append before (String.append needle after).

(** What the criteria ask of a task, predicate by predicate. *)
Module Criteria.
Definition column (f : Filters.t) (task : Task.t) : Prop :=
  Filters.column f <> "all" -> Task.status task = Filters.column f.
Definition priority (f : Filters.t) (task : Task.t) : Prop :=
  forall p, Filters.priority f = onlyPriority p -> Task.priority task = p.
Definition tags (f : Filters.t) (task : Task.t) : Prop :=
  forall tag, tag ∈ Filters.tags f -> tag ∈ Task.tags task.
Definition assignee (f : Filters.t) (task : Task.t) : Prop :=
  Filters.assignee f <> "all" -> Task.assignee task = Filters.assignee f.
Definition jobNumber (f : Filters.t) (task : Task.t) : Prop :=
  Filters.jobNumber f <> "all" -> Task.jobNumber task = Filters.jobNumber f.
Definition serviceQuote (f : Filters.t) (task : Task.t) : Prop :=
  Filters.serviceQuote f <> "all" -> Task.serviceQuote task = Filters.serviceQuote f.
Definition search (f : Filters.t) (task : Task.t) : Prop :=
  Js.trim (Filters.search f) <> "" ->
  occursIn (Js.toLowerCase (Js.trim (Filters.search f)))
    (Js.toLowerCase
       (Js.join " "
          [Task.title task; Task.description task; Task.assignee task;
           Js.join " " (Task.tags task); Task.company task;
           Task.companyContactName task; Task.companyContactPhone task;
           Task.jobNumber task; Task.serviceQuote task])).
Definition all (f : Filters.t) (task : Task.t) : Prop :=
  column f task /\ priority f task /\ tags f task /\ assignee f task
  /\ jobNumber f task /\ serviceQuote f task /\ search f task.
End Criteria.

(** One status change up to its [await], when it goes through. *)
Definition started (fallbackId : string) (b : Board) (task : Task.t) : Board :=
  send (ApiPatch (Task.id task) fallbackId)
    (setTasks
       (fun current =>
          map (fun x => if Task.id x =? Task.id task
                        then Task.withStatus fallbackId x else x) current)
       (markStatusUpdating (Task.id task) true b)).

(** A task of the deleted column with the status of the fallback column; any
    other task as it is. *)
Definition reassigned (columnId fallbackId : string) (task : Task.t) : Task.t :=
  if String.eqb (Task.status task) columnId
  then Task.withStatus fallbackId task else task.

(** The backend applies the patch: it answers with a card that has the
    identifier of the task and the requested status.  The other fields of the
    card are the server's, [updated_at] among them. *)
Definition patchApplied (api : Api) (status : string) (task : Task.t) : Prop :=
  exists card,
    patch api (Task.id task) status = Some card
    /\ KanbanCard.id card = Task.id task
    /\ KanbanCard.status card = status.

(** The task as the backend answers the patch; the task itself when the patch
    fails. *)
Definition patched (api : Api) (status : string) (task : Task.t) : Task.t :=
  match patch api (Task.id task) status with
  | Some card => convertCardToTask card
  | None => task
  end.

(** Defaults first, no value twice. *)
Definition vocabulary (current : list string) : Prop :=
  (exists known, current = DEFAULT_TAG_OPTIONS ++ known) /\ NoDup current.

(** ** Boards and backends used in the examples below *)

Definition exampleCard (taskId : Z) (status : string) (tags : list string)
    : KanbanCard.t :=
  KanbanCard.mk taskId "Replace pump" None status medium None None (Some tags)
    None None None None None true "" "".

Definition exampleCards : list KanbanCard.t :=
  [exampleCard 1 "doing" ["A"]; exampleCard 2 "done" []].

Definition threeColumns : list Column.t :=
  [Column.mk "backlog" "Backlog" "gray";
   Column.mk "doing" "Doing" "blue";
   Column.mk "done" "Done" "green"].

(** Columns [backlog, doing, done]; task 1 in [doing], task 2 in [done]. *)
Definition exampleBoard : Board :=
  loadTasks (Some exampleCards)
    (setPendingColumnOrder (fun _ => threeColumns)
       (setColumns (fun _ => threeColumns) initialBoard)).

(** The first task of [exampleBoard]. *)
Definition pumpTask : Task.t := convertCardToTask (exampleCard 1 "doing" ["A"]).

(** A backend that holds cards, applies a patch to the card with the given
    identifier and returns the patched card. *)
Definition serverApi (cards : list KanbanCard.t) : Api :=
  mkApi
    (fun taskId status =>
       match List.find (fun card => KanbanCard.id card =? taskId) cards with
       | Some card => Some (KanbanCard.withStatus status card)
       | None => None
       end)
    (fun taskId => existsb (fun card => KanbanCard.id card =? taskId) cards).

Definition workingApi : Api := serverApi exampleCards.

(** A backend that applies a patch to the card with the given identifier and
    stamps the time of the change on it. *)
Definition stampingApi : Api :=
  mkApi
    (fun taskId status =>
       match List.find (fun card => KanbanCard.id card =? taskId) exampleCards with
       | Some card =>
           Some (KanbanCard.mk (KanbanCard.id card) (KanbanCard.title card)
                   (KanbanCard.description card) status (KanbanCard.priority card)
                   (KanbanCard.due_date card) (KanbanCard.assignee card)
                   (KanbanCard.tags card) (KanbanCard.company card)
                   (KanbanCard.company_contact_name card)
                   (KanbanCard.company_contact_phone card)
                   (KanbanCard.job_number card) (KanbanCard.service_quote card)
                   (KanbanCard.is_active card) (KanbanCard.created_at card)
                   "2025-03-02T10:00:00Z")
       | None => None
       end)
    (fun taskId => existsb (fun card => KanbanCard.id card =? taskId) exampleCards).

(** A backend whose every call fails. *)
Definition failingApi : Api :=
  mkApi (fun _ _ => None) (fun _ => false).

(** The column form filled in with a label. *)
Definition formFilled (label color : string) (b : Board) : Board :=
  setColumnForm (ColumnFormValues.mk label color) None b.

(** A card whose only tag is the empty string. *)
Definition untaggedCard : KanbanCard.t := exampleCard 3 "backlog" [""].

(** * The rest of the component *)

(** ** Filter controls *)

Definition resetFilters (b : Board) : Board :=
  setFilters (fun _ => Filters.initial) b.

(** The [onChange] handlers of the filter bar; a cleared select reports
    [null]. *)
Definition onSearchChange (value : string) (b : Board) : Board :=
  setFilters (fun current => Filters.withSearch value current) b.

Definition onColumnFilterChange (value : option string) (b : Board) : Board :=
  setFilters (fun current => Filters.withColumn (default "all" value) current) b.

Definition onPriorityFilterChange (value : option PriorityFilterValue) (b : Board)
    : Board :=
  setFilters (fun current => Filters.withPriority (default allPriorities value) current) b.

Definition onTagFilterChange (value : list string) (b : Board) : Board :=
  setFilters (fun current => Filters.withTags value current) b.

Definition onAssigneeFilterChange (value : option string) (b : Board) : Board :=
  setFilters (fun current => Filters.withAssignee (default "all" value) current) b.

Definition onJobNumberFilterChange (value : option string) (b : Board) : Board :=
  setFilters (fun current => Filters.withJobNumber (default "all" value) current) b.

Definition onServiceQuoteFilterChange (value : option string) (b : Board) : Board :=
  setFilters (fun current => Filters.withServiceQuote (default "all" value) current) b.

(** An entry of a select: [{ value, label }]. *)
Module SelectOption.
Record t : Type := mk {
  value : string;
  label : string
}.
End SelectOption.

Definition jobFilterOptions (tasks : list Task.t) : list SelectOption.t :=
  let jobNumbers :=
    Js.arrayFromSet (List.filter truthy (map Task.jobNumber tasks)) in
  SelectOption.mk "all" "All jobs"
  :: map (fun job => SelectOption.mk job job) jobNumbers.

Definition assigneeFilterOptions (tasks : list Task.t) : list SelectOption.t :=
  let assignees :=
    Js.arrayFromSet (List.filter truthy (map Task.assignee tasks)) in
  SelectOption.mk "all" "All employees"
  :: map (fun assignee => SelectOption.mk assignee assignee) assignees.

Definition serviceQuoteFilterOptions (tasks : list Task.t) : list SelectOption.t :=
  let quotes :=
    Js.arrayFromSet (List.filter truthy (map Task.serviceQuote tasks)) in
  SelectOption.mk "all" "All service quotes"
  :: map (fun quote => SelectOption.mk quote quote) quotes.

Definition columnOptions (columns : list Column.t) : list SelectOption.t :=
  map (fun column => SelectOption.mk (Column.id column) (Column.label column)) columns.

Definition columnFilterOptions (columns : list Column.t) : list SelectOption.t :=
  SelectOption.mk "all" "All columns" :: columnOptions columns.

(** ** Layout *)

Definition displayColumns (b : Board) : list Column.t :=
  if isReordering b then pendingColumnOrder b else columns b.

Definition visibleColumns (b : Board) : list Column.t :=
  if isReordering b then displayColumns b
  else if String.eqb (Filters.column (filters b)) "all" then displayColumns b
  else List.filter
         (fun column => String.eqb (Column.id column) (Filters.column (filters b)))
         (displayColumns b).

(** The cards rendered in a column. *)
Definition columnTasks (b : Board) (column : Column.t) : list Task.t :=
  List.filter (fun task => String.eqb (Task.status task) (Column.id column))
    (filteredTasks (tasks b) (filters b)).

Definition displayColumnCount (b : Board) : Z :=
  Z.of_nat (length (visibleColumns b)).

Definition largeBreakpointColumns (b : Board) : Z :=
  Z.max 1 (Z.min (displayColumnCount b) 4).

Definition smallBreakpointColumns (b : Board) : Z :=
  Z.max 1 (Z.min (displayColumnCount b) 2).

(** Whether the delete button of a rendered column is offered. *)
Definition deleteOffered (b : Board) (column : Column.t) : bool :=
  negb (isReordering b)
  && (0 <? Js.findIndex (columnIs (Column.id column)) (columns b)).

(** ** Task form *)

Module KanbanCardPayload.
Record t : Type := mk {
  title : string;
  description : string;
  status : string;
  priority : KanbanPriority;
  due_date : option string;
  assignee : string;
  tags : list string;
  company : string;
  company_contact_name : string;
  company_contact_phone : string;
  job_number : string;
  service_quote : string
}.
End KanbanCardPayload.

(** The calls of the task form: [api.post] and [api.put]. *)
Inductive TaskRequest : Type :=
  | ApiPost (payload : KanbanCardPayload.t)
  | ApiPut (taskId : Z) (payload : KanbanCardPayload.t).

(** The errors of the task form, one per validated field. *)
Module TaskFormErrors.
Record t : Type := mk {
  title : option string;
  status : option string
}.
Definition none : t := mk None None.
Definition hasErrors (e : t) : bool :=
  match title e, status e with
  | None, None => false
  | _, _ => true
  end.
End TaskFormErrors.

Section TaskPage.

(** The date library is outside the repository: [Date] is the type of its
    date objects, [formatDate d] is [dayjs(d).format('YYYY-MM-DD')],
    [toDate s] is [dayjs(s).toDate()], and [toNumber s] is [Number(s)] when
    that is an integer ([None] when it is [NaN] or has a fraction, which no
    task identifier equals). *)
Variable Date : Type.
Variable formatDate : Date -> string.
Variable toDate : string -> Date.
Variable toNumber : string -> option Z.

Record TaskFormValues : Type := mkTaskFormValues {
  form_title : string;
  form_description : string;
  form_status : string;
  form_priority : KanbanPriority;
  form_assignee : string;
  form_tags : list string;
  form_dueDate : option Date;
  form_company : string;
  form_companyContactName : string;
  form_companyContactPhone : string;
  form_jobNumber : string;
  form_serviceQuote : string
}.

(** [initialValues] of [taskForm]. *)
Definition initialTaskFormValues : TaskFormValues :=
  mkTaskFormValues "" "" "backlog" medium "" [] None "" "" "" "" "".

(** The board together with the cells of the task modal and of the drag and
    drop.  The tags of the task form are the board's cell [taskFormTags],
    which [handleAddTagOption] writes; the tags stored in [taskFormStored]
    are not read.  [requests] lists the calls of the form in the order they
    were sent. *)
Record Page : Type := mkPage {
  board : Board;
  taskModalOpen : bool;
  editingTask : option Task.t;
  taskFormStored : TaskFormValues;
  taskFormErrors : TaskFormErrors.t;
  savingTask : bool;
  draggingTaskId : option Z;
  dragOverColumnId : option string;
  requests : list TaskRequest
}.

Definition initialPage : Page :=
  mkPage initialBoard false None initialTaskFormValues TaskFormErrors.none false
    None None [].

Definition onBoard (f : Board -> Board) (p : Page) : Page :=
  mkPage (f (board p)) (taskModalOpen p) (editingTask p) (taskFormStored p)
    (taskFormErrors p) (savingTask p) (draggingTaskId p) (dragOverColumnId p)
    (requests p).

Definition setTaskModalOpen (v : bool) (p : Page) : Page :=
  mkPage (board p) v (editingTask p) (taskFormStored p)
    (taskFormErrors p) (savingTask p) (draggingTaskId p) (dragOverColumnId p)
    (requests p).

Definition setEditingTask (v : option Task.t) (p : Page) : Page :=
  mkPage (board p) (taskModalOpen p) v (taskFormStored p)
    (taskFormErrors p) (savingTask p) (draggingTaskId p) (dragOverColumnId p)
    (requests p).

Definition setTaskFormErrors (v : TaskFormErrors.t) (p : Page) : Page :=
  mkPage (board p) (taskModalOpen p) (editingTask p) (taskFormStored p)
    v (savingTask p) (draggingTaskId p) (dragOverColumnId p)
    (requests p).

Definition setSavingTask (v : bool) (p : Page) : Page :=
  mkPage (board p) (taskModalOpen p) (editingTask p) (taskFormStored p)
    (taskFormErrors p) v (draggingTaskId p) (dragOverColumnId p)
    (requests p).

Definition setDraggingTaskId (v : option Z) (p : Page) : Page :=
  mkPage (board p) (taskModalOpen p) (editingTask p) (taskFormStored p)
    (taskFormErrors p) (savingTask p) v (dragOverColumnId p)
    (requests p).

Definition setDragOverColumnId (f : option string -> option string) (p : Page) : Page :=
  mkPage (board p) (taskModalOpen p) (editingTask p) (taskFormStored p)
    (taskFormErrors p) (savingTask p) (draggingTaskId p) (f (dragOverColumnId p))
    (requests p).

Definition sendTaskRequest (r : TaskRequest) (p : Page) : Page :=
  mkPage (board p) (taskModalOpen p) (editingTask p) (taskFormStored p)
    (taskFormErrors p) (savingTask p) (draggingTaskId p) (dragOverColumnId p)
    (requests p ++ [r]).

(** [taskForm.values]. *)
Definition taskFormValues (p : Page) : TaskFormValues :=
  let v := taskFormStored p in
  mkTaskFormValues (form_title v) (form_description v) (form_status v)
    (form_priority v) (form_assignee v) (taskFormTags (board p)) (form_dueDate v)
    (form_company v) (form_companyContactName v) (form_companyContactPhone v)
    (form_jobNumber v) (form_serviceQuote v).

(** [taskForm.setValues(values)]; the form library clears the errors when
    the values are set ([clearInputErrorOnChange], on by default). *)
Definition setTaskFormValues (values : TaskFormValues) (p : Page) : Page :=
  mkPage (setTaskFormTags (form_tags values) (board p)) (taskModalOpen p)
    (editingTask p) values TaskFormErrors.none (savingTask p) (draggingTaskId p)
    (dragOverColumnId p) (requests p).

(** [taskForm.reset()]: the initial values, no errors. *)
Definition resetTaskForm (p : Page) : Page :=
  setTaskFormErrors TaskFormErrors.none (setTaskFormValues initialTaskFormValues p).

Definition formValuesToPayload (values : TaskFormValues) : KanbanCardPayload.t :=
  KanbanCardPayload.mk (form_title values) (form_description values)
    (form_status values) (form_priority values)
    (match form_dueDate values with
     | Some dueDate => Some (formatDate dueDate)
     | None => None
     end)
    (form_assignee values) (form_tags values) (form_company values)
    (form_companyContactName values) (form_companyContactPhone values)
    (form_jobNumber values) (form_serviceQuote values).

Definition openCreateTaskModal (p : Page) : Page :=
  let firstColumn :=
    match at_ (columns (board p)) 0 with
    | Some column => Column.id column
    | None => "backlog"
    end in
  let p := setEditingTask None p in
  let p := setTaskFormValues
             (mkTaskFormValues "" "" firstColumn medium "" [] None "" "" "" "" "") p in
  setTaskModalOpen true p.

Definition openEditTaskModal (task : Task.t) (p : Page) : Page :=
  let p := setEditingTask (Some task) p in
  let p := setTaskFormValues
             (mkTaskFormValues (Task.title task) (Task.description task)
                (Task.status task) (Task.priority task) (Task.assignee task)
                (Task.tags task)
                (match Task.dueDate task with
                 | Some dueDate =>
                     if truthy dueDate then Some (toDate dueDate) else None
                 | None => None
                 end)
                (Task.company task) (Task.companyContactName task)
                (Task.companyContactPhone task) (Task.jobNumber task)
                (Task.serviceQuote task)) p in
  setTaskModalOpen true p.

Definition closeTaskModal (p : Page) : Page :=
  let p := setTaskModalOpen false p in
  let p := setEditingTask None p in
  let p := onBoard (setNewTagName "") p in
  let p := resetTaskForm p in
  setSavingTask false p.

(** The [validate] rules of [taskForm]. *)
Definition validateTask (values : TaskFormValues) : TaskFormErrors.t :=
  TaskFormErrors.mk
    (if Z.of_nat (String.length (Js.trim (form_title values))) =? 0
     then Some "Give the task a descriptive title." else None)
    (if truthy (form_status values) then None
     else Some "Choose a column for this task.").

(** A call of [handleTaskSubmit] suspended at [await api.put] or
    [await api.post]: the [editingTask] of its render. *)
Record TaskSubmit : Type := mkTaskSubmit {
  ts_editingTask : option Task.t
}.

(** [handleTaskSubmit = taskForm.onSubmit(...)] up to the [await]: the form
    library runs the [validate] rules, stores their errors, and calls the
    handler only when there is none. *)
Definition handleTaskSubmit_call (p : Page) : Page * option TaskSubmit :=
  let values := taskFormValues p in
  let errors := validateTask values in
  let p' := setTaskFormErrors errors p in
  if TaskFormErrors.hasErrors errors then (p', None)
  else
    let payload := formValuesToPayload values in
    let p' := setSavingTask true p' in
    match editingTask p with
    | Some task =>
        (sendTaskRequest (ApiPut (Task.id task) payload) p',
         Some (mkTaskSubmit (Some task)))
    | None =>
        (sendTaskRequest (ApiPost payload) p', Some (mkTaskSubmit None))
    end.

(** [handleTaskSubmit] from the answer of the backend on. *)
Definition handleTaskSubmit_resume (k : TaskSubmit)
    (response : option KanbanCard.t) (p : Page) : Page :=
  match response with
  | Some data =>
      let p :=
        match ts_editingTask k with
        | Some _ =>
            let updated := convertCardToTask data in
            let p := onBoard
                       (setTasks
                          (fun current =>
                             map (fun task =>
                                    if Task.id task =? Task.id updated
                                    then updated else task) current)) p in
            onBoard (emit (ShowNotification "Task updated")) p
        | None =>
            let created := convertCardToTask data in
            let p := onBoard (setTasks (fun current => current ++ [created])) p in
            onBoard (emit (ShowNotification "Task created")) p
        end in
      let p := onBoard (emit InvalidateQueries) p in
      closeTaskModal p
  | None =>
      let p := onBoard
                 (emit (ShowApiError
                          (match ts_editingTask k with
                           | Some _ => "Could not update task"
                           | None => "Could not create task"
                           end))) p in
      setSavingTask false p
  end.

(** ** Drag and drop *)

(** [handleTaskDragStart]; the second component is the text written to the
    event's [dataTransfer], [String(taskId)]. *)
Definition handleTaskDragStart (taskId : Z) (p : Page) : Page * string :=
  (setDraggingTaskId (Some taskId) p, pretty taskId).

Definition handleTaskDragEnd (p : Page) : Page :=
  setDragOverColumnId (fun _ => None) (setDraggingTaskId None p).

(** [handleColumnDragOver]; the flag tells whether [event.preventDefault()]
    was called, which is what lets the browser drop on the column. *)
Definition handleColumnDragOver (columnId : string) (p : Page) : Page * bool :=
  match draggingTaskId p with
  | None => (p, false)
  | Some _ =>
      if bool_decide (dragOverColumnId p = Some columnId) then (p, true)
      else (setDragOverColumnId (fun _ => Some columnId) p, true)
  end.

(** [handleColumnDragLeave]; [outside] is
    [!relatedTarget || !event.currentTarget.contains(relatedTarget)]. *)
Definition handleColumnDragLeave (outside : bool) (columnId : string) (p : Page)
    : Page :=
  if outside then
    setDragOverColumnId
      (fun current => if bool_decide (current = Some columnId) then None else current) p
  else p.

(** What [handleColumnDrop] is waiting for. *)
Inductive DropAwait : Type :=
  | DropDone
  | DropAwaits (k : option StatusChange).

(** [handleColumnDrop] up to [await handleStatusChange(...)]; [rawId] is the
    text of the event's [dataTransfer].  A number that is no integer finds no
    task, so that [handleStatusChange] returns at once. *)
Definition handleColumnDrop_call (rawId : string) (columnId : string) (p : Page)
    : Page * DropAwait :=
  if truthy rawId then
    match toNumber rawId with
    | Some droppedTaskId =>
        let '(b, k) :=
          handleStatusChange_call (tasks (board p)) droppedTaskId columnId (board p) in
        (onBoard (fun _ => b) p, DropAwaits k)
    | None => (p, DropAwaits None)
    end
  else
    match draggingTaskId p with
    | None => (handleTaskDragEnd p, DropDone)
    | Some droppedTaskId =>
        let '(b, k) :=
          handleStatusChange_call (tasks (board p)) droppedTaskId columnId (board p) in
        (onBoard (fun _ => b) p, DropAwaits k)
    end.

(** [handleColumnDrop] after [handleStatusChange] has settled. *)
Definition handleColumnDrop_resume (k : option StatusChange)
    (response : option KanbanCard.t) (p : Page) : Page :=
  handleTaskDragEnd
    (match k with
     | Some k => onBoard (handleStatusChange_resume k response) p
     | None => p
     end).

(** [handleColumnDrop] with nothing else happening before the backend
    answers. *)
Definition handleColumnDrop (api : Api) (rawId : string) (columnId : string)
    (p : Page) : Page :=
  match handleColumnDrop_call rawId columnId p with
  | (p1, DropDone) => p1
  | (p1, DropAwaits None) => handleColumnDrop_resume None None p1
  | (p1, DropAwaits (Some k)) =>
      handleColumnDrop_resume (Some k) (patch api (sc_taskId k) (sc_status k)) p1
  end.

End TaskPage.

Arguments mkTaskFormValues {Date}.
Arguments mkPage {Date}.
Arguments form_title {Date}.
Arguments form_description {Date}.
Arguments form_status {Date}.
Arguments form_priority {Date}.
Arguments form_assignee {Date}.
Arguments form_tags {Date}.
Arguments form_dueDate {Date}.
Arguments form_company {Date}.
Arguments form_companyContactName {Date}.
Arguments form_companyContactPhone {Date}.
Arguments form_jobNumber {Date}.
Arguments form_serviceQuote {Date}.
Arguments board {Date}.
Arguments taskModalOpen {Date}.
Arguments editingTask {Date}.
Arguments taskFormStored {Date}.
Arguments taskFormErrors {Date}.
Arguments savingTask {Date}.
Arguments draggingTaskId {Date}.
Arguments dragOverColumnId {Date}.
Arguments requests {Date}.
Arguments initialTaskFormValues {Date}.
Arguments initialPage {Date}.
Arguments onBoard {Date}.
Arguments setTaskModalOpen {Date}.
Arguments setEditingTask {Date}.
Arguments setTaskFormErrors {Date}.
Arguments setSavingTask {Date}.
Arguments setDraggingTaskId {Date}.
Arguments setDragOverColumnId {Date}.
Arguments sendTaskRequest {Date}.
Arguments taskFormValues {Date}.
Arguments setTaskFormValues {Date}.
Arguments resetTaskForm {Date}.
Arguments formValuesToPayload {Date}.
Arguments openCreateTaskModal {Date}.
Arguments openEditTaskModal {Date}.
Arguments closeTaskModal {Date}.
Arguments validateTask {Date}.
Arguments handleTaskSubmit_call {Date}.
Arguments handleTaskSubmit_resume {Date}.
Arguments handleTaskDragStart {Date}.
Arguments handleTaskDragEnd {Date}.
Arguments handleColumnDragOver {Date}.
Arguments handleColumnDragLeave {Date}.
Arguments handleColumnDrop_call {Date}.
Arguments handleColumnDrop_resume {Date}.
Arguments handleColumnDrop {Date}.

(** ** Notions of the statements about the rest of the component *)

(** The status of the task is the identifier of one of the columns. *)
Definition statusIn (cols : list Column.t) (task : Task.t) : bool :=
  existsb (fun column => String.eqb (Task.status task) (Column.id column)) cols.

(** A select of the filter bar serves the store: every non-empty value of the
    field is offered; choosing an offered value other than ['all'], from
    reset filters, shows exactly the tasks with that value, and there is one;
    clearing the select shows the whole store; and the offered values are
    distinct unless a task has the value ['all'] itself. *)
Definition selectServes (field : Task.t -> string) (options : list SelectOption.t)
    (select : option string -> Board -> Board) (b : Board) : Prop :=
  (forall task, task ∈ tasks b -> field task <> "" ->
     SelectOption.mk (field task) (field task) ∈ options)
  /\ (forall opt, opt ∈ options -> SelectOption.value opt <> "all" ->
        let b' := select (Some (SelectOption.value opt)) (resetFilters b) in
        filteredTasks (tasks b') (filters b')
        = List.filter (fun task => String.eqb (field task) (SelectOption.value opt))
            (tasks b)
        /\ filteredTasks (tasks b') (filters b') <> [])
  /\ (let b' := select None (resetFilters b) in
      filteredTasks (tasks b') (filters b') = tasks b)
  /\ (NoDup (map SelectOption.value options)
      <-> forall task, task ∈ tasks b -> field task <> "all").

(** ** The wiring of the drag events *)

(** [draggable] of a rendered card. *)
Definition draggable {Date : Type} (p : Page Date) (taskId : Z) : bool :=
  negb (isReordering (board p))
  && negb (bool_decide (deletingTaskId (board p) = Some taskId))
  && negb (bool_decide (taskId ∈ statusUpdating (board p))).

(** Whether a rendered column has the dashed outline. *)
Definition columnOutlined {Date : Type} (p : Page Date) (columnId : string) : bool :=
  negb (isReordering (board p))
  && bool_decide (dragOverColumnId p = Some columnId).

(** The events of a drag on the cards and columns. *)
Inductive DragStep : Type :=
  | DragStart (taskId : Z)
  | DragEnd
  | DragOver (columnId : string)
  | DragLeave (outside : bool) (columnId : string)
  | Drop (rawId : string) (columnId : string).

(** The handler an event reaches; in reorder mode the cards and columns have
    no drag handlers. *)
Definition dragStep {Date : Type} (toNumber : string -> option Z) (api : Api)
    (p : Page Date) (step : DragStep) : Page Date :=
  if isReordering (board p) then p
  else
    match step with
    | DragStart taskId => fst (handleTaskDragStart taskId p)
    | DragEnd => handleTaskDragEnd p
    | DragOver columnId => fst (handleColumnDragOver columnId p)
    | DragLeave outside columnId => handleColumnDragLeave outside columnId p
    | Drop rawId columnId => handleColumnDrop toNumber api rawId columnId p
    end.

(** No column is hovered unless a card is being dragged. *)
Definition hoverWhileDragging {Date : Type} (p : Page Date) : Prop :=
  draggingTaskId p = None -> dragOverColumnId p = None.

(** ** A concrete page *)

(** A date library whose dates are their ISO text. *)
Definition isoFormat (d : string) : string := d.

Definition isoDate (s : string) : string := s.

(** The page around [exampleBoard], with nothing open. *)
Definition examplePage : Page string :=
  mkPage exampleBoard false None initialTaskFormValues TaskFormErrors.none false
    None None [].

(** The first task of [exampleBoard] with a due date. *)
Definition datedTask : Task.t :=
  convertCardToTask
    (KanbanCard.mk 1 "Replace pump" None "doing" medium (Some "2025-03-01") None
       (Some ["A"]) None None None None None true "" "").

(** * Proofs *)

(** * Strings *)

Section StringFacts.

Lemma isEmpty_true (s : string) : Js.isEmpty s = true <-> s = EmptyString.
Proof. destruct s; simpl; split; congruence. Qed.

Lemma length_positive (s : string) :
  (0 <? Z.of_nat (String.length s)) = negb (Js.isEmpty s).
Proof. destruct s; reflexivity. Qed.

Lemma length_zero (s : string) :
  (Z.of_nat (String.length s) =? 0) = Js.isEmpty s.
Proof. destruct s; reflexivity. Qed.

Lemma isDash_spec (c : ascii) : isDash c = true <-> c = dash.
Proof. unfold isDash. apply Ascii.eqb_eq. Qed.

Lemma slugChar_not_dash (c : ascii) : isSlugChar c = true -> isDash c = false.
Proof.
  intros Hc. destruct (isDash c) eqn:Hd; [|reflexivity].
  apply isDash_spec in Hd. subst c. discriminate Hc.
Qed.

End StringFacts.

(** * slugify *)

Section Slugify.

Import SlugSpec.

Lemma collapse_cons_slugChar (c : ascii) (s : string) :
  isSlugChar c = true -> collapse (String c s) = String c (collapse s).
Proof.
  intros Hc. simpl. destruct s as [|c' s']; [reflexivity|].
  rewrite (slugChar_not_dash c Hc). reflexivity.
Qed.

Lemma collapse_dash_dash (s : string) :
  collapse (String dash (String dash s)) = collapse (String dash s).
Proof. reflexivity. Qed.

Lemma collapse_dash_slugChar (c : ascii) (s : string) :
  isSlugChar c = true ->
  collapse (String dash (String c s)) = String dash (collapse (String c s)).
Proof.
  intros Hc. cbn [collapse]. rewrite (slugChar_not_dash c Hc).
  rewrite andb_false_r. reflexivity.
Qed.

(** The scan of the first pattern writes what mapping and collapsing give;
    inside a match the dash has been written already. *)
Lemma replaceNonSlugRuns_collapse (s : string) :
  replaceNonSlugRuns false s = collapse (separators s)
  /\ String dash (replaceNonSlugRuns true s) = collapse (String dash (separators s)).
Proof.
  induction s as [|c s [IHf IHt]]; [split; reflexivity|].
  assert (Hf : replaceNonSlugRuns false (String c s) = collapse (separators (String c s))).
  { cbn [replaceNonSlugRuns separators].
    destruct (isSlugChar c) eqn:Hc.
    - rewrite collapse_cons_slugChar, IHf by assumption. reflexivity.
    - exact IHt. }
  split; [exact Hf|].
  cbn [replaceNonSlugRuns separators] in *.
  destruct (isSlugChar c) eqn:Hc.
  - rewrite collapse_dash_slugChar by assumption. rewrite <- Hf. reflexivity.
  - rewrite collapse_dash_dash. exact IHt.
Qed.

(** Collapsing keeps the kind of the first character. *)
Lemma collapse_head (s : string) (c d : ascii) (r : string) :
  collapse (String c s) = String d r -> isDash d = isDash c.
Proof.
  revert c. induction s as [|c' s IH]; intros c Hr.
  - cbn in Hr. congruence.
  - cbn [collapse] in Hr. fold (collapse (String c' s)) in Hr.
    destruct (isDash c && isDash c') eqn:Hcc; [|congruence].
    apply andb_prop in Hcc as [H1 H2].
    rewrite (IH c' Hr). congruence.
Qed.

Lemma collapse_singleDashes (s : string) : singleDashes (collapse s).
Proof.
  induction s as [|c s IH]; [exact I|].
  cbn [collapse]. destruct s as [|c' s']; [exact I|].
  destruct (isDash c && isDash c') eqn:Hcc; [exact IH|].
  cbn [singleDashes].
  destruct (collapse (String c' s')) as [|d r] eqn:Hr; [exact I|].
  split; [|exact IH].
  rewrite (collapse_head _ _ _ _ Hr). exact Hcc.
Qed.

Lemma trimTrailing_empty (s : string) :
  Js.isEmpty (trimTrailing s) = true ->
  match s with EmptyString => True | String c _ => isDash c = true end.
Proof.
  destruct s as [|c s]; [trivial|]. cbn [trimTrailing].
  destruct (isDash c); [trivial|]. simpl. discriminate.
Qed.

Lemma dropFinalDash_trimTrailing (s : string) :
  singleDashes s -> dropFinalDash s = trimTrailing s.
Proof.
  induction s as [|c s IH]; [reflexivity|].
  intros Hs. cbn [dropFinalDash trimTrailing].
  assert (Hs' : singleDashes s) by (destruct s; [exact I | apply Hs]).
  rewrite IH by exact Hs'.
  destruct (isDash c) eqn:Hc; [|reflexivity]. cbn [andb].
  destruct s as [|c' s']; [reflexivity|].
  destruct Hs as [Hcc _]. rewrite Hc in Hcc. cbn [andb] in Hcc.
  cbn [Js.isEmpty].
  destruct (Js.isEmpty (trimTrailing (String c' s'))) eqn:He; [|reflexivity].
  apply trimTrailing_empty in He. congruence.
Qed.

Lemma replaceEdgeDashes_trim (s : string) :
  singleDashes s -> replaceEdgeDashes s = trimTrailing (trimLeading s).
Proof.
  intros Hs. destruct s as [|c s]; [reflexivity|].
  assert (Hs' : singleDashes s) by (destruct s; [exact I | apply Hs]).
  cbn [replaceEdgeDashes trimLeading].
  destruct (isDash c) eqn:Hc.
  - destruct s as [|c' s']; [reflexivity|].
    destruct Hs as [Hcc _]. rewrite Hc in Hcc. cbn [andb] in Hcc.
    cbn [trimLeading]. rewrite Hcc.
    apply dropFinalDash_trimTrailing. exact Hs'.
  - apply dropFinalDash_trimTrailing. exact Hs.
Qed.

Lemma slug_replace (value : string) :
  replaceEdgeDashes (replaceNonSlugRuns false (Js.toLowerCase value)) = slug value.
Proof.
  unfold slug.
  destruct (replaceNonSlugRuns_collapse (Js.toLowerCase value)) as [-> _].
  apply replaceEdgeDashes_trim, collapse_singleDashes.
Qed.

(** C7. [slugify] returns the lowercased input with every maximal run of
    characters outside [a-z0-9] collapsed to one dash and the dashes at both
    ends removed; when that is the empty string it returns ["column-"]
    followed by the generated identifier; it never returns the empty
    string. *)
Theorem slugify_spec (generated value : string) :
  slugify generated value =
    (if Js.isEmpty (slug value) then String.append "column-" generated else slug value)
  /\ slugify generated value <> EmptyString.
Proof.
  unfold slugify. rewrite slug_replace, length_positive.
  destruct (Js.isEmpty (slug value)) eqn:He; cbn [negb]; split;
    try reflexivity; try discriminate.
  intros Heq. rewrite Heq in He. discriminate He.
Qed.

End Slugify.

Section SlugShape.

Import SlugSpec.

Lemma everyChar_separators (s : string) : everyChar isSlugOrDash (separators s) = true.
Proof.
  induction s as [|c s IH]; [reflexivity|]. cbn [separators everyChar].
  rewrite IH, andb_true_r. unfold isSlugOrDash.
  destruct (isSlugChar c) eqn:Hc; [rewrite Hc; reflexivity|].
  apply orb_true_r.
Qed.

Lemma everyChar_collapse (p : ascii -> bool) (s : string) :
  everyChar p s = true -> everyChar p (collapse s) = true.
Proof.
  induction s as [|c s IH]; [reflexivity|]. intros Hs.
  cbn [everyChar] in Hs. apply andb_prop in Hs as [Hc Hs].
  cbn [collapse]. destruct s as [|c' s']; [cbn; rewrite Hc; reflexivity|].
  destruct (isDash c && isDash c'); [apply IH, Hs|].
  cbn [everyChar]. rewrite Hc. apply IH, Hs.
Qed.

Lemma everyChar_trimLeading (p : ascii -> bool) (s : string) :
  everyChar p s = true -> everyChar p (trimLeading s) = true.
Proof.
  induction s as [|c s IH]; [reflexivity|]. intros Hs. cbn [trimLeading].
  destruct (isDash c); [|exact Hs].
  cbn [everyChar] in Hs. apply andb_prop in Hs as [_ Hs]. apply IH, Hs.
Qed.

Lemma everyChar_trimTrailing (p : ascii -> bool) (s : string) :
  everyChar p s = true -> everyChar p (trimTrailing s) = true.
Proof.
  induction s as [|c s IH]; [reflexivity|]. intros Hs.
  cbn [everyChar] in Hs. apply andb_prop in Hs as [Hc Hs].
  cbn [trimTrailing]. destruct (isDash c && Js.isEmpty (trimTrailing s)); [reflexivity|].
  cbn [everyChar]. rewrite Hc. apply IH, Hs.
Qed.

Lemma singleDashes_tail (c : ascii) (s : string) :
  singleDashes (String c s) -> singleDashes s.
Proof. destruct s; [intros; exact I | intros [_ H]; exact H]. Qed.

Lemma singleDashes_trimLeading (s : string) :
  singleDashes s -> singleDashes (trimLeading s).
Proof.
  induction s as [|c s IH]; [trivial|]. intros Hs. cbn [trimLeading].
  destruct (isDash c); [|exact Hs]. apply IH, (singleDashes_tail c s Hs).
Qed.

Lemma singleDashes_trimTrailing (s : string) :
  singleDashes s -> singleDashes (trimTrailing s).
Proof.
  induction s as [|c s IH]; [trivial|]. intros Hs.
  pose proof (IH (singleDashes_tail c s Hs)) as IH'.
  cbn [trimTrailing].
  destruct (isDash c && Js.isEmpty (trimTrailing s)) eqn:Hc; [exact I|].
  destruct s as [|c' s']; [exact I|].
  cbn [trimTrailing] in *.
  destruct (isDash c' && Js.isEmpty (trimTrailing s')); [exact I|].
  split; [apply Hs | exact IH'].
Qed.

Lemma trimLeading_done (s : string) : trimLeading (trimLeading s) = trimLeading s.
Proof.
  induction s as [|c s IH]; [reflexivity|]. cbn [trimLeading].
  destruct (isDash c) eqn:Hc; [exact IH|]. cbn [trimLeading]. rewrite Hc. reflexivity.
Qed.

Lemma trimTrailing_done (s : string) : trimTrailing (trimTrailing s) = trimTrailing s.
Proof.
  induction s as [|c s IH]; [reflexivity|]. cbn [trimTrailing].
  destruct (isDash c && Js.isEmpty (trimTrailing s)) eqn:Hc; [reflexivity|].
  cbn [trimTrailing]. rewrite IH, Hc. reflexivity.
Qed.

(** Trimming the end of a string that has no leading dash leaves none. *)
Lemma trimLeading_trimTrailing (s : string) :
  trimLeading s = s -> trimLeading (trimTrailing s) = trimTrailing s.
Proof.
  destruct s as [|c s]; [reflexivity|]. cbn [trimLeading trimTrailing].
  destruct (isDash c) eqn:Hc.
  - intros Heq. exfalso.
    assert (Hlen : (String.length (trimLeading s) <= String.length s)%nat).
    { clear. induction s as [|d s IH]; [reflexivity|]. cbn [trimLeading].
      destruct (isDash d); cbn [String.length]; lia. }
    rewrite Heq in Hlen. cbn [String.length] in Hlen. lia.
  - intros _. cbn [andb]. cbn [trimLeading]. rewrite Hc. reflexivity.
Qed.

End SlugShape.

(** X4. The slug of the specification is made of characters of [a-z0-9] and
    dashes only, has no two dashes in a row and no dash at either end; so has
    what [slugify] returns whenever it is not the fallback. *)
Theorem slug_shape (generated value : string) :
  everyChar isSlugOrDash (SlugSpec.slug value) = true
  /\ singleDashes (SlugSpec.slug value)
  /\ SlugSpec.trimLeading (SlugSpec.slug value) = SlugSpec.slug value
  /\ SlugSpec.trimTrailing (SlugSpec.slug value) = SlugSpec.slug value
  /\ (SlugSpec.slug value <> "" -> slugify generated value = SlugSpec.slug value).
Proof.
  unfold SlugSpec.slug.
  split.
  { apply everyChar_trimTrailing, everyChar_trimLeading, everyChar_collapse,
      everyChar_separators. }
  split.
  { apply singleDashes_trimTrailing, singleDashes_trimLeading, collapse_singleDashes. }
  split; [apply trimLeading_trimTrailing, trimLeading_done|].
  split; [apply trimTrailing_done|].
  intros Hne. unfold slugify. rewrite slug_replace, length_positive.
  unfold SlugSpec.slug.
  destruct (Js.isEmpty _) eqn:He; [|reflexivity].
  apply isEmpty_true in He. contradiction.
Qed.

Section Substrings.

Lemma append_cons (c : ascii) (s t : string) :
  String.append (String c s) t = String c (String.append s t).
Proof. reflexivity. Qed.

Lemma prefix_spec (needle text : string) :
  String.prefix needle text = true <-> exists after, text = String.append needle after.
Proof.
  revert text. induction needle as [|c needle IH]; intros text.
  - destruct text; simpl; split; eauto.
  - destruct text as [|d text]; simpl.
    + split; [discriminate | intros [after H]; rewrite append_cons in H; discriminate].
    + destruct (ascii_dec c d) as [->|Hne].
      * rewrite IH. split; intros [after H]; exists after;
          rewrite append_cons in *; congruence.
      * split; [discriminate | intros [after H]; rewrite append_cons in H; congruence].
Qed.

Lemma includes_spec (text needle : string) :
  Js.includes text needle = true <-> occursIn needle text.
Proof.
  unfold occursIn. induction text as [|c text IH]; cbn [Js.includes].
  - rewrite orb_false_r, prefix_spec. split.
    + intros [after H]. exists EmptyString, after. exact H.
    + intros [[|? ?] [after H]]; [eauto | rewrite append_cons in H; discriminate].
  - rewrite orb_true_iff, prefix_spec, IH. split.
    + intros [[after H] | [before [after H]]].
      * exists EmptyString, after. exact H.
      * exists (String c before), after. rewrite append_cons. congruence.
    + intros [[|d before] [after H]].
      * left. exists after. exact H.
      * right. exists before, after. rewrite append_cons in H. congruence.
Qed.

Lemma arrayIncludes_spec (x : string) (l : list string) :
  Js.arrayIncludes x l = true <-> x ∈ l.
Proof.
  unfold Js.arrayIncludes. rewrite existsb_exists, list_elem_of_In. split.
  - intros [y [Hy Heq]]. apply String.eqb_eq in Heq. congruence.
  - intros Hx. exists x. split; [exact Hx | apply String.eqb_refl].
Qed.

Lemma strNe_false (a b : string) : strNe a b = false <-> a = b.
Proof.
  unfold strNe. rewrite negb_false_iff. apply String.eqb_eq.
Qed.

End Substrings.

Section FilterEngine.

(** Each guard of the callback fails exactly when its predicate holds. *)
Lemma guard_string (selected actual : string) :
  strNe selected "all" && strNe actual selected = false
  <-> (selected <> "all" -> actual = selected).
Proof.
  rewrite andb_false_iff, !strNe_false. split.
  - intros [H | H] Hsel; [contradiction | exact H].
  - intros H. destruct (decide (selected = "all")); [left | right]; auto.
Qed.

Lemma guard_priority (f : PriorityFilterValue) (actual : KanbanPriority) :
  priorityMismatch f actual = false
  <-> (forall p, f = onlyPriority p -> actual = p).
Proof.
  destruct f as [|q]; cbn [priorityMismatch].
  - split; [intros _ p H; discriminate | reflexivity].
  - rewrite negb_false_iff, bool_decide_eq_true. split.
    + intros -> p [= ->]. reflexivity.
    + intros H. apply H. reflexivity.
Qed.

Lemma guard_tags (selected actual : list string) :
  (0 <? Z.of_nat (length selected))
  && negb (forallb (fun tag => Js.arrayIncludes tag actual) selected) = false
  <-> (forall tag, tag ∈ selected -> tag ∈ actual).
Proof.
  rewrite andb_false_iff, negb_false_iff, forallb_forall. split.
  - intros [Hlen | Hall] tag Htag.
    + destruct selected; [inversion Htag | discriminate Hlen].
    + apply arrayIncludes_spec, Hall, list_elem_of_In, Htag.
  - intros H. right. intros tag Htag.
    apply arrayIncludes_spec, H, list_elem_of_In, Htag.
Qed.

Lemma guard_search (query text : string) :
  (if 0 <? Z.of_nat (String.length (Js.trim query))
   then if negb (Js.includes text (Js.toLowerCase (Js.trim query))) then false else true
   else true) = true
  <-> (Js.trim query <> "" -> occursIn (Js.toLowerCase (Js.trim query)) text).
Proof.
  rewrite length_positive.
  destruct (Js.isEmpty (Js.trim query)) eqn:He; cbn [negb].
  - apply isEmpty_true in He. split; [intros _ H; contradiction | reflexivity].
  - assert (Hne : Js.trim query <> "").
    { intros H. apply isEmpty_true in H. congruence. }
    destruct (Js.includes text _) eqn:Hi; cbn [negb].
    + apply includes_spec in Hi. split; auto.
    + split; [discriminate|]. intros H. apply H, includes_spec in Hne. congruence.
Qed.

Lemma keepTask_spec (f : Filters.t) (task : Task.t) :
  keepTask f task = true <-> Criteria.all f task.
Proof.
  unfold keepTask, Criteria.all, Criteria.column, Criteria.priority, Criteria.tags,
    Criteria.assignee, Criteria.jobNumber, Criteria.serviceQuote, Criteria.search.
  fold (haystack task).
  rewrite <- guard_string, <- guard_priority, <- guard_tags, <- !guard_string,
    <- guard_search.
  repeat match goal with
         | |- context [if ?g then false else _] => destruct g
         end; try tauto; intuition congruence.
Qed.

Lemma filteredTasks_spec (tasks : list Task.t) (f : Filters.t) (task : Task.t) :
  task ∈ filteredTasks tasks f <-> task ∈ tasks /\ Criteria.all f task.
Proof.
  unfold filteredTasks. rewrite !list_elem_of_In, filter_In, keepTask_spec.
  reflexivity.
Qed.

End FilterEngine.

Section CaseFolding.

Lemma isWhiteSpace_lowerChar (c : ascii) :
  Js.isWhiteSpace (Js.lowerChar c) = Js.isWhiteSpace c.
Proof. destruct c as [[] [] [] [] [] [] [] []]; reflexivity. Qed.

Lemma isEmpty_toLowerCase (s : string) :
  Js.isEmpty (Js.toLowerCase s) = Js.isEmpty s.
Proof. destruct s; reflexivity. Qed.

Lemma trimStart_toLowerCase (s : string) :
  Js.trimStart (Js.toLowerCase s) = Js.toLowerCase (Js.trimStart s).
Proof.
  induction s as [|c s IH]; [reflexivity|].
  cbn [Js.toLowerCase Js.trimStart]. rewrite isWhiteSpace_lowerChar.
  destruct (Js.isWhiteSpace c); [exact IH | reflexivity].
Qed.

Lemma trimEnd_toLowerCase (s : string) :
  Js.trimEnd (Js.toLowerCase s) = Js.toLowerCase (Js.trimEnd s).
Proof.
  induction s as [|c s IH]; [reflexivity|].
  cbn [Js.toLowerCase Js.trimEnd].
  rewrite isWhiteSpace_lowerChar, IH, isEmpty_toLowerCase.
  destruct (Js.isWhiteSpace c && Js.isEmpty (Js.trimEnd s)); reflexivity.
Qed.

Lemma trim_toLowerCase (s : string) :
  Js.trim (Js.toLowerCase s) = Js.toLowerCase (Js.trim s).
Proof. unfold Js.trim. rewrite trimStart_toLowerCase. apply trimEnd_toLowerCase. Qed.

(** The search looks at the query only through its trimmed lower case. *)
Lemma keepTask_search_fold (q q' : string) (f : Filters.t) (task : Task.t) :
  Js.toLowerCase q = Js.toLowerCase q' ->
  keepTask (Filters.withSearch q f) task = keepTask (Filters.withSearch q' f) task.
Proof.
  intros Hq.
  assert (Ht : Js.toLowerCase (Js.trim q) = Js.toLowerCase (Js.trim q')).
  { rewrite <- !trim_toLowerCase. congruence. }
  assert (He : Js.isEmpty (Js.trim q) = Js.isEmpty (Js.trim q')).
  { rewrite <- (isEmpty_toLowerCase (Js.trim q)), Ht. apply isEmpty_toLowerCase. }
  unfold keepTask. cbn [Filters.withSearch Filters.search Filters.column
    Filters.priority Filters.tags Filters.assignee Filters.jobNumber
    Filters.serviceQuote].
  rewrite !length_positive, He, Ht. reflexivity.
Qed.

End CaseFolding.

Section FilterOrder.

Lemma filter_sublist_mono {A : Type} (p : A -> bool) (l1 l2 : list A) :
  l1 `sublist_of` l2 -> List.filter p l1 `sublist_of` List.filter p l2.
Proof.
  induction 1 as [|x l1 l2 _ IH|x l1 l2 _ IH]; cbn [List.filter].
  - constructor.
  - destruct (p x); [constructor|]; exact IH.
  - destruct (p x); [constructor|]; exact IH.
Qed.

Lemma filter_sublist_self {A : Type} (p : A -> bool) (l : list A) :
  List.filter p l `sublist_of` l.
Proof.
  induction l as [|x l IH]; cbn [List.filter]; [constructor|].
  destruct (p x); constructor; exact IH.
Qed.

Lemma filter_keeps {A : Type} (p : A -> bool) (l : list A) :
  Forall (fun x => p x = true) l -> List.filter p l = l.
Proof.
  induction 1 as [|x l Hx _ IH]; cbn [List.filter]; [reflexivity|].
  rewrite Hx, IH. reflexivity.
Qed.

End FilterOrder.

(** C1. The filter engine returns exactly the tasks of the store that satisfy
    every predicate of the criteria: exact matches for column, priority,
    assignee, job number and service quote unless the selector is ['all'],
    every selected tag among the task's tags, and the lowercased trimmed
    query occurring in the lowercased concatenation of the text fields unless
    the trimmed query is empty.  The match ignores the case of the query.
    Putting any one predicate back to its default gives a superset. *)
Theorem filteredTasks_criteria (tasks : list Task.t) (f : Filters.t) :
  (forall task, task ∈ filteredTasks tasks f <-> task ∈ tasks /\ Criteria.all f task)
  /\ (forall q q', Js.toLowerCase q = Js.toLowerCase q' ->
        filteredTasks tasks (Filters.withSearch q f)
        = filteredTasks tasks (Filters.withSearch q' f))
  /\ filteredTasks tasks f ⊆ filteredTasks tasks (Filters.withSearch "" f)
  /\ filteredTasks tasks f ⊆ filteredTasks tasks (Filters.withColumn "all" f)
  /\ filteredTasks tasks f ⊆ filteredTasks tasks (Filters.withPriority allPriorities f)
  /\ filteredTasks tasks f ⊆ filteredTasks tasks (Filters.withTags [] f)
  /\ filteredTasks tasks f ⊆ filteredTasks tasks (Filters.withAssignee "all" f)
  /\ filteredTasks tasks f ⊆ filteredTasks tasks (Filters.withJobNumber "all" f)
  /\ filteredTasks tasks f ⊆ filteredTasks tasks (Filters.withServiceQuote "all" f).
Proof.
  split; [intros task; apply filteredTasks_spec|].
  split.
  { intros q q' Hq. unfold filteredTasks. apply filter_ext.
    intros task. apply keepTask_search_fold, Hq. }
  repeat split; intros task; rewrite !filteredTasks_spec;
    intros [Hin (Hc & Hp & Ht & Ha & Hj & Hq & Hs)]; (split; [exact Hin|]);
    unfold Criteria.all; repeat split; try assumption.
  - intros H. exfalso. apply H. reflexivity.
  - intros H. exfalso. apply H. reflexivity.
  - intros p H. discriminate H.
  - intros tag H. inversion H.
  - intros H. exfalso. apply H. reflexivity.
  - intros H. exfalso. apply H. reflexivity.
  - intros H. exfalso. apply H. reflexivity.
Qed.

(** C10. The output of the filter engine is a subsequence of the store:
    filtering distributes over concatenation, and one task comes before
    another in the output exactly when it does so in the store and both pass
    the filter. *)
Theorem filteredTasks_order (tasks : list Task.t) (f : Filters.t) :
  filteredTasks tasks f `sublist_of` tasks
  /\ (forall front back,
        filteredTasks (front ++ back) f = filteredTasks front f ++ filteredTasks back f)
  /\ (forall a b,
        [a; b] `sublist_of` filteredTasks tasks f
        <-> [a; b] `sublist_of` tasks /\ keepTask f a = true /\ keepTask f b = true).
Proof.
  split; [apply filter_sublist_self|].
  split; [intros front back; apply List.filter_app|].
  intros a b. split.
  - intros Hab.
    assert (Ha : a ∈ filteredTasks tasks f).
    { eapply elem_of_sublist; [|exact Hab]. set_solver. }
    assert (Hb : b ∈ filteredTasks tasks f).
    { eapply elem_of_sublist; [|exact Hab]. set_solver. }
    apply list_elem_of_In, filter_In in Ha, Hb.
    split; [|tauto].
    etransitivity; [exact Hab | apply filter_sublist_self].
  - intros (Hab & Ha & Hb).
    apply (filter_sublist_mono (keepTask f)) in Hab.
    rewrite (filter_keeps (keepTask f) [a; b]) in Hab; [exact Hab|].
    repeat constructor; assumption.
Qed.

(** X2. [filtersActive] is false exactly when every criterion has its default
    (the search being empty after trimming), as for the initial criteria; the
    filter engine then returns the whole store. *)
Theorem filtersActive_default (f : Filters.t) (tasks : list Task.t) :
  (filtersActive f = false
   <-> Js.trim (Filters.search f) = "" /\ Filters.column f = "all"
       /\ Filters.priority f = allPriorities /\ Filters.tags f = []
       /\ Filters.assignee f = "all" /\ Filters.jobNumber f = "all"
       /\ Filters.serviceQuote f = "all")
  /\ (filtersActive f = false -> filteredTasks tasks f = tasks)
  /\ filtersActive Filters.initial = false.
Proof.
  assert (Hiff : filtersActive f = false
    <-> Js.trim (Filters.search f) = "" /\ Filters.column f = "all"
        /\ Filters.priority f = allPriorities /\ Filters.tags f = []
        /\ Filters.assignee f = "all" /\ Filters.jobNumber f = "all"
        /\ Filters.serviceQuote f = "all").
  { unfold filtersActive. rewrite !orb_false_iff, length_positive, negb_false_iff,
      isEmpty_true, !strNe_false.
    assert (Hp : match Filters.priority f with allPriorities => false | _ => true end = false
                 <-> Filters.priority f = allPriorities).
    { destruct (Filters.priority f); split; congruence. }
    assert (Ht : (0 <? Z.of_nat (length (Filters.tags f))) = false <-> Filters.tags f = []).
    { destruct (Filters.tags f) as [|tag rest]; [split; reflexivity|].
      split; [|discriminate]. intros Hlen. apply Z.ltb_ge in Hlen.
      cbn [length] in Hlen. lia. }
    rewrite Hp, Ht. tauto. }
  split; [exact Hiff|]. split; [|reflexivity].
  intros Hoff. apply Hiff in Hoff as (Hs & Hc & Hp & Ht & Ha & Hj & Hq).
  unfold filteredTasks. apply filter_keeps. apply Forall_forall. intros task _.
  apply keepTask_spec. unfold Criteria.all, Criteria.column, Criteria.priority,
    Criteria.tags, Criteria.assignee, Criteria.jobNumber, Criteria.serviceQuote,
    Criteria.search.
  rewrite Hc, Hp, Ht, Ha, Hj, Hq. repeat split; try congruence.
  intros tag Htag. inversion Htag.
Qed.

Section Store.

Implicit Types (tasks : list Task.t) (task : Task.t) (b : Board).

Lemma withStatus_id (s : string) task : Task.id (Task.withStatus s task) = Task.id task.
Proof. reflexivity. Qed.

Lemma withStatus_same task : Task.withStatus (Task.status task) task = task.
Proof. destruct task; reflexivity. Qed.

Lemma withStatus_twice (s s' : string) task :
  Task.withStatus s (Task.withStatus s' task) = Task.withStatus s task.
Proof. reflexivity. Qed.

(** With unique identifiers, [tasks.find] by identifier returns the task
    itself. *)
Lemma find_by_id tasks task :
  NoDup (map Task.id tasks) -> task ∈ tasks ->
  List.find (fun x => Task.id x =? Task.id task) tasks = Some task.
Proof.
  induction tasks as [|x tasks IH]; intros Hnd Hin; [inversion Hin|].
  cbn [map] in Hnd. apply NoDup_cons in Hnd as [Hx Hnd].
  cbn [List.find]. destruct (Z.eqb_spec (Task.id x) (Task.id task)) as [Heq|Hne].
  - apply elem_of_cons in Hin as [->|Hin]; [reflexivity|].
    exfalso. apply Hx. rewrite Heq. apply list_elem_of_fmap. eauto.
  - apply elem_of_cons in Hin as [->|Hin]; [congruence|]. auto.
Qed.

(** With unique identifiers, the only task with the identifier of [task] is
    [task]. *)
Lemma same_id_same_task tasks task x :
  NoDup (map Task.id tasks) -> task ∈ tasks -> x ∈ tasks ->
  Task.id x = Task.id task -> x = task.
Proof.
  intros Hnd Ht Hx Hid.
  pose proof (find_by_id tasks task Hnd Ht) as H1.
  pose proof (find_by_id tasks x Hnd Hx) as H2.
  rewrite Hid in H2. congruence.
Qed.

(** The optimistic update followed by the revert gives the store back. *)
Lemma revert_optimistic tasks task (s : string) :
  NoDup (map Task.id tasks) -> task ∈ tasks ->
  map (fun x => if Task.id x =? Task.id task
                then Task.withStatus (Task.status task) x else x)
    (map (fun x => if Task.id x =? Task.id task then Task.withStatus s x else x) tasks)
  = tasks.
Proof.
  intros Hnd Hin. rewrite map_map. rewrite <- (map_id tasks) at 2.
  apply map_ext_in. intros x Hx. apply list_elem_of_In in Hx.
  destruct (Z.eqb_spec (Task.id x) (Task.id task)) as [Heq|Hne].
  - rewrite withStatus_id. rewrite (proj2 (Z.eqb_eq _ _) Heq).
    rewrite (same_id_same_task tasks task x Hnd Hin Hx Heq).
    rewrite withStatus_twice. apply withStatus_same.
  - rewrite (proj2 (Z.eqb_neq _ _) Hne). reflexivity.
Qed.

End Store.

Section StatusChange.

Implicit Types (task : Task.t) (b : Board) (k : StatusChange).

(** The call goes through when the task is found with another status. *)
Lemma handleStatusChange_call_sends (closure : list Task.t) task (status : string) b :
  List.find (fun x => Task.id x =? Task.id task) closure = Some task ->
  status <> Task.status task ->
  handleStatusChange_call closure (Task.id task) status b =
    (send (ApiPatch (Task.id task) status)
       (setTasks
          (fun current =>
             map (fun x => if Task.id x =? Task.id task
                           then Task.withStatus status x else x) current)
          (markStatusUpdating (Task.id task) true b)),
     Some (mkStatusChange (Task.id task) status task)).
Proof.
  intros Hfind Hne. unfold handleStatusChange_call. rewrite Hfind.
  destruct (String.eqb (Task.status task) status) eqn:Heq; [|reflexivity].
  apply String.eqb_eq in Heq. congruence.
Qed.

Lemma resume_statusUpdating k (response : option KanbanCard.t) b :
  statusUpdating (handleStatusChange_resume k response b)
  = statusUpdating b ∖ {[sc_taskId k]}.
Proof. unfold handleStatusChange_resume. destruct response; reflexivity. Qed.

(** [finally]: whatever the answer and whatever happened meanwhile, the task
    is not marked as updating after the call has resumed. *)
Lemma resume_clears_flag k (response : option KanbanCard.t) b :
  sc_taskId k ∉ statusUpdating (handleStatusChange_resume k response b).
Proof.
  rewrite resume_statusUpdating, elem_of_difference, elem_of_singleton. tauto.
Qed.

(** [catch]: every task of the store with the identifier of the call has the
    status the call found. *)
Lemma resume_failed_status k b x :
  x ∈ tasks (handleStatusChange_resume k None b) ->
  Task.id x = sc_taskId k ->
  Task.status x = Task.status (sc_currentTask k).
Proof.
  unfold handleStatusChange_resume. cbn. intros Hx Hid.
  apply list_elem_of_fmap in Hx as [y [-> Hy]].
  destruct (Z.eqb_spec (Task.id y) (sc_taskId k)) as [Heq|Hne].
  - reflexivity.
  - contradiction.
Qed.

Lemma resume_failed_notifies k b :
  ShowApiError "Could not update status" ∈ effects (handleStatusChange_resume k None b).
Proof. unfold handleStatusChange_resume. cbn. set_solver. Qed.

(** [try]: the tasks with the identifier of the answered card are replaced by
    that card. *)
Lemma resume_resolved_tasks k (card : KanbanCard.t) b :
  tasks (handleStatusChange_resume k (Some card) b)
  = map (fun x => if Task.id x =? KanbanCard.id card then convertCardToTask card else x)
      (tasks b).
Proof. reflexivity. Qed.

Lemma patched_applied (api : Api) (status : string) task :
  patchApplied api status task ->
  Task.id (patched api status task) = Task.id task
  /\ Task.status (patched api status task) = status.
Proof.
  intros (card & Hpatch & Hid & Hst). unfold patched. rewrite Hpatch.
  split; [exact Hid | exact Hst].
Qed.

(** The answer of the backend depends on the task through its identifier
    only. *)
Lemma patched_same_id (api : Api) (status : string) (x : Task.t) task :
  Task.id x = Task.id task -> patchApplied api status task ->
  patched api status x = patched api status task.
Proof.
  intros Hid (card & Hpatch & _). unfold patched. rewrite Hid, Hpatch. reflexivity.
Qed.

End StatusChange.

(** C2. A status change to another status marks the task as updating and sets
    the status optimistically.  When the patch call fails, an error is
    notified and the status is the one from before the update: the store is
    the one the operation started from when nothing else happened meanwhile,
    and every task with that identifier has the old status whatever happened
    meanwhile.  Whether the patch succeeds or fails, the last step removes
    the task from the updating set. *)
Theorem handleStatusChange_rollback (api : Api) (b : Board) (task : Task.t)
    (status : string) :
  NoDup (map Task.id (tasks b)) -> task ∈ tasks b -> status <> Task.status task ->
  exists b1 k,
    handleStatusChange_call (tasks b) (Task.id task) status b = (b1, Some k)
    /\ sc_taskId k = Task.id task /\ sc_currentTask k = task
    /\ Task.id task ∈ statusUpdating b1
    /\ Task.withStatus status task ∈ tasks b1
    /\ (forall response b2,
          Task.id task ∉ statusUpdating (handleStatusChange_resume k response b2))
    /\ (forall b2 x,
          x ∈ tasks (handleStatusChange_resume k None b2) ->
          Task.id x = Task.id task -> Task.status x = Task.status task)
    /\ (forall b2,
          ShowApiError "Could not update status"
            ∈ effects (handleStatusChange_resume k None b2))
    /\ statusUpdating (handleStatusChange api (Task.id task) status b)
       = statusUpdating b ∖ {[Task.id task]}
    /\ (patch api (Task.id task) status = None ->
        tasks (handleStatusChange api (Task.id task) status b) = tasks b
        /\ ShowApiError "Could not update status"
             ∈ effects (handleStatusChange api (Task.id task) status b)).
Proof.
  intros Hnd Hin Hne.
  pose proof (find_by_id _ _ Hnd Hin) as Hfind.
  pose proof (handleStatusChange_call_sends (tasks b) task status b Hfind Hne) as Hcall.
  eexists _, _. split; [exact Hcall|].
  split; [reflexivity|]. split; [reflexivity|].
  split; [cbn; set_solver|].
  split.
  { cbn. apply list_elem_of_fmap. exists task. rewrite Z.eqb_refl. auto. }
  split; [intros response b2; apply (resume_clears_flag (mkStatusChange _ _ _))|].
  split; [intros b2 x; apply (resume_failed_status (mkStatusChange _ _ _))|].
  split; [intros b2; apply (resume_failed_notifies (mkStatusChange _ _ _))|].
  unfold handleStatusChange. rewrite Hcall.
  split.
  { rewrite resume_statusUpdating. cbn. apply set_eq. intros x.
    rewrite !elem_of_difference, elem_of_union. tauto. }
  intros ->. split.
  - cbn. apply revert_optimistic; assumption.
  - apply resume_failed_notifies.
Qed.

(** C8. A status change to the status the task already has changes nothing:
    no call is sent, the store is the same, no flag is set; the board is the
    very same board. *)
Theorem handleStatusChange_same_status (api : Api) (b : Board) (task : Task.t) :
  NoDup (map Task.id (tasks b)) -> task ∈ tasks b ->
  handleStatusChange_call (tasks b) (Task.id task) (Task.status task) b = (b, None)
  /\ handleStatusChange api (Task.id task) (Task.status task) b = b.
Proof.
  intros Hnd Hin.
  assert (Hcall : handleStatusChange_call (tasks b) (Task.id task) (Task.status task) b
                  = (b, None)).
  { unfold handleStatusChange_call. rewrite (find_by_id _ _ Hnd Hin).
    rewrite String.eqb_refl. reflexivity. }
  split; [exact Hcall|].
  unfold handleStatusChange. rewrite Hcall. reflexivity.
Qed.

(** X3. A status change to another status whose patch the backend applies,
    whatever else the backend puts on the card: the stored task is the card of
    the answer, it has the identifier of the task and the new status, no
    other task changes, the task is not marked as updating, and the component
    has sent the patch and asked for the cards to be fetched again. *)
Theorem handleStatusChange_success (api : Api) (b : Board) (task : Task.t)
    (status : string) :
  NoDup (map Task.id (tasks b)) -> task ∈ tasks b -> status <> Task.status task ->
  patchApplied api status task ->
  tasks (handleStatusChange api (Task.id task) status b)
    = map (fun x => if Task.id x =? Task.id task then patched api status task else x)
        (tasks b)
  /\ Task.id (patched api status task) = Task.id task
  /\ Task.status (patched api status task) = status
  /\ patched api status task ∈ tasks (handleStatusChange api (Task.id task) status b)
  /\ map Task.id (tasks (handleStatusChange api (Task.id task) status b))
     = map Task.id (tasks b)
  /\ map Task.status (tasks (handleStatusChange api (Task.id task) status b))
     = map (fun x => if Task.id x =? Task.id task then status else Task.status x)
         (tasks b)
  /\ (forall x, x ∈ tasks b -> Task.id x <> Task.id task ->
        x ∈ tasks (handleStatusChange api (Task.id task) status b))
  /\ statusUpdating (handleStatusChange api (Task.id task) status b)
     = statusUpdating b ∖ {[Task.id task]}
  /\ effects (handleStatusChange api (Task.id task) status b)
     = effects b ++ [ApiPatch (Task.id task) status; InvalidateQueries]
  /\ outstanding (handleStatusChange api (Task.id task) status b)
     = removeFirst (ApiPatch (Task.id task) status)
         (outstanding b ++ [ApiPatch (Task.id task) status]).
Proof.
  intros Hnd Hin Hne Hapi.
  destruct (patched_applied api status task Hapi) as [Hpid Hpst].
  destruct Hapi as (card & Hpatch & Hcid & Hcst).
  assert (Hp : patched api status task = convertCardToTask card).
  { unfold patched. rewrite Hpatch. reflexivity. }
  pose proof (find_by_id _ _ Hnd Hin) as Hfind.
  unfold handleStatusChange.
  rewrite (handleStatusChange_call_sends (tasks b) task status b Hfind Hne), Hpatch.
  fold (started status b task).
  assert (Hstore :
    tasks (handleStatusChange_resume (mkStatusChange (Task.id task) status task)
             (Some card) (started status b task))
    = map (fun x => if Task.id x =? Task.id task then patched api status task else x)
        (tasks b)).
  { rewrite resume_resolved_tasks. unfold started.
    cbn [tasks markStatusUpdating setStatusUpdating emit send setTasks].
    rewrite map_map, Hcid, Hp. apply map_ext. intros x.
    destruct (Z.eqb_spec (Task.id x) (Task.id task)) as [Heq|Hn].
    - rewrite withStatus_id, (proj2 (Z.eqb_eq _ _) Heq). reflexivity.
    - rewrite (proj2 (Z.eqb_neq _ _) Hn). reflexivity. }
  split; [exact Hstore|]. split; [exact Hpid|]. split; [exact Hpst|].
  split.
  { rewrite Hstore. apply list_elem_of_fmap. exists task.
    rewrite Z.eqb_refl. auto. }
  split.
  { rewrite Hstore, map_map. apply map_ext. intros x.
    destruct (Z.eqb_spec (Task.id x) (Task.id task)); congruence. }
  split.
  { rewrite Hstore, map_map. apply map_ext. intros x.
    destruct (Z.eqb_spec (Task.id x) (Task.id task)); congruence. }
  split.
  { intros x Hx Hn. rewrite Hstore. apply list_elem_of_fmap. exists x.
    rewrite (proj2 (Z.eqb_neq _ _) Hn). auto. }
  split.
  { rewrite resume_statusUpdating. cbn. apply set_eq. intros x.
    rewrite !elem_of_difference, elem_of_union. tauto. }
  split.
  - cbn. rewrite <- app_assoc. reflexivity.
  - reflexivity.
Qed.

Section ArrayIndex.

Context {A : Type}.
Implicit Types (l : list A) (p : A -> bool).

Lemma at_head (x : A) l : at_ (x :: l) 0 = Some x.
Proof. reflexivity. Qed.

Lemma at_tail (x : A) l (i : Z) : 0 < i -> at_ (x :: l) i = at_ l (i - 1).
Proof.
  intros Hi. unfold at_.
  rewrite (proj2 (Z.ltb_ge i 0)), (proj2 (Z.ltb_ge (i - 1) 0)) by lia.
  replace (Z.to_nat i) with (S (Z.to_nat (i - 1))) by lia. reflexivity.
Qed.

(** No element before the position [findIndex] returns passes the test. *)
Lemma findIndex_first p l (j : Z) (x : A) :
  0 <= j < Js.findIndex p l -> at_ l j = Some x -> p x = false.
Proof.
  revert j. induction l as [|y l IH]; intros j Hj Hx; cbn [Js.findIndex] in Hj.
  - lia.
  - destruct (p y) eqn:Hy; [lia|].
    destruct (Z.ltb_spec (Js.findIndex p l) 0); [lia|].
    destruct (Z.eq_dec j 0) as [->|Hj0].
    + rewrite at_head in Hx. congruence.
    + rewrite at_tail in Hx by lia. apply (IH (j - 1)); [lia | exact Hx].
Qed.

Lemma fold_left_frame {B C : Type} (f : B -> A -> B) (proj : B -> C) l (b : B) :
  (forall acc x, proj (f acc x) = proj acc) ->
  proj (fold_left f l b) = proj b.
Proof.
  intros Hf. revert b. induction l as [|x l IH]; intros b; [reflexivity|].
  cbn [fold_left]. rewrite IH. apply Hf.
Qed.

End ArrayIndex.

Section DeleteColumn.

Implicit Types (task : Task.t) (b : Board) (k : StatusChange).

Lemma startStatusChanges_sends (closure : list Task.t) (fallbackId : string)
    (affected : list Task.t) b :
  (forall task, task ∈ affected ->
     List.find (fun x => Task.id x =? Task.id task) closure = Some task
     /\ fallbackId <> Task.status task) ->
  startStatusChanges closure fallbackId affected b =
    (fold_left (started fallbackId) affected b,
     map (fun task => mkStatusChange (Task.id task) fallbackId task) affected).
Proof.
  revert b. induction affected as [|task rest IH]; intros b Hall; [reflexivity|].
  cbn [startStatusChanges].
  destruct (Hall task) as [Hfind Hne]; [left|].
  rewrite (handleStatusChange_call_sends closure task fallbackId b Hfind Hne).
  rewrite IH; [reflexivity|]. intros x Hx. apply Hall. right. exact Hx.
Qed.

(** The optimistic updates of the started calls, as one pass over the store. *)
Lemma started_tasks (fallbackId : string) (affected : list Task.t) b :
  tasks (fold_left (started fallbackId) affected b) =
    map (fun x => if existsb (fun task => Task.id x =? Task.id task) affected
                  then Task.withStatus fallbackId x else x) (tasks b).
Proof.
  revert b. induction affected as [|task rest IH]; intros b.
  - cbn. symmetry. apply map_id.
  - cbn [fold_left]. rewrite IH. cbn [started send emit setTasks tasks
      markStatusUpdating setStatusUpdating]. rewrite map_map.
    apply map_ext. intros x. cbn [existsb].
    destruct (Task.id x =? Task.id task) eqn:Hx; cbn [orb].
    + destruct (existsb _ rest); reflexivity.
    + reflexivity.
Qed.

Lemma affected_by_id (columnId : string) (store : list Task.t) (x : Task.t) :
  NoDup (map Task.id store) -> x ∈ store ->
  existsb (fun task => Task.id x =? Task.id task)
    (List.filter (fun task => String.eqb (Task.status task) columnId) store)
  = String.eqb (Task.status x) columnId.
Proof.
  intros Hnd Hx. destruct (String.eqb (Task.status x) columnId) eqn:Hs.
  - apply existsb_exists. exists x. split; [|apply Z.eqb_refl].
    apply filter_In. split; [apply list_elem_of_In, Hx | exact Hs].
  - apply not_true_is_false. intros Hex.
    apply existsb_exists in Hex as [task [Htask Hid]].
    apply filter_In in Htask as [Htask Hst]. apply list_elem_of_In in Htask.
    apply Z.eqb_eq in Hid.
    rewrite (same_id_same_task store task x Hnd Htask Hx Hid) in Hs. congruence.
Qed.

Lemma started_reassigned (columnId fallbackId : string) b :
  NoDup (map Task.id (tasks b)) ->
  tasks (fold_left (started fallbackId)
           (List.filter (fun task => String.eqb (Task.status task) columnId) (tasks b)) b)
  = map (reassigned columnId fallbackId) (tasks b).
Proof.
  intros Hnd. rewrite started_tasks. apply map_ext_in. intros x Hx.
  apply list_elem_of_In in Hx. rewrite affected_by_id by assumption. reflexivity.
Qed.

Lemma settleStatusChanges_cons (api : Api) k (ks : list StatusChange) b :
  settleStatusChanges api (k :: ks) b =
    settleStatusChanges api ks
      (handleStatusChange_resume k (patch api (sc_taskId k) (sc_status k)) b).
Proof. reflexivity. Qed.

(** The answers of the backend, as one pass over the store: every task with
    the identifier of an answered call is the card of its answer. *)
Lemma settleStatusChanges_tasks (api : Api) (fallbackId : string)
    (affected : list Task.t) b :
  (forall task, task ∈ affected -> patchApplied api fallbackId task) ->
  tasks (settleStatusChanges api
           (map (fun task => mkStatusChange (Task.id task) fallbackId task) affected) b)
  = map (fun x => if existsb (fun task => Task.id x =? Task.id task) affected
                  then patched api fallbackId x else x) (tasks b).
Proof.
  revert b. induction affected as [|task rest IH]; intros b Hapi.
  - cbn. symmetry. apply map_id.
  - cbn [map]. rewrite settleStatusChanges_cons. cbn [sc_taskId sc_status].
    destruct (Hapi task) as (card & Hpatch & Hcid & Hcst); [left|].
    rewrite Hpatch, IH by (intros x Hx; apply Hapi; right; exact Hx).
    rewrite resume_resolved_tasks, map_map, Hcid. apply map_ext. intros x.
    cbn [existsb].
    assert (Hcard : patched api fallbackId (convertCardToTask card)
                    = convertCardToTask card).
    { unfold patched. change (Task.id (convertCardToTask card)) with (KanbanCard.id card).
      rewrite Hcid, Hpatch. reflexivity. }
    destruct (Z.eqb_spec (Task.id x) (Task.id task)) as [Heq|Hn]; cbn [orb].
    + assert (Hx : patched api fallbackId x = convertCardToTask card).
      { unfold patched. rewrite Heq, Hpatch. reflexivity. }
      rewrite Hx, Hcard. destruct (existsb _ rest); reflexivity.
    + reflexivity.
Qed.

Lemma settleStatusChanges_statusUpdating (api : Api) (ks : list StatusChange) b k :
  k ∈ ks -> sc_taskId k ∉ statusUpdating (settleStatusChanges api ks b).
Proof.
  revert b. induction ks as [|k' ks IH]; intros b Hk; [inversion Hk|].
  rewrite settleStatusChanges_cons.
  apply elem_of_cons in Hk as [->|Hk]; [|apply IH, Hk].
  assert (Hmono : forall ks b, sc_taskId k' ∉ statusUpdating b ->
                    sc_taskId k' ∉ statusUpdating (settleStatusChanges api ks b)).
  { clear. induction ks as [|k ks IH]; intros b Hb; [exact Hb|].
    rewrite settleStatusChanges_cons.
    apply IH. rewrite resume_statusUpdating, elem_of_difference. tauto. }
  apply Hmono, resume_clears_flag.
Qed.

Lemma started_effects (fallbackId : string) (affected : list Task.t) b task :
  task ∈ affected ->
  ApiPatch (Task.id task) fallbackId
    ∈ effects (fold_left (started fallbackId) affected b).
Proof.
  revert b. induction affected as [|x rest IH]; intros b Hin; [inversion Hin|].
  cbn [fold_left]. apply elem_of_cons in Hin as [->|Hin]; [|apply IH, Hin].
  assert (Hmono : forall l b e, e ∈ effects b ->
                    e ∈ effects (fold_left (started fallbackId) l b)).
  { clear. induction l as [|x l IH]; intros b e He; [exact He|].
    cbn [fold_left]. apply IH. cbn. apply elem_of_app. left. exact He. }
  apply Hmono. cbn. apply elem_of_app. right. left.
Qed.

Lemma settleStatusChanges_effects (api : Api) (ks : list StatusChange) b (e : Effect) :
  e ∈ effects b -> e ∈ effects (settleStatusChanges api ks b).
Proof.
  revert b. induction ks as [|k ks IH]; intros b He; [exact He|].
  rewrite settleStatusChanges_cons.
  apply IH. unfold handleStatusChange_resume.
  destruct (patch api _ _); cbn; apply elem_of_app; left; exact He.
Qed.

End DeleteColumn.

Section DeleteColumnRun.

Implicit Types (task : Task.t) (b : Board) (k : StatusChange).

Lemma reassigned_id (columnId fallbackId : string) task :
  Task.id (reassigned columnId fallbackId task) = Task.id task.
Proof. unfold reassigned. destruct (String.eqb _ _); reflexivity. Qed.

Lemma handleDeleteColumn_guard (api : Api) (columnId : string) b :
  Js.findIndex (columnIs columnId) (columns b) <= 0 ->
  handleDeleteColumn api columnId b = b.
Proof.
  intros Hi. unfold handleDeleteColumn, handleDeleteColumn_call.
  rewrite (proj2 (Z.leb_le _ _) Hi). reflexivity.
Qed.

Lemma handleDeleteColumn_runs (api : Api) (columnId : string) b
    (fallback : Column.t) :
  0 < Js.findIndex (columnIs columnId) (columns b) ->
  at_ (columns b) (Js.findIndex (columnIs columnId) (columns b) - 1) = Some fallback ->
  NoDup (map Task.id (tasks b)) ->
  let affected :=
    List.filter (fun task => String.eqb (Task.status task) columnId) (tasks b) in
  Column.id fallback <> columnId
  /\ handleDeleteColumn api columnId b =
       handleDeleteColumn_resume columnId
         (settleStatusChanges api
            (map (fun task => mkStatusChange (Task.id task) (Column.id fallback) task)
               affected)
            (fold_left (started (Column.id fallback)) affected b)).
Proof.
  intros Hi Hat Hnd affected.
  assert (Hfb : Column.id fallback <> columnId).
  { intros Heq.
    assert (Hp : columnIs columnId fallback = false).
    { eapply findIndex_first; [|exact Hat]. lia. }
    unfold columnIs in Hp. rewrite Heq, String.eqb_refl in Hp. discriminate. }
  split; [exact Hfb|].
  unfold handleDeleteColumn, handleDeleteColumn_call.
  rewrite (proj2 (Z.leb_gt _ _) Hi), Hat.
  fold affected. rewrite startStatusChanges_sends; [reflexivity|].
  intros task Htask. apply list_elem_of_In, filter_In in Htask as [Htask Hst].
  apply String.eqb_eq in Hst. apply list_elem_of_In in Htask.
  split; [apply find_by_id; assumption | congruence].
Qed.

End DeleteColumnRun.

(** C3, with the backend's answer made explicit.  Deleting the column
    [findIndex] puts at position 0, or a column that is not in the registry,
    changes nothing.  For a column at a
    position i > 0, with unique task identifiers, a patch towards the column
    at position i-1 is sent for every task of the deleted column; when the
    backend applies each of these patches, whatever else it puts on the
    cards, every such task is the card of its answer and ends with the
    status of the column at i-1, the other tasks are untouched, none of
    them stays marked as updating, the column is removed from the registry,
    and the column filter is reset to ['all'] when it pointed at the deleted
    column and is unchanged otherwise. *)
Theorem handleDeleteColumn_reassigns (api : Api) (columnId : string) (b : Board) :
  (Js.findIndex (columnIs columnId) (columns b) <= 0 ->
   handleDeleteColumn api columnId b = b)
  /\ (forall fallback,
        0 < Js.findIndex (columnIs columnId) (columns b) ->
        at_ (columns b) (Js.findIndex (columnIs columnId) (columns b) - 1)
          = Some fallback ->
        NoDup (map Task.id (tasks b)) ->
        let b' := handleDeleteColumn api columnId b in
        (forall task, task ∈ tasks b -> Task.status task = columnId ->
           ApiPatch (Task.id task) (Column.id fallback) ∈ effects b')
        /\ columns b' =
             List.filter (fun column => negb (columnIs columnId column)) (columns b)
        /\ (columnId ∉ map Column.id (columns b'))
        /\ filters b' =
             Filters.withColumn
               (if String.eqb (Filters.column (filters b)) columnId
                then "all" else Filters.column (filters b))
               (filters b)
        /\ ((forall task, task ∈ tasks b -> Task.status task = columnId ->
               patchApplied api (Column.id fallback) task) ->
            tasks b'
            = map (fun task =>
                     if String.eqb (Task.status task) columnId
                     then patched api (Column.id fallback) task else task)
                (tasks b)
            /\ map Task.id (tasks b') = map Task.id (tasks b)
            /\ map Task.status (tasks b')
               = map Task.status (map (reassigned columnId (Column.id fallback)) (tasks b))
            /\ (forall task, task ∈ tasks b -> Task.status task <> columnId ->
                  task ∈ tasks b')
            /\ (forall task, task ∈ tasks b -> Task.status task = columnId ->
                  Task.id task ∉ statusUpdating b'))).
Proof.
  split; [apply handleDeleteColumn_guard|].
  intros fallback Hi Hat Hnd b'.
  destruct (handleDeleteColumn_runs api columnId b fallback Hi Hat Hnd) as [Hfb Hrun].
  cbv zeta in Hrun. subst b'. rewrite Hrun. clear Hrun.
  set (affected := List.filter _ (tasks b)).
  set (ks := map _ affected).
  assert (Haff : forall task, task ∈ tasks b -> Task.status task = columnId ->
                   task ∈ affected).
  { intros task Hin Hst. apply list_elem_of_In, filter_In.
    split; [apply list_elem_of_In, Hin | apply String.eqb_eq, Hst]. }
  assert (Hcols : columns (settleStatusChanges api ks
                             (fold_left (started (Column.id fallback)) affected b))
                  = columns b).
  { unfold settleStatusChanges.
    rewrite (fold_left_frame _ columns); [apply (fold_left_frame _ columns)|].
    - intros acc x. reflexivity.
    - intros acc k. unfold handleStatusChange_resume. destruct (patch _ _ _); reflexivity. }
  assert (Hfil : filters (settleStatusChanges api ks
                            (fold_left (started (Column.id fallback)) affected b))
                 = filters b).
  { unfold settleStatusChanges.
    rewrite (fold_left_frame _ filters); [apply (fold_left_frame _ filters)|].
    - intros acc x. reflexivity.
    - intros acc k. unfold handleStatusChange_resume. destruct (patch _ _ _); reflexivity. }
  split.
  { intros task Hin Hst. cbn [handleDeleteColumn_resume setColumnDeletionContext
      setFilters setColumns effects].
    apply settleStatusChanges_effects, started_effects, Haff; assumption. }
  split.
  { cbn [handleDeleteColumn_resume setColumnDeletionContext setFilters setColumns
      columns]. rewrite Hcols. reflexivity. }
  split.
  { cbn [handleDeleteColumn_resume setColumnDeletionContext setFilters setColumns
      columns]. rewrite Hcols. intros Hin.
    apply list_elem_of_fmap in Hin as [column [Hid Hin]].
    apply list_elem_of_In, filter_In in Hin as [_ Hp].
    unfold columnIs in Hp. rewrite <- Hid, String.eqb_refl in Hp. discriminate. }
  split.
  { cbn [handleDeleteColumn_resume setColumnDeletionContext setFilters setColumns
      filters]. rewrite Hfil. reflexivity. }
  intros Hapi.
  cbn [handleDeleteColumn_resume setColumnDeletionContext setFilters setColumns
    tasks statusUpdating].
  assert (Hstore :
    tasks (settleStatusChanges api ks
             (fold_left (started (Column.id fallback)) affected b))
    = map (fun task =>
             if String.eqb (Task.status task) columnId
             then patched api (Column.id fallback) task else task)
        (tasks b)).
  { unfold ks. rewrite settleStatusChanges_tasks.
    - unfold affected at 2. rewrite started_reassigned by exact Hnd.
      rewrite map_map. apply map_ext_in. intros x Hx. apply list_elem_of_In in Hx.
      pose proof (affected_by_id columnId (tasks b) x Hnd Hx) as Hby.
      fold affected in Hby. unfold reassigned.
      destruct (String.eqb (Task.status x) columnId) eqn:Hs.
      + change (Task.id (Task.withStatus (Column.id fallback) x)) with (Task.id x).
        rewrite Hby. apply patched_same_id; [reflexivity|].
        apply Hapi; [exact Hx | apply String.eqb_eq, Hs].
      + rewrite Hby. reflexivity.
    - intros task Htask. apply list_elem_of_In, filter_In in Htask as [Htask Hst].
      apply Hapi; [apply list_elem_of_In, Htask | apply String.eqb_eq, Hst]. }
  split; [exact Hstore|].
  split.
  { rewrite Hstore, map_map. apply map_ext_in. intros x Hx. apply list_elem_of_In in Hx.
    destruct (String.eqb (Task.status x) columnId) eqn:Hs; [|reflexivity].
    apply patched_applied, Hapi; [exact Hx | apply String.eqb_eq, Hs]. }
  split.
  { rewrite Hstore, !map_map. apply map_ext_in. intros x Hx. apply list_elem_of_In in Hx.
    unfold reassigned.
    destruct (String.eqb (Task.status x) columnId) eqn:Hs; [|reflexivity].
    apply patched_applied, Hapi; [exact Hx | apply String.eqb_eq, Hs]. }
  split.
  { intros task Hin Hst. rewrite Hstore. apply list_elem_of_fmap. exists task.
    rewrite (proj2 (String.eqb_neq _ _) Hst). auto. }
  intros task Hin Hst.
  apply (settleStatusChanges_statusUpdating api ks _
           (mkStatusChange (Task.id task) (Column.id fallback) task)).
  unfold ks. apply list_elem_of_fmap. exists task. split; [reflexivity|].
  apply Haff; assumption.
Qed.

Section Reorder.

Implicit Types (b : Board) (draft : list Column.t).

Lemma at_inside {A : Type} (l : list A) (i : Z) :
  0 <= i < Z.of_nat (length l) -> exists x, at_ l i = Some x.
Proof.
  intros Hi. unfold at_. rewrite (proj2 (Z.ltb_ge i 0)) by lia.
  apply lookup_lt_is_Some_2. lia.
Qed.

Lemma at_Some {A : Type} (l : list A) (i : Z) (x : A) :
  at_ l i = Some x -> l !! Z.to_nat i = Some x /\ 0 <= i < Z.of_nat (length l).
Proof.
  unfold at_. destruct (Z.ltb_spec i 0) as [Hneg|Hpos]; [discriminate|]. intros Hx.
  split; [exact Hx|]. apply lookup_lt_Some in Hx. lia.
Qed.

(** A target outside the draft: the updater returns the draft it got. *)
Lemma swapColumns_outside (index direction : Z) draft :
  index + direction < 0 \/ Z.of_nat (length draft) <= index + direction ->
  swapColumns index direction draft = Some draft.
Proof.
  intros Ht. unfold swapColumns.
  destruct (Z.ltb_spec (index + direction) 0); [reflexivity|].
  destruct (Z.geb_spec (index + direction) (Z.of_nat (length draft)));
    [reflexivity | lia].
Qed.

(** Whenever the updater returns a draft, it holds the same columns. *)
Lemma swapColumns_rearranges (index direction : Z) draft next :
  swapColumns index direction draft = Some next -> next ≡ₚ draft.
Proof.
  unfold swapColumns.
  destruct ((index + direction <? 0)
            || (index + direction >=? Z.of_nat (length draft))).
  { intros [= <-]. reflexivity. }
  destruct (at_ draft index) as [x|] eqn:Hx; [|discriminate].
  destruct (at_ draft (index + direction)) as [y|] eqn:Hy; [|discriminate].
  intros [= <-].
  apply at_Some in Hx as [Hx Hi]. apply at_Some in Hy as [Hy Ht].
  destruct (decide (Z.to_nat index = Z.to_nat (index + direction))) as [Heq|Hne].
  - rewrite Heq in *. rewrite list_insert_insert_eq.
    assert (x = y) as -> by congruence. rewrite list_insert_id by exact Hy.
    reflexivity.
  - symmetry. apply Permutation_inj. split.
    { rewrite !length_insert. reflexivity. }
    exists (fun n => if decide (n = Z.to_nat index) then Z.to_nat (index + direction)
                     else if decide (n = Z.to_nat (index + direction))
                          then Z.to_nat index else n).
    split.
    + intros n m Hnm. repeat case_decide; subst; congruence.
    + intros n. repeat case_decide; subst.
      * rewrite list_lookup_insert_ne by congruence.
        rewrite list_lookup_insert_eq by lia. congruence.
      * rewrite list_lookup_insert_eq by (rewrite length_insert; lia). congruence.
      * rewrite !list_lookup_insert_ne by congruence. reflexivity.
Qed.

(** With the index and the target inside the draft, the updater exchanges
    the two entries. *)
Lemma swapColumns_exchanges (index direction : Z) draft :
  0 <= index < Z.of_nat (length draft) ->
  0 <= index + direction < Z.of_nat (length draft) ->
  exists next,
    swapColumns index direction draft = Some next
    /\ at_ next index = at_ draft (index + direction)
    /\ at_ next (index + direction) = at_ draft index.
Proof.
  intros Hi Ht. unfold swapColumns.
  rewrite (proj2 (Z.ltb_ge (index + direction) 0)) by lia.
  destruct (Z.geb_spec (index + direction) (Z.of_nat (length draft))) as [Hge|Hlt];
    [lia|]. cbn [orb].
  destruct (at_inside draft index Hi) as [x Hx].
  destruct (at_inside draft (index + direction) Ht) as [y Hy].
  rewrite Hx, Hy. eexists. split; [reflexivity|].
  apply at_Some in Hx as [Hx _]. apply at_Some in Hy as [Hy _].
  unfold at_.
  rewrite (proj2 (Z.ltb_ge index 0)), (proj2 (Z.ltb_ge (index + direction) 0)) by lia.
  split.
  - apply list_lookup_insert_eq. rewrite length_insert. lia.
  - destruct (decide (Z.to_nat index = Z.to_nat (index + direction))) as [Heq|Hne].
    + rewrite <- Heq in *. rewrite list_lookup_insert_eq by (rewrite length_insert; lia).
      congruence.
    + rewrite list_lookup_insert_ne by congruence.
      apply list_lookup_insert_eq. lia.
Qed.

(** With the index inside the draft, the updater returns a draft. *)
Lemma swapColumns_defined (index direction : Z) draft :
  0 <= index < Z.of_nat (length draft) ->
  exists next, swapColumns index direction draft = Some next.
Proof.
  intros Hi.
  destruct (Z.lt_ge_cases (index + direction) 0) as [Hneg|Hpos].
  { exists draft. apply swapColumns_outside. lia. }
  destruct (Z.lt_ge_cases (index + direction) (Z.of_nat (length draft))) as [Hlt|Hge].
  - destruct (swapColumns_exchanges index direction draft Hi) as (next & H & _);
      [lia | eauto].
  - exists draft. apply swapColumns_outside. lia.
Qed.

Lemma setPendingColumnOrder_same b :
  setPendingColumnOrder (fun _ => pendingColumnOrder b) b = b.
Proof. destruct b; reflexivity. Qed.

Lemma moveColumn_outside (index direction : Z) b :
  index + direction < 0
  \/ Z.of_nat (length (pendingColumnOrder b)) <= index + direction ->
  moveColumn index direction b = Some b.
Proof.
  intros Ht. unfold moveColumn. rewrite swapColumns_outside by exact Ht.
  rewrite setPendingColumnOrder_same. reflexivity.
Qed.

(** Moves change the draft only, into a rearrangement of itself. *)
Lemma moveColumns_draft (moves : list (Z * Z)) b b' :
  moveColumns moves b = Some b' ->
  b' = setPendingColumnOrder (fun _ => pendingColumnOrder b') b
  /\ pendingColumnOrder b' ≡ₚ pendingColumnOrder b.
Proof.
  revert b. induction moves as [|[index direction] moves IH]; intros b.
  - intros [= <-]. split; [|reflexivity]. symmetry. apply setPendingColumnOrder_same.
  - cbn [moveColumns]. unfold moveColumn.
    destruct (swapColumns index direction (pendingColumnOrder b)) as [next|] eqn:Hswap;
      [|discriminate].
    intros Hrun. apply IH in Hrun as [Hframe Hperm].
    cbn [pendingColumnOrder setPendingColumnOrder] in Hperm. split.
    + rewrite Hframe at 1. reflexivity.
    + rewrite Hperm. apply (swapColumns_rearranges _ _ _ _ Hswap).
Qed.

(** Moves made from the rendered draft are all carried out. *)
Lemma moveColumns_defined (moves : list (Z * Z)) b :
  Forall (fun m => 0 <= m.1 < Z.of_nat (length (pendingColumnOrder b))) moves ->
  exists b', moveColumns moves b = Some b'.
Proof.
  revert b. induction moves as [|[index direction] moves IH]; intros b Hall.
  - exists b. reflexivity.
  - apply Forall_cons in Hall as [Hm Hall]. cbn [fst] in Hm.
    destruct (swapColumns_defined index direction _ Hm) as [next Hswap].
    cbn [moveColumns]. unfold moveColumn. rewrite Hswap. apply IH.
    cbn [pendingColumnOrder setPendingColumnOrder].
    rewrite (Permutation_length (swapColumns_rearranges _ _ _ _ Hswap)). exact Hall.
Qed.

End Reorder.

(** C5. Entering reorder mode copies the committed order into the draft.
    Whatever sequence of [moveColumn] calls follows, it changes the draft
    only, into a rearrangement of the committed order that the effect on the
    columns leaves alone, and every call made from the rendered draft is
    carried out; a call whose target index is outside the draft changes
    nothing.  Cancelling puts the committed order
    back into the draft and leaves the committed order as it was before
    entering; saving makes the draft the committed order. *)
Theorem reorder_draft_isolated (b : Board) (moves : list (Z * Z)) :
  pendingColumnOrder (enterReorderMode b) = columns b
  /\ isReordering (enterReorderMode b) = true
  /\ columns (enterReorderMode b) = columns b
  /\ (forall b',
        moveColumns moves (enterReorderMode b) = Some b' ->
        b' = setPendingColumnOrder (fun _ => pendingColumnOrder b') (enterReorderMode b)
        /\ columns b' = columns b
        /\ pendingColumnOrder b' ≡ₚ columns b
        /\ pendingColumnOrderEffect b' = b'
        /\ columns (cancelReorderMode b') = columns b
        /\ pendingColumnOrder (cancelReorderMode b') = columns b
        /\ isReordering (cancelReorderMode b') = false
        /\ columns (saveColumnOrder b') = pendingColumnOrder b'
        /\ isReordering (saveColumnOrder b') = false)
  /\ (Forall (fun m => 0 <= m.1 < Z.of_nat (length (columns b))) moves ->
      exists b', moveColumns moves (enterReorderMode b) = Some b')
  /\ (forall b1 index direction,
        index + direction < 0
        \/ Z.of_nat (length (pendingColumnOrder b1)) <= index + direction ->
        moveColumn index direction b1 = Some b1).
Proof.
  split; [reflexivity|]. split; [reflexivity|]. split; [reflexivity|].
  split; [|split].
  - intros b' Hrun. apply moveColumns_draft in Hrun as [Hframe Hperm].
    assert (Hcols : columns b' = columns b) by (rewrite Hframe; reflexivity).
    split; [exact Hframe|]. split; [exact Hcols|]. split; [exact Hperm|].
    split.
    { unfold pendingColumnOrderEffect. rewrite Hframe. reflexivity. }
    cbn [cancelReorderMode saveColumnOrder setIsReordering setPendingColumnOrder
      setColumns columns pendingColumnOrder isReordering].
    rewrite Hcols. repeat split; reflexivity.
  - intros Hall. apply moveColumns_defined. exact Hall.
  - intros b1 index direction. apply moveColumn_outside.
Qed.

Section Submit.

Lemma validateLabel_ok (value : string) :
  Js.trim value <> "" -> validateLabel value = None.
Proof.
  intros Hne. unfold validateLabel. rewrite length_zero.
  destruct (Js.isEmpty (Js.trim value)) eqn:He; [|reflexivity].
  apply isEmpty_true in He. contradiction.
Qed.

Lemma columnId_taken (slug : string) (columns : list Column.t) :
  existsb (fun column => String.eqb (Column.id column) slug) columns = true
  <-> slug ∈ map Column.id columns.
Proof.
  rewrite existsb_exists, list_elem_of_fmap. split.
  - intros [column [Hin Heq]]. apply String.eqb_eq in Heq.
    exists column. split; [congruence | apply list_elem_of_In, Hin].
  - intros [column [-> Hin]]. exists column.
    split; [apply list_elem_of_In, Hin | apply String.eqb_refl].
Qed.

End Submit.

(** C6, for a label that passes validation.  Submitting the column form with
    a label that is not empty after trimming: when the slug of the label is the identifier of an
    existing column, the label field gets the uniqueness error and nothing
    but the form's error changes; otherwise exactly one column, with that
    slug, the label and the colour of the form, is appended after the
    existing ones, which are unchanged. *)
Theorem handleColumnSubmit_valid_label (generated : string) (b : Board) :
  Js.trim (ColumnFormValues.label (columnFormValues b)) <> "" ->
  let slug := slugify generated (ColumnFormValues.label (columnFormValues b)) in
  (slug ∈ map Column.id (columns b) ->
     handleColumnSubmit generated b
       = setColumnForm (columnFormValues b) (Some "Choose a unique name.") b
     /\ columns (handleColumnSubmit generated b) = columns b
     /\ columnFormLabelError (handleColumnSubmit generated b)
        = Some "Choose a unique name.")
  /\ (slug ∉ map Column.id (columns b) ->
        columns (handleColumnSubmit generated b)
          = columns b ++ [Column.mk slug (ColumnFormValues.label (columnFormValues b))
                            (ColumnFormValues.color (columnFormValues b))]
        /\ columnFormLabelError (handleColumnSubmit generated b) = None
        /\ columnModalOpen (handleColumnSubmit generated b) = false).
Proof.
  intros Hlabel slug. unfold handleColumnSubmit.
  rewrite (validateLabel_ok _ Hlabel). fold slug.
  split; intros Hslug.
  - rewrite (proj2 (columnId_taken slug (columns b)) Hslug).
    repeat split; reflexivity.
  - destruct (existsb _ (columns b)) eqn:Hex.
    + apply columnId_taken in Hex. contradiction.
    + repeat split; reflexivity.
Qed.

Section DeleteTask.

Implicit Types (b : Board).

Lemma handleDeleteTask_call_sends (taskId : Z) b :
  deletingTaskId b <> Some taskId ->
  handleDeleteTask_call taskId b
  = (send (ApiDelete taskId) (setDeletingTaskId (Some taskId) b), true).
Proof.
  intros Hne. unfold handleDeleteTask_call.
  rewrite bool_decide_eq_false_2 by exact Hne. reflexivity.
Qed.

End DeleteTask.

(** X1. One deletion, from the click to the answer: the task is flagged as
    being deleted and a second click right away is guarded; when the call
    fails the store is unchanged and the error is notified; when it succeeds
    exactly the tasks with that identifier leave the store; either way the
    flag is cleared, whatever happened in between. *)
Theorem handleDeleteTask_outcomes (taskId : Z) (b : Board) :
  deletingTaskId b <> Some taskId ->
  let b1 := (handleDeleteTask_call taskId b).1 in
  deletingTaskId b1 = Some taskId
  /\ handleDeleteTask_call taskId b1 = (b1, false)
  /\ (forall b2, tasks (handleDeleteTask_resume taskId false b2) = tasks b2
                 /\ ShowApiError "Could not delete task"
                      ∈ effects (handleDeleteTask_resume taskId false b2))
  /\ (forall b2 task, task ∈ tasks (handleDeleteTask_resume taskId true b2)
                      <-> task ∈ tasks b2 /\ Task.id task <> taskId)
  /\ (forall resolved b2,
        deletingTaskId (handleDeleteTask_resume taskId resolved b2) = None).
Proof.
  intros Hne b1. subst b1. rewrite handleDeleteTask_call_sends by exact Hne.
  cbn [fst]. split; [reflexivity|]. split.
  { unfold handleDeleteTask_call. cbn [deletingTaskId send emit setDeletingTaskId].
    rewrite bool_decide_eq_true_2 by reflexivity. reflexivity. }
  split.
  { intros b2. split; [reflexivity|]. cbn. apply elem_of_app. right. left. }
  split.
  { intros b2 task. cbn. rewrite !list_elem_of_In, filter_In, negb_true_iff, Z.eqb_neq.
    reflexivity. }
  intros [] b2; reflexivity.
Qed.

Section InsertionOrder.

Implicit Types (acc l : list string) (x : string).

Lemma arrayIncludes_false x l : Js.arrayIncludes x l = false <-> x ∉ l.
Proof.
  rewrite <- arrayIncludes_spec. destruct (Js.arrayIncludes x l); split; congruence.
Qed.

Lemma addAll_app acc l1 l2 :
  Js.addAll acc (l1 ++ l2) = Js.addAll (Js.addAll acc l1) l2.
Proof.
  revert acc. induction l1 as [|x l1 IH]; intros acc; [reflexivity|].
  cbn [app Js.addAll]. apply IH.
Qed.

(** Adding values to a set keeps what is there, in place, and appends the new
    ones. *)
Lemma addAll_appends acc l :
  exists added,
    Js.addAll acc l = acc ++ added
    /\ (forall x, x ∈ added -> x ∈ l /\ x ∉ acc)
    /\ (forall x, x ∈ l -> x ∈ acc ++ added)
    /\ (NoDup acc -> NoDup (acc ++ added)).
Proof.
  revert acc. induction l as [|x l IH]; intros acc.
  - exists []. rewrite app_nil_r. split; [reflexivity|].
    split; [intros y Hy; inversion Hy|]. split; [intros y Hy; inversion Hy | tauto].
  - cbn [Js.addAll]. destruct (Js.arrayIncludes x acc) eqn:Hx.
    + apply arrayIncludes_spec in Hx.
      destruct (IH acc) as (added & Heq & Hnew & Hall & Hnd).
      exists added. split; [exact Heq|]. split; [|split; [|exact Hnd]].
      * intros y Hy. destruct (Hnew y Hy). split; [right|]; assumption.
      * intros y Hy. apply elem_of_cons in Hy as [->|Hy]; [|auto].
        apply elem_of_app. left. exact Hx.
    + apply arrayIncludes_false in Hx.
      destruct (IH (acc ++ [x])) as (added & Heq & Hnew & Hall & Hnd).
      exists (x :: added). rewrite Heq, <- app_assoc. split; [reflexivity|].
      split; [|split].
      * intros y Hy. apply elem_of_cons in Hy as [->|Hy].
        -- split; [left | exact Hx].
        -- destruct (Hnew y Hy) as [H1 H2]. split; [right; exact H1|].
           intros Hin. apply H2, elem_of_app. left. exact Hin.
      * intros y Hy. apply elem_of_cons in Hy as [->|Hy].
        -- apply elem_of_app. right. left.
        -- specialize (Hall y Hy). rewrite <- app_assoc in Hall. exact Hall.
      * intros Hacc. rewrite <- app_assoc in Hnd. apply Hnd.
        apply NoDup_app. split; [exact Hacc|]. split.
        -- intros y Hy Hy'. apply list_elem_of_singleton in Hy'. congruence.
        -- apply NoDup_singleton.
Qed.

Lemma addAll_present acc l :
  (forall x, x ∈ l -> x ∈ acc) -> Js.addAll acc l = acc.
Proof.
  intros Hall. destruct (addAll_appends acc l) as (added & Heq & Hnew & _).
  destruct added as [|x added]; [rewrite Heq; apply app_nil_r|].
  destruct (Hnew x) as [Hx Hx']; [left|]. exfalso. apply Hx', Hall, Hx.
Qed.

Lemma addAll_fresh acc l : NoDup (acc ++ l) -> Js.addAll acc l = acc ++ l.
Proof.
  revert acc. induction l as [|x l IH]; intros acc Hnd.
  - symmetry. apply app_nil_r.
  - cbn [Js.addAll].
    assert (Hx : Js.arrayIncludes x acc = false).
    { apply arrayIncludes_false. apply NoDup_app in Hnd as (_ & Hdis & _).
      intros Hin. apply (Hdis x Hin). left. }
    rewrite Hx, IH, <- app_assoc; [reflexivity|].
    rewrite <- app_assoc. exact Hnd.
Qed.

End InsertionOrder.

Section TagOptions.

Implicit Types (b : Board) (current : list string).

Lemma DEFAULT_TAG_OPTIONS_NoDup : NoDup DEFAULT_TAG_OPTIONS.
Proof. apply (bool_decide_unpack _). vm_compute. exact I. Qed.

Lemma serverTagsOf_spec (store : list Task.t) (tag : string) :
  tag ∈ serverTagsOf store
  <-> tag <> "" /\ exists task, task ∈ store /\ tag ∈ Task.tags task.
Proof.
  unfold serverTagsOf, Js.arrayFromSet.
  destruct (addAll_appends [] (List.filter truthy (flat_map Task.tags store)))
    as (added & -> & Hnew & Hall & _).
  cbn [app].
  assert (Hsrc : forall x, x ∈ List.filter truthy (flat_map Task.tags store)
                   <-> x <> "" /\ exists task, task ∈ store /\ x ∈ Task.tags task).
  { intros x. rewrite list_elem_of_In, filter_In, in_flat_map.
    unfold truthy. rewrite negb_true_iff.
    assert (Js.isEmpty x = false <-> x <> "").
    { destruct x; cbn; split; congruence. }
    setoid_rewrite <- list_elem_of_In. tauto. }
  split.
  - intros Hin. apply Hsrc, Hnew, Hin.
  - intros Hin. apply Hsrc, Hall in Hin. exact Hin.
Qed.

(** On a vocabulary the updater of the effect appends the tags it does not
    know yet. *)
Lemma combineTagOptions_addAll (serverTags current : list string) :
  vocabulary current ->
  combineTagOptions serverTags current = Js.addAll current serverTags.
Proof.
  intros [[known ->] Hnd]. unfold combineTagOptions, Js.arrayFromSet.
  assert (Hcombined :
    Js.addAll [] (DEFAULT_TAG_OPTIONS ++ (DEFAULT_TAG_OPTIONS ++ known) ++ serverTags)
    = Js.addAll (DEFAULT_TAG_OPTIONS ++ known) serverTags).
  { rewrite !addAll_app.
    rewrite (addAll_fresh [] DEFAULT_TAG_OPTIONS) by exact DEFAULT_TAG_OPTIONS_NoDup.
    cbn [app].
    rewrite (addAll_present DEFAULT_TAG_OPTIONS DEFAULT_TAG_OPTIONS) by auto.
    rewrite (addAll_fresh DEFAULT_TAG_OPTIONS known) by exact Hnd.
    reflexivity. }
  rewrite Hcombined.
  destruct (addAll_appends (DEFAULT_TAG_OPTIONS ++ known) serverTags)
    as (added & Heq & _).
  rewrite Heq.
  destruct (_ && _) eqn:Hsame; [|reflexivity].
  apply andb_prop in Hsame as [Hlen _]. apply Z.eqb_eq in Hlen.
  rewrite length_app in Hlen.
  destruct added; [symmetry; apply app_nil_r | cbn [length] in Hlen; lia].
Qed.

Lemma tagOptionsEffect_addAll b :
  vocabulary (tagOptions b) ->
  tagOptions (tagOptionsEffect b)
  = Js.addAll (tagOptions b) (serverTagsOf (tasks b)).
Proof.
  intros Hv. unfold tagOptionsEffect.
  destruct (Z.eqb_spec (Z.of_nat (length (serverTagsOf (tasks b)))) 0) as [Hlen|Hlen].
  - destruct (serverTagsOf (tasks b)); [reflexivity | cbn [length] in Hlen; lia].
  - cbn [tagOptions setTagOptions]. apply combineTagOptions_addAll, Hv.
Qed.

Lemma vocabulary_addAll current l :
  vocabulary current -> vocabulary (Js.addAll current l).
Proof.
  intros [[known ->] Hnd].
  destruct (addAll_appends (DEFAULT_TAG_OPTIONS ++ known) l) as (added & -> & _ & _ & Hnd').
  split; [|apply Hnd', Hnd].
  exists (known ++ added). rewrite app_assoc. reflexivity.
Qed.

Lemma vocabulary_add current (tag : string) :
  vocabulary current ->
  vocabulary (if Js.arrayIncludes tag current then current else current ++ [tag]).
Proof.
  intros Hv. destruct (Js.arrayIncludes tag current) eqn:Hin; [exact Hv|].
  apply (vocabulary_addAll current [tag]) in Hv. cbn [Js.addAll] in Hv.
  rewrite Hin in Hv. exact Hv.
Qed.

(** Every vocabulary the component reaches has the defaults first and no
    value twice. *)
Lemma reachable_vocabulary current :
  reachableTagOptions current -> vocabulary current.
Proof.
  induction 1 as [|b _ IH|b _ IH].
  - split; [exists []; symmetry; apply app_nil_r | exact DEFAULT_TAG_OPTIONS_NoDup].
  - rewrite tagOptionsEffect_addAll by exact IH. apply vocabulary_addAll, IH.
  - unfold handleAddTagOption. destruct (Js.isEmpty _); [exact IH|].
    cbn [tagOptions setTaskFormTags setNewTagName setTagOptions].
    apply vocabulary_add, IH.
Qed.

End TagOptions.

(** C9, for non-empty tags.  When the store is replaced and the effect on the
    tasks has run, a vocabulary the component has reached is a prefix of the new one,
    so nothing is lost and nothing already known moves; the new vocabulary
    holds the defaults and every non-empty tag of the current tasks; it is the
    defaults, then the tags known before, then the newly discovered ones,
    each of them new and taken from a task; and it can be reached as well. *)
Theorem tagOptions_monotone (b : Board) (newTasks : list Task.t) :
  reachableTagOptions (tagOptions b) ->
  let b' := tagOptionsEffect (setTasks (fun _ => newTasks) b) in
  tagOptions b ⊆ tagOptions b'
  /\ DEFAULT_TAG_OPTIONS ⊆ tagOptions b'
  /\ (forall task tag, task ∈ tasks b' -> tag ∈ Task.tags task -> tag <> "" ->
        tag ∈ tagOptions b')
  /\ (length (tagOptions b) <= length (tagOptions b'))%nat
  /\ tagOptions b `prefix_of` tagOptions b'
  /\ (exists known discovered,
        tagOptions b = DEFAULT_TAG_OPTIONS ++ known
        /\ tagOptions b' = DEFAULT_TAG_OPTIONS ++ known ++ discovered
        /\ forall tag, tag ∈ discovered ->
             (tag ∉ tagOptions b) /\ exists task, task ∈ newTasks /\ tag ∈ Task.tags task)
  /\ NoDup (tagOptions b')
  /\ reachableTagOptions (tagOptions b')
  /\ (forall data,
        loadTasks data b
        = tagOptionsEffect
            (setTasks (fun _ => map convertCardToTask (default [] data)) b)).
Proof.
  intros Hreach b'.
  pose proof (reachable_vocabulary _ Hreach) as Hv.
  assert (Htasks : tasks b' = newTasks).
  { subst b'. unfold tagOptionsEffect. destruct (_ =? _); reflexivity. }
  assert (Hopts : tagOptions b' = Js.addAll (tagOptions b) (serverTagsOf newTasks)).
  { subst b'. rewrite tagOptionsEffect_addAll; [reflexivity | exact Hv]. }
  destruct (addAll_appends (tagOptions b) (serverTagsOf newTasks))
    as (discovered & Heq & Hnew & Hall & Hnd).
  rewrite Heq in Hopts.
  destruct Hv as [[known Hknown] Hnodup].
  split; [rewrite Hopts; intros x Hx; apply elem_of_app; left; exact Hx|].
  split.
  { rewrite Hopts, Hknown. intros x Hx. apply elem_of_app. left.
    apply elem_of_app. left. exact Hx. }
  split.
  { intros task tag Htask Htag Hne. rewrite Hopts. apply Hall, serverTagsOf_spec.
    split; [exact Hne|]. exists task. rewrite <- Htasks. auto. }
  split; [rewrite Hopts, length_app; lia|].
  split; [rewrite Hopts; exists discovered; reflexivity|].
  split.
  { exists known, discovered. split; [exact Hknown|].
    split; [rewrite Hopts, Hknown, app_assoc; reflexivity|].
    intros tag Htag. destruct (Hnew tag Htag) as [Hsrv Hfresh].
    split; [exact Hfresh|]. apply serverTagsOf_spec in Hsrv as [_ Hsrv]. exact Hsrv. }
  split; [rewrite Hopts; apply Hnd, Hnodup|].
  split; [apply (reach_effect (setTasks (fun _ => newTasks) b)), Hreach|].
  intros data. reflexivity.
Qed.

(** * Concrete boards *)

(** The tag filter asks for every selected tag: the task tagged [A] alone is
    filtered out by the selection [A, B] and kept by the selection [A]. *)
Example filteredTasks_tags_and :
  filteredTasks (tasks exampleBoard) (Filters.withTags ["A"; "B"] Filters.initial) = []
  /\ filteredTasks (tasks exampleBoard) (Filters.withTags ["A"] Filters.initial)
     = [pumpTask].
Proof. split; reflexivity. Qed.

(** The search ignores case and surrounding blanks, and matches across the
    fields the haystack joins. *)
Example filteredTasks_search :
  map Task.id (filteredTasks (tasks exampleBoard)
                 (Filters.withSearch "  PUMP   a " Filters.initial)) = [1].
Proof. reflexivity. Qed.

Example slugify_examples :
  slugify "k3" "In Progress" = "in-progress"
  /\ slugify "k3" "  --QA / Test!!--  " = "qa-test"
  /\ slugify "k3" "!!!" = "column-k3".
Proof. repeat split; reflexivity. Qed.

Lemma exampleBoard_ids : NoDup (map Task.id (tasks exampleBoard)).
Proof. apply (bool_decide_unpack _). vm_compute. exact I. Qed.

Lemma pumpTask_stored : pumpTask ∈ tasks exampleBoard.
Proof. left. Qed.

(** C2 on [exampleBoard]: moving task 1 to [done] with a failing backend gives
    the store back and leaves the task unmarked. *)
Lemma handleStatusChange_rollback_example :
  tasks (handleStatusChange failingApi 1 "done" exampleBoard) = tasks exampleBoard
  /\ statusUpdating (handleStatusChange failingApi 1 "done" exampleBoard)
     = statusUpdating exampleBoard ∖ {[1]}
  /\ ShowApiError "Could not update status"
       ∈ effects (handleStatusChange failingApi 1 "done" exampleBoard).
Proof.
  destruct (handleStatusChange_rollback failingApi exampleBoard pumpTask "done")
    as (b1 & k & _ & _ & _ & _ & _ & _ & _ & _ & Hflag & Hfail).
  - exact exampleBoard_ids.
  - exact pumpTask_stored.
  - discriminate.
  - destruct Hfail as [Hstore Herr]; [reflexivity|].
    split; [exact Hstore|]. split; [exact Hflag | exact Herr].
Defined.

(** C8 on [exampleBoard]: moving task 1 to the column it is in. *)
Lemma handleStatusChange_same_status_example :
  handleStatusChange workingApi 1 "doing" exampleBoard = exampleBoard.
Proof.
  destruct (handleStatusChange_same_status workingApi exampleBoard pumpTask)
    as [_ Hsame].
  - exact exampleBoard_ids.
  - exact pumpTask_stored.
  - exact Hsame.
Defined.

(** C3 on [exampleBoard] with a backend that applies the patch and stamps
    the time of the change: deleting [doing] moves task 1 to [backlog], with
    the server's stamp, and removes [doing]; deleting [backlog] changes
    nothing. *)
Lemma handleDeleteColumn_example :
  map Task.status (tasks (handleDeleteColumn stampingApi "doing" exampleBoard))
    = ["backlog"; "done"]
  /\ map Task.updatedAt (tasks (handleDeleteColumn stampingApi "doing" exampleBoard))
     = ["2025-03-02T10:00:00Z"; ""]
  /\ map Column.id (columns (handleDeleteColumn stampingApi "doing" exampleBoard))
     = ["backlog"; "done"]
  /\ handleDeleteColumn stampingApi "backlog" exampleBoard = exampleBoard.
Proof.
  destruct (handleDeleteColumn_reassigns stampingApi "doing" exampleBoard) as [_ Hrun].
  destruct (handleDeleteColumn_reassigns stampingApi "backlog" exampleBoard) as [Hnoop _].
  destruct (Hrun (Column.mk "backlog" "Backlog" "gray"))
    as (_ & Hcols & _ & _ & Hpatched).
  - reflexivity.
  - reflexivity.
  - exact exampleBoard_ids.
  - destruct Hpatched as [Hstore _].
    + intros task Hin Hst.
      apply elem_of_cons in Hin as [->|Hin].
      * eexists. repeat split; reflexivity.
      * apply list_elem_of_singleton in Hin. subst task. discriminate Hst.
    + split; [rewrite Hstore; reflexivity|].
      split; [rewrite Hstore; reflexivity|].
      split; [rewrite Hcols; reflexivity|].
      apply Hnoop. discriminate.
Defined.

(** C3, counterexample: with a failing backend the task keeps the status
    [doing], not [backlog], while [doing] is removed from the registry. *)
Lemma handleDeleteColumn_failed_patch :
  map Task.status (tasks (handleDeleteColumn failingApi "doing" exampleBoard))
    = ["doing"; "done"]
  /\ map Task.status (tasks (handleDeleteColumn failingApi "doing" exampleBoard))
     <> ["backlog"; "done"]
  /\ map Column.id (columns (handleDeleteColumn failingApi "doing" exampleBoard))
     = ["backlog"; "done"].
Proof. split; [reflexivity|]. split; [discriminate | reflexivity]. Qed.

(** C4, failing input: task 1 is being deleted, then task 2, then the delete
    button of task 1 is pressed again.  The guard compares with the single
    [deletingTaskId], which now holds 2, so a second delete call for task 1
    is sent while the first is outstanding.  Pressed right after the first
    press, the button is guarded. *)
Theorem handleDeleteTask_second_request :
  let b1 := (handleDeleteTask_call 1 exampleBoard).1 in
  let b2 := (handleDeleteTask_call 2 b1).1 in
  (handleDeleteTask_call 1 b1).2 = false
  /\ deletingTaskId b2 = Some 2
  /\ (handleDeleteTask_call 1 b2).2 = true
  /\ outstanding (handleDeleteTask_call 1 b2).1 = [ApiDelete 1; ApiDelete 2; ApiDelete 1]
  /\ inFlight (ApiDelete 1) (handleDeleteTask_call 1 b2).1 = 2%nat.
Proof. repeat split; reflexivity. Qed.

(** C5 on [exampleBoard]: three moves to the right, the last one from the
    last position. *)
Lemma reorder_draft_isolated_example :
  exists b',
    moveColumns [(0, 1); (1, 1); (2, 1)] (enterReorderMode exampleBoard) = Some b'
    /\ map Column.id (pendingColumnOrder b') = ["doing"; "done"; "backlog"]
    /\ columns (cancelReorderMode b') = threeColumns
    /\ pendingColumnOrder (cancelReorderMode b') = threeColumns
    /\ map Column.id (columns (saveColumnOrder b')) = ["doing"; "done"; "backlog"].
Proof.
  destruct (reorder_draft_isolated exampleBoard [(0, 1); (1, 1); (2, 1)])
    as (_ & _ & _ & Hrun & Hdefined & _).
  destruct Hdefined as [b' Hb'].
  { repeat constructor; cbn; lia. }
  exists b'. destruct (Hrun b' Hb') as (_ & _ & _ & _ & Hc1 & Hc2 & _ & Hs & _).
  split; [exact Hb'|]. rewrite Hs.
  injection Hb' as <-.
  split; [reflexivity|]. split; [exact Hc1|]. split; [exact Hc2 | reflexivity].
Defined.

(** C6 on the initial board: the label [Backlog] collides, the label
    [QA / Test] does not. *)
Lemma handleColumnSubmit_valid_label_example :
  columns (handleColumnSubmit "k3" (formFilled "Backlog" "red" initialBoard))
    = defaultColumns
  /\ columnFormLabelError (handleColumnSubmit "k3" (formFilled "Backlog" "red" initialBoard))
     = Some "Choose a unique name."
  /\ columns (handleColumnSubmit "k3" (formFilled "QA / Test" "red" initialBoard))
     = defaultColumns ++ [Column.mk "qa-test" "QA / Test" "red"].
Proof.
  destruct (handleColumnSubmit_valid_label "k3" (formFilled "Backlog" "red" initialBoard))
    as [Htaken _]; [discriminate|].
  destruct (handleColumnSubmit_valid_label "k3" (formFilled "QA / Test" "red" initialBoard))
    as [_ Hfree]; [discriminate|].
  destruct Htaken as (_ & Hcols & Herr).
  { apply (bool_decide_unpack _). vm_compute. exact I. }
  destruct Hfree as (Happended & _).
  { apply (bool_decide_unpack _). vm_compute. exact I. }
  split; [exact Hcols|]. split; [exact Herr | exact Happended].
Defined.

(** C6, counterexample: an empty label has a slug that collides with no
    column, and yet no column is appended; the form reports the empty name. *)
Lemma handleColumnSubmit_blank_label :
  slugify "k3" "" = "column-k3"
  /\ existsb (fun column => String.eqb (Column.id column) "column-k3")
       (columns (formFilled "" "gray" initialBoard)) = false
  /\ columns (handleColumnSubmit "k3" (formFilled "" "gray" initialBoard))
     = columns (formFilled "" "gray" initialBoard)
  /\ columnFormLabelError (handleColumnSubmit "k3" (formFilled "" "gray" initialBoard))
     = Some "Name cannot be empty.".
Proof. repeat split; reflexivity. Qed.

(** C9 on the initial board: loading the example cards appends the tag [A]
    after the defaults. *)
Lemma tagOptions_monotone_example :
  tagOptions initialBoard `prefix_of` tagOptions (loadTasks (Some exampleCards) initialBoard)
  /\ "A" ∈ tagOptions (loadTasks (Some exampleCards) initialBoard)
  /\ NoDup (tagOptions (loadTasks (Some exampleCards) initialBoard)).
Proof.
  destruct (tagOptions_monotone initialBoard (map convertCardToTask exampleCards))
    as (_ & _ & Htags & _ & Hprefix & _ & Hnodup & _ & Hload).
  - exact reach_initial.
  - rewrite (Hload (Some exampleCards)). split; [exact Hprefix|].
    split; [|exact Hnodup].
    apply (Htags pumpTask "A"); [left | left | discriminate].
Defined.

(** C9, counterexample: a task carries the empty string as a tag, and the
    vocabulary stays the default one, without it. *)
Lemma tagOptions_empty_tag :
  map Task.tags (tasks (loadTasks (Some [untaggedCard]) initialBoard)) = [[""]]
  /\ tagOptions (loadTasks (Some [untaggedCard]) initialBoard) = DEFAULT_TAG_OPTIONS
  /\ Js.arrayIncludes "" (tagOptions (loadTasks (Some [untaggedCard]) initialBoard))
     = false.
Proof. repeat split; reflexivity. Qed.

(** X1 on [exampleBoard]: deleting task 1 with a failing backend. *)
Lemma handleDeleteTask_outcomes_example :
  tasks (handleDeleteTask failingApi 1 exampleBoard) = tasks exampleBoard
  /\ deletingTaskId (handleDeleteTask failingApi 1 exampleBoard) = None.
Proof.
  destruct (handleDeleteTask_outcomes 1 exampleBoard)
    as (_ & _ & Hfail & _ & Hflag); [discriminate|].
  split.
  - exact (proj1 (Hfail (handleDeleteTask_call 1 exampleBoard).1)).
  - exact (Hflag false (handleDeleteTask_call 1 exampleBoard).1).
Defined.

(** X3 on [exampleBoard] with a backend that stamps the time of the change:
    task 1 moves to [done] and carries the server's stamp. *)
Lemma handleStatusChange_success_example :
  map Task.status (tasks (handleStatusChange stampingApi 1 "done" exampleBoard))
    = ["done"; "done"]
  /\ map Task.updatedAt (tasks (handleStatusChange stampingApi 1 "done" exampleBoard))
     = ["2025-03-02T10:00:00Z"; ""]
  /\ statusUpdating (handleStatusChange stampingApi 1 "done" exampleBoard)
     = statusUpdating exampleBoard ∖ {[1]}.
Proof.
  destruct (handleStatusChange_success stampingApi exampleBoard pumpTask "done")
    as (Hstore & _ & _ & _ & _ & _ & _ & Hflag & _).
  - exact exampleBoard_ids.
  - exact pumpTask_stored.
  - discriminate.
  - eexists. repeat split; reflexivity.
  - split; [|split; [|exact Hflag]].
    + etransitivity; [exact (f_equal (map Task.status) Hstore) | reflexivity].
    + etransitivity; [exact (f_equal (map Task.updatedAt) Hstore) | reflexivity].
Defined.

(** * The rest of the component: proofs *)

(** ** The identifiers of the store *)

Section StoreIds.

Implicit Types (b : Board) (k : StatusChange).

Lemma map_id_replace (updated : Task.t) (store : list Task.t) :
  map Task.id
    (map (fun task => if Task.id task =? Task.id updated then updated else task) store)
  = map Task.id store.
Proof.
  rewrite map_map. apply map_ext. intros task.
  destruct (Z.eqb_spec (Task.id task) (Task.id updated)); congruence.
Qed.

Lemma map_id_withStatus (taskId : Z) (s : string) (store : list Task.t) :
  map Task.id
    (map (fun task => if Task.id task =? taskId then Task.withStatus s task else task)
       store)
  = map Task.id store.
Proof.
  rewrite map_map. apply map_ext. intros task.
  destruct (Task.id task =? taskId); reflexivity.
Qed.

Lemma call_ids (closure : list Task.t) (taskId : Z) (status : string) b :
  map Task.id (tasks (handleStatusChange_call closure taskId status b).1)
  = map Task.id (tasks b).
Proof.
  unfold handleStatusChange_call.
  destruct (List.find _ closure) as [currentTask|]; [|reflexivity].
  destruct (String.eqb _ _); [reflexivity|]. cbn. apply map_id_withStatus.
Qed.

Lemma resume_ids k (response : option KanbanCard.t) b :
  map Task.id (tasks (handleStatusChange_resume k response b)) = map Task.id (tasks b).
Proof.
  unfold handleStatusChange_resume. destruct response as [data|].
  - exact (map_id_replace (convertCardToTask data) (tasks b)).
  - exact (map_id_withStatus (sc_taskId k) _ (tasks b)).
Qed.

Lemma handleStatusChange_ids (api : Api) (taskId : Z) (status : string) b :
  map Task.id (tasks (handleStatusChange api taskId status b)) = map Task.id (tasks b).
Proof.
  unfold handleStatusChange.
  pose proof (call_ids (tasks b) taskId status b) as Hcall.
  destruct (handleStatusChange_call (tasks b) taskId status b) as [b1 [k|]];
    cbn [fst] in Hcall; [|exact Hcall].
  rewrite resume_ids. exact Hcall.
Qed.

Lemma startStatusChanges_ids (closure : list Task.t) (fallbackId : string)
    (affected : list Task.t) b :
  map Task.id (tasks (startStatusChanges closure fallbackId affected b).1)
  = map Task.id (tasks b).
Proof.
  revert b. induction affected as [|task rest IH]; intros b; [reflexivity|].
  cbn [startStatusChanges].
  pose proof (call_ids closure (Task.id task) fallbackId b) as Hcall.
  destruct (handleStatusChange_call closure (Task.id task) fallbackId b) as [b1 k].
  specialize (IH b1).
  destruct (startStatusChanges closure fallbackId rest b1) as [b2 ks].
  cbn [fst] in *. congruence.
Qed.

Lemma settleStatusChanges_ids (api : Api) (ks : list StatusChange) b :
  map Task.id (tasks (settleStatusChanges api ks b)) = map Task.id (tasks b).
Proof.
  revert b. induction ks as [|k ks IH]; intros b; [reflexivity|].
  rewrite settleStatusChanges_cons, IH. apply resume_ids.
Qed.

Lemma handleDeleteColumn_ids (api : Api) (columnId : string) b :
  map Task.id (tasks (handleDeleteColumn api columnId b)) = map Task.id (tasks b).
Proof.
  unfold handleDeleteColumn, handleDeleteColumn_call.
  destruct (_ <=? 0); [reflexivity|].
  destruct (at_ (columns b) _) as [fallback|]; [|reflexivity].
  pose proof (startStatusChanges_ids (tasks b) (Column.id fallback)
                (List.filter (fun task => String.eqb (Task.status task) columnId) (tasks b))
                b) as Hstart.
  destruct (startStatusChanges _ _ _ b) as [b1 ks]. cbn [fst] in Hstart.
  cbn [handleDeleteColumn_resume setColumnDeletionContext setFilters setColumns tasks].
  rewrite settleStatusChanges_ids. exact Hstart.
Qed.

Lemma filter_ids (taskId : Z) (store : list Task.t) :
  map Task.id (List.filter (fun task => negb (Task.id task =? taskId)) store)
  = List.filter (fun i => negb (i =? taskId)) (map Task.id store).
Proof.
  induction store as [|task store IH]; [reflexivity|]. cbn [List.filter map].
  destruct (negb (Task.id task =? taskId)); cbn [map]; congruence.
Qed.

Lemma NoDup_filter_Z (p : Z -> bool) (l : list Z) : NoDup l -> NoDup (List.filter p l).
Proof.
  intros Hnd. exact (sublist_NoDup _ _ Hnd (filter_sublist_self p l)).
Qed.

End StoreIds.

(** X5. The identifiers of the store, in order: a status change keeps them
    whatever the backend answers and whenever the answer arrives, and so does
    the deletion of a column; a resolved deletion of a task removes exactly
    that identifier and a rejected one removes nothing; loading puts the
    identifiers of the fetched cards.  So none of them can make two tasks
    share an identifier. *)
Theorem store_identifiers_kept (api : Api) (b : Board) :
  (forall closure taskId status,
     map Task.id (tasks (handleStatusChange_call closure taskId status b).1)
     = map Task.id (tasks b))
  /\ (forall k response,
        map Task.id (tasks (handleStatusChange_resume k response b))
        = map Task.id (tasks b))
  /\ (forall taskId status,
        map Task.id (tasks (handleStatusChange api taskId status b))
        = map Task.id (tasks b))
  /\ (forall columnId,
        map Task.id (tasks (handleDeleteColumn api columnId b)) = map Task.id (tasks b))
  /\ (forall taskId resolved,
        map Task.id (tasks (handleDeleteTask_resume taskId resolved b))
        = if resolved
          then List.filter (fun i => negb (i =? taskId)) (map Task.id (tasks b))
          else map Task.id (tasks b))
  /\ (forall data,
        map Task.id (tasks (loadTasks data b)) = map KanbanCard.id (default [] data))
  /\ (NoDup (map Task.id (tasks b)) ->
      (forall taskId status,
         NoDup (map Task.id (tasks (handleStatusChange api taskId status b))))
      /\ (forall columnId,
            NoDup (map Task.id (tasks (handleDeleteColumn api columnId b))))
      /\ (forall taskId,
            NoDup (map Task.id (tasks (handleDeleteTask api taskId b))))).
Proof.
  assert (Hsc : forall taskId status,
            map Task.id (tasks (handleStatusChange api taskId status b))
            = map Task.id (tasks b)).
  { intros taskId status. unfold handleStatusChange.
    pose proof (call_ids (tasks b) taskId status b) as Hcall.
    destruct (handleStatusChange_call (tasks b) taskId status b) as [b1 [k|]];
      cbn [fst] in Hcall; [|exact Hcall].
    rewrite resume_ids. exact Hcall. }
  assert (Hdel : forall taskId resolved,
            map Task.id (tasks (handleDeleteTask_resume taskId resolved b))
            = if resolved
              then List.filter (fun i => negb (i =? taskId)) (map Task.id (tasks b))
              else map Task.id (tasks b)).
  { intros taskId [|]; cbn; [apply filter_ids | reflexivity]. }
  split; [intros; apply call_ids|].
  split; [intros; apply resume_ids|].
  split; [exact Hsc|].
  split; [intros; apply handleDeleteColumn_ids|].
  split; [exact Hdel|].
  split.
  { intros data. unfold loadTasks, tagOptionsEffect.
    destruct (_ =? 0); cbn; rewrite map_map; reflexivity. }
  intros Hnd. split; [intros; rewrite Hsc; exact Hnd|].
  split; [intros; rewrite handleDeleteColumn_ids; exact Hnd|].
  intros taskId. unfold handleDeleteTask, handleDeleteTask_call.
  destruct (bool_decide _); [exact Hnd|].
  destruct (delete api taskId); cbn.
  - rewrite filter_ids. apply NoDup_filter_Z, Hnd.
  - exact Hnd.
Qed.

(** ** The draft of the column order *)

Section Dirty.

Implicit Types (b : Board).

Lemma existsb_false {A : Type} (f : A -> bool) (l : list A) :
  existsb f l = false <-> forall x, x ∈ l -> f x = false.
Proof.
  split.
  - intros Hex x Hx. destruct (f x) eqn:Hfx; [|reflexivity].
    assert (existsb f l = true); [|congruence].
    apply existsb_exists. exists x. split; [apply list_elem_of_In, Hx | exact Hfx].
  - intros Hall. destruct (existsb f l) eqn:Hex; [|reflexivity].
    apply existsb_exists in Hex as [x [Hx Hfx]].
    rewrite (Hall x) in Hfx; [discriminate | apply list_elem_of_In, Hx].
Qed.

Lemma isColumnOrderDirty_ids b :
  isColumnOrderDirty b = false
  <-> map Column.id (pendingColumnOrder b) = map Column.id (columns b).
Proof.
  unfold isColumnOrderDirty.
  destruct (Nat.eqb_spec (length (pendingColumnOrder b)) (length (columns b)))
    as [Hlen|Hlen]; cbn [negb].
  - rewrite existsb_false. split.
    + intros Hall. apply list_eq. intros i. rewrite !list_lookup_fmap.
      destruct (pendingColumnOrder b !! i) as [c|] eqn:Hc.
      * specialize (Hall (i, c)). cbn beta iota in Hall.
        destruct (columns b !! i) as [c'|] eqn:Hc'.
        -- cbn. f_equal. apply strNe_false, Hall.
           apply (elem_of_lookup_imap_2 (fun index column => (index, column)) _ _ _ Hc).
        -- apply lookup_lt_Some in Hc. apply lookup_ge_None in Hc'. lia.
      * apply lookup_ge_None in Hc.
        rewrite (proj2 (lookup_ge_None (columns b) i)); [reflexivity | lia].
    + intros Hids [i c] Hin.
      apply elem_of_lookup_imap in Hin as (j & y & [= -> ->] & Hy).
      assert (Hlook : map Column.id (pendingColumnOrder b) !! j = Some (Column.id y)).
      { rewrite list_lookup_fmap, Hy. reflexivity. }
      rewrite Hids, list_lookup_fmap in Hlook.
      destruct (columns b !! j) as [c'|]; [|discriminate].
      cbn in Hlook. apply strNe_false. congruence.
  - split; [discriminate|]. intros Hids. exfalso. apply Hlen.
    apply (f_equal length) in Hids. rewrite !length_map in Hids. exact Hids.
Qed.

Lemma swapColumns_result (index direction : Z) (draft : list Column.t)
    (x y : Column.t) :
  at_ draft index = Some x -> at_ draft (index + direction) = Some y ->
  swapColumns index direction draft
  = Some (<[Z.to_nat index := y]> (<[Z.to_nat (index + direction) := x]> draft)).
Proof.
  intros Hx Hy. unfold swapColumns. rewrite Hx, Hy.
  apply at_Some in Hy as [_ Hrange].
  rewrite (proj2 (Z.ltb_ge (index + direction) 0)) by lia.
  destruct (Z.geb_spec (index + direction) (Z.of_nat (length draft))); [lia|].
  reflexivity.
Qed.

Lemma at_lookup {A : Type} (l : list A) (i : Z) :
  0 <= i -> at_ l i = l !! Z.to_nat i.
Proof. intros Hi. unfold at_. rewrite (proj2 (Z.ltb_ge i 0)) by lia. reflexivity. Qed.

(** Swapping back gives the draft back. *)
Lemma swapColumns_back (index direction : Z) (draft next : list Column.t) :
  0 <= index < Z.of_nat (length draft) ->
  0 <= index + direction < Z.of_nat (length draft) ->
  swapColumns index direction draft = Some next ->
  swapColumns (index + direction) (- direction) next = Some draft.
Proof.
  intros Hi Ht Hswap.
  destruct (at_inside draft index Hi) as [x Hx].
  destruct (at_inside draft (index + direction) Ht) as [y Hy].
  rewrite (swapColumns_result _ _ _ _ _ Hx Hy) in Hswap. injection Hswap as <-.
  rewrite at_lookup in Hx, Hy by lia.
  set (i := Z.to_nat index) in *. set (t := Z.to_nat (index + direction)) in *.
  assert (Hil : (i < length draft)%nat) by (apply lookup_lt_Some in Hx; exact Hx).
  assert (Htl : (t < length draft)%nat) by (apply lookup_lt_Some in Hy; exact Hy).
  assert (Hnt : at_ (<[i:=y]> (<[t:=x]> draft)) (index + direction) = Some x).
  { rewrite at_lookup by lia. fold t.
    destruct (decide (i = t)) as [Heq|Hne].
    - rewrite Heq in *. rewrite list_lookup_insert_eq by (rewrite length_insert; lia).
      congruence.
    - rewrite list_lookup_insert_ne by congruence.
      apply list_lookup_insert_eq. lia. }
  assert (Hni : at_ (<[i:=y]> (<[t:=x]> draft)) (index + direction + - direction)
                = Some y).
  { replace (index + direction + - direction) with index by lia.
    rewrite at_lookup by lia. fold i.
    apply list_lookup_insert_eq. rewrite length_insert. lia. }
  rewrite (swapColumns_result _ _ _ _ _ Hnt Hni). f_equal.
  replace (index + direction + - direction) with index by lia. fold i t.
  apply list_eq. intros n.
  destruct (decide (n = t)) as [->|Hn].
  - rewrite list_lookup_insert_eq by (rewrite !length_insert; lia). congruence.
  - rewrite list_lookup_insert_ne by congruence.
    destruct (decide (n = i)) as [->|Hn'].
    + rewrite list_lookup_insert_eq by (rewrite !length_insert; lia). congruence.
    + rewrite !list_lookup_insert_ne by congruence. reflexivity.
Qed.

End Dirty.

(** X6. [isColumnOrderDirty] is false exactly when the draft and the committed
    order list the same identifiers in the same order.  So the save button is
    disabled right after entering reorder mode, after cancelling and after
    saving, and it is enabled after a move that exchanges two columns with
    different identifiers. *)
Theorem isColumnOrderDirty_spec (b : Board) :
  (isColumnOrderDirty b = false
   <-> map Column.id (pendingColumnOrder b) = map Column.id (columns b))
  /\ isColumnOrderDirty (enterReorderMode b) = false
  /\ isColumnOrderDirty (cancelReorderMode b) = false
  /\ isColumnOrderDirty (saveColumnOrder b) = false
  /\ (forall index direction x y,
        at_ (columns b) index = Some x ->
        at_ (columns b) (index + direction) = Some y ->
        Column.id x <> Column.id y ->
        exists b',
          moveColumn index direction (enterReorderMode b) = Some b'
          /\ isColumnOrderDirty b' = true).
Proof.
  split; [apply isColumnOrderDirty_ids|].
  split; [apply isColumnOrderDirty_ids; reflexivity|].
  split; [apply isColumnOrderDirty_ids; reflexivity|].
  split; [apply isColumnOrderDirty_ids; reflexivity|].
  intros index direction x y Hx Hy Hne.
  unfold moveColumn. cbn [pendingColumnOrder enterReorderMode setIsReordering
    setPendingColumnOrder].
  rewrite (swapColumns_result _ _ _ _ _ Hx Hy). eexists. split; [reflexivity|].
  apply not_false_is_true. intros Hclean. apply isColumnOrderDirty_ids in Hclean.
  cbn [pendingColumnOrder columns setPendingColumnOrder setIsReordering
    enterReorderMode] in Hclean.
  apply at_Some in Hx as [Hx Hi]. apply at_Some in Hy as [Hy Ht].
  assert (Hlook : map Column.id
                    (<[Z.to_nat index:=y]> (<[Z.to_nat (index + direction):=x]> (columns b)))
                  !! Z.to_nat index = Some (Column.id y)).
  { rewrite list_lookup_fmap, list_lookup_insert_eq by (rewrite length_insert; lia).
    reflexivity. }
  rewrite Hclean, list_lookup_fmap, Hx in Hlook. cbn in Hlook. congruence.
Qed.

(** X7. Moving a column one way and then back restores the draft: for an index
    and a target inside the draft, [moveColumn index direction] followed by
    [moveColumn (index + direction) (- direction)] gives the board back. *)
Theorem moveColumn_back (b : Board) (index direction : Z) :
  0 <= index < Z.of_nat (length (pendingColumnOrder b)) ->
  0 <= index + direction < Z.of_nat (length (pendingColumnOrder b)) ->
  moveColumns [(index, direction); (index + direction, - direction)] b = Some b.
Proof.
  intros Hi Ht. cbn [moveColumns]. unfold moveColumn.
  destruct (swapColumns_defined index direction _ Hi) as [next Hswap].
  rewrite Hswap. cbn [pendingColumnOrder setPendingColumnOrder].
  rewrite (swapColumns_back _ _ _ _ Hi Ht Hswap).
  destruct b; reflexivity.
Qed.

(** ** The registry of columns *)

Section Registry.

Implicit Types (b : Board) (k : StatusChange).

Lemma findIndex_at {A : Type} (p : A -> bool) (l : list A) :
  0 <= Js.findIndex p l ->
  exists x, at_ l (Js.findIndex p l) = Some x /\ p x = true.
Proof.
  induction l as [|y l IH]; cbn [Js.findIndex]; [lia|].
  destruct (p y) eqn:Hy; [intros _; exists y; split; [reflexivity | exact Hy]|].
  destruct (Z.ltb_spec (Js.findIndex p l) 0) as [Hneg|Hpos]; [lia|].
  intros _. destruct (IH Hpos) as [x [Hx Hpx]]. exists x. split; [|exact Hpx].
  rewrite at_tail by lia. replace (Js.findIndex p l + 1 - 1) with (Js.findIndex p l) by lia.
  exact Hx.
Qed.

Lemma findIndex_upper {A : Type} (p : A -> bool) (l : list A) :
  Js.findIndex p l < Z.of_nat (length l).
Proof.
  induction l as [|y l IH]; cbn [Js.findIndex length]; [lia|].
  destruct (p y); [lia|]. destruct (Z.ltb_spec (Js.findIndex p l) 0); lia.
Qed.

(** What a call of [handleStatusChange] leaves alone and what it may send. *)
Lemma call_frame (closure : list Task.t) (taskId : Z) (status : string) b :
  let b1 := (handleStatusChange_call closure taskId status b).1 in
  columns b1 = columns b /\ filters b1 = filters b
  /\ columnDeletionContext b1 = columnDeletionContext b
  /\ (effects b1 = effects b \/ effects b1 = effects b ++ [ApiPatch taskId status]).
Proof.
  unfold handleStatusChange_call.
  destruct (List.find _ closure) as [currentTask|]; [|cbn; auto].
  destruct (String.eqb _ _); cbn; auto.
Qed.

Lemma resume_frame k (response : option KanbanCard.t) b :
  let b1 := handleStatusChange_resume k response b in
  columns b1 = columns b /\ filters b1 = filters b
  /\ columnDeletionContext b1 = columnDeletionContext b
  /\ (forall taskId status,
        ApiPatch taskId status ∈ effects b1 -> ApiPatch taskId status ∈ effects b).
Proof.
  unfold handleStatusChange_resume.
  destruct response; cbn; repeat split; intros taskId status Hin;
    apply elem_of_app in Hin as [Hin|Hin]; try exact Hin;
    apply list_elem_of_singleton in Hin; discriminate.
Qed.

Lemma startStatusChanges_frame (closure : list Task.t) (fallbackId : string)
    (affected : list Task.t) b :
  let b1 := (startStatusChanges closure fallbackId affected b).1 in
  columns b1 = columns b /\ filters b1 = filters b
  /\ (forall taskId status,
        ApiPatch taskId status ∈ effects b1 ->
        ApiPatch taskId status ∈ effects b \/ status = fallbackId).
Proof.
  revert b. induction affected as [|task rest IH]; intros b.
  { cbn. auto. }
  cbn [startStatusChanges].
  pose proof (call_frame closure (Task.id task) fallbackId b) as Hcall.
  destruct (handleStatusChange_call closure (Task.id task) fallbackId b) as [b1 k].
  specialize (IH b1).
  destruct (startStatusChanges closure fallbackId rest b1) as [b2 ks].
  cbn [fst] in *. destruct Hcall as (Hc & Hf & _ & He).
  destruct IH as (Hc' & Hf' & He').
  split; [congruence|]. split; [congruence|].
  intros taskId status Hin. destruct (He' taskId status Hin) as [Hin1|Heq]; [|auto].
  destruct He as [He|He]; rewrite He in Hin1; [auto|].
  apply elem_of_app in Hin1 as [Hin1|Hin1]; [auto|].
  apply list_elem_of_singleton in Hin1. right. congruence.
Qed.

Lemma settleStatusChanges_frame (api : Api) (ks : list StatusChange) b :
  let b1 := settleStatusChanges api ks b in
  columns b1 = columns b /\ filters b1 = filters b
  /\ (forall taskId status,
        ApiPatch taskId status ∈ effects b1 -> ApiPatch taskId status ∈ effects b).
Proof.
  revert b. induction ks as [|k ks IH]; intros b.
  { cbn. auto. }
  rewrite settleStatusChanges_cons.
  pose proof (resume_frame k (patch api (sc_taskId k) (sc_status k)) b) as Hres.
  cbv zeta in *. destruct Hres as (Hc & Hf & _ & He).
  destruct (IH (handleStatusChange_resume k (patch api (sc_taskId k) (sc_status k)) b))
    as (Hc' & Hf' & He').
  split; [congruence|]. split; [congruence|]. auto.
Qed.

(** The registry after a column deletion, whatever the store holds. *)
Lemma handleDeleteColumn_columns (api : Api) (columnId : string) b :
  columns (handleDeleteColumn api columnId b)
  = if 0 <? Js.findIndex (columnIs columnId) (columns b)
    then List.filter (fun column => negb (columnIs columnId column)) (columns b)
    else columns b.
Proof.
  unfold handleDeleteColumn, handleDeleteColumn_call.
  destruct (Z.leb_spec (Js.findIndex (columnIs columnId) (columns b)) 0) as [Hle|Hgt].
  { rewrite (proj2 (Z.ltb_ge _ _)) by lia. reflexivity. }
  rewrite (proj2 (Z.ltb_lt _ _)) by lia.
  destruct (at_inside (columns b) (Js.findIndex (columnIs columnId) (columns b) - 1))
    as [fallback Hfb].
  { pose proof (findIndex_upper (columnIs columnId) (columns b)). lia. }
  rewrite Hfb.
  pose proof (startStatusChanges_frame (tasks b) (Column.id fallback)
                (List.filter (fun task => String.eqb (Task.status task) columnId) (tasks b))
                b) as Hstart.
  destruct (startStatusChanges _ _ _ b) as [b1 ks]. cbn [fst] in Hstart.
  destruct Hstart as (Hc & _).
  destruct (settleStatusChanges_frame api ks b1) as (Hc' & _).
  cbn [handleDeleteColumn_resume setColumnDeletionContext setFilters setColumns columns].
  congruence.
Qed.

Lemma NoDup_filter_ids (p : Column.t -> bool) (l : list Column.t) :
  NoDup (map Column.id l) -> NoDup (map Column.id (List.filter p l)).
Proof.
  induction l as [|c l IH]; [trivial|]. cbn [map List.filter]. intros Hnd.
  apply NoDup_cons in Hnd as [Hc Hnd]. destruct (p c); [|auto].
  cbn [map]. apply NoDup_cons. split; [|auto].
  intros Hin. apply Hc. apply list_elem_of_fmap in Hin as [x [Hx Hin]].
  apply list_elem_of_fmap. exists x. split; [exact Hx|].
  apply list_elem_of_In, filter_In in Hin as [Hin _]. apply list_elem_of_In, Hin.
Qed.

End Registry.

(** X8. The registry keeps its shape: when it is not empty and no two columns
    share an identifier, the same holds after submitting the column form,
    after deleting a column and after saving a reordered draft; the first two
    also keep the first column in first place, and the last one keeps the
    same columns. *)
Theorem column_registry_kept (api : Api) (generated : string) (b : Board) :
  columns b <> [] -> NoDup (map Column.id (columns b)) ->
  (NoDup (map Column.id (columns (handleColumnSubmit generated b)))
   /\ head (columns (handleColumnSubmit generated b)) = head (columns b))
  /\ (forall columnId,
        NoDup (map Column.id (columns (handleDeleteColumn api columnId b)))
        /\ head (columns (handleDeleteColumn api columnId b)) = head (columns b))
  /\ (forall moves b',
        moveColumns moves (enterReorderMode b) = Some b' ->
        NoDup (map Column.id (columns (saveColumnOrder b')))
        /\ columns (saveColumnOrder b') <> []
        /\ columns (saveColumnOrder b') ≡ₚ columns b).
Proof.
  intros Hne Hnd. split; [|split].
  - unfold handleColumnSubmit.
    destruct (validateLabel _); [split; [exact Hnd | reflexivity]|].
    destruct (existsb _ (columns b)) eqn:Hex; [split; [exact Hnd | reflexivity]|].
    cbn [closeColumnModal setColumnForm setColumnModalOpen setColumns columns].
    split.
    + rewrite map_app. apply NoDup_app. split; [exact Hnd|]. split.
      * intros x Hx Hx'. apply list_elem_of_singleton in Hx'. subst x.
        apply columnId_taken in Hx. cbn [Column.id] in Hx. congruence.
      * apply NoDup_singleton.
    + destruct (columns b); [contradiction | reflexivity].
  - intros columnId. rewrite handleDeleteColumn_columns.
    destruct (Z.ltb_spec 0 (Js.findIndex (columnIs columnId) (columns b))) as [Hgt|Hle];
      [|split; [exact Hnd | reflexivity]].
    split; [apply NoDup_filter_ids, Hnd|].
    destruct (columns b) as [|first rest] eqn:Hcols; [contradiction|].
    assert (Hfirst : columnIs columnId first = false).
    { apply (findIndex_first (columnIs columnId) (first :: rest) 0);
        [lia | reflexivity]. }
    cbn [List.filter]. rewrite Hfirst. reflexivity.
  - intros moves b' Hrun. apply moveColumns_draft in Hrun as [_ Hperm].
    cbn [saveColumnOrder setIsReordering setColumns columns].
    cbn [pendingColumnOrder enterReorderMode setIsReordering setPendingColumnOrder]
      in Hperm.
    split; [|split; [|exact Hperm]].
    + eapply NoDup_Permutation_proper; [|exact Hnd].
      apply fmap_Permutation. exact Hperm.
    + intros Hnil. rewrite Hnil in Hperm. apply Permutation_length in Hperm.
      destruct (columns b); [contradiction | discriminate].
Qed.

(** X9. The confirmation dialog and the deletion agree.  For the first column
    or an identifier that is not in the registry no dialog is set up.
    Otherwise the dialog holds the column with that identifier and the one
    before it, which has another identifier; confirming closes the dialog,
    and every patch the deletion sends asks for the status of the column the
    dialog names as fallback. *)
Theorem handleRequestDeleteColumn_dialog (api : Api) (columnId : string) (b : Board) :
  (Js.findIndex (columnIs columnId) (columns b) <= 0 ->
   handleRequestDeleteColumn columnId b = b)
  /\ (0 < Js.findIndex (columnIs columnId) (columns b) ->
      exists column fallbackColumn,
        handleRequestDeleteColumn columnId b
        = setColumnDeletionContext
            (Some (ColumnDeletionContext.mk column fallbackColumn)) b
        /\ at_ (columns b) (Js.findIndex (columnIs columnId) (columns b)) = Some column
        /\ at_ (columns b) (Js.findIndex (columnIs columnId) (columns b) - 1)
           = Some fallbackColumn
        /\ Column.id column = columnId
        /\ Column.id fallbackColumn <> columnId
        /\ columnDeletionContext
             (handleDeleteColumn api columnId (handleRequestDeleteColumn columnId b))
           = None
        /\ forall taskId status,
             ApiPatch taskId status
               ∈ effects (handleDeleteColumn api columnId
                            (handleRequestDeleteColumn columnId b)) ->
             ApiPatch taskId status ∈ effects b
             \/ status = Column.id fallbackColumn).
Proof.
  split.
  { intros Hle. unfold handleRequestDeleteColumn.
    rewrite (proj2 (Z.leb_le _ _) Hle). reflexivity. }
  intros Hgt.
  destruct (findIndex_at (columnIs columnId) (columns b)) as [column [Hcol Hid]]; [lia|].
  destruct (at_inside (columns b) (Js.findIndex (columnIs columnId) (columns b) - 1))
    as [fallback Hfb].
  { pose proof (findIndex_upper (columnIs columnId) (columns b)). lia. }
  exists column, fallback.
  assert (Hreq : handleRequestDeleteColumn columnId b
                 = setColumnDeletionContext
                     (Some (ColumnDeletionContext.mk column fallback)) b).
  { unfold handleRequestDeleteColumn.
    rewrite (proj2 (Z.leb_gt _ _) Hgt), Hcol, Hfb. reflexivity. }
  split; [exact Hreq|]. split; [exact Hcol|]. split; [exact Hfb|].
  split; [apply String.eqb_eq, Hid|].
  split.
  { intros Heq.
    assert (Hp : columnIs columnId fallback = false).
    { eapply findIndex_first; [|exact Hfb]. lia. }
    unfold columnIs in Hp. rewrite Heq, String.eqb_refl in Hp. discriminate. }
  rewrite Hreq. set (b0 := setColumnDeletionContext _ b).
  unfold handleDeleteColumn, handleDeleteColumn_call.
  change (columns b0) with (columns b). change (tasks b0) with (tasks b).
  rewrite (proj2 (Z.leb_gt _ _) Hgt), Hfb.
  pose proof (startStatusChanges_frame (tasks b) (Column.id fallback)
                (List.filter (fun task => String.eqb (Task.status task) columnId) (tasks b))
                b0) as Hstart.
  destruct (startStatusChanges _ _ _ b0) as [b1 ks]. cbn [fst] in Hstart.
  destruct Hstart as (_ & _ & He).
  destruct (settleStatusChanges_frame api ks b1) as (_ & _ & He').
  split; [reflexivity|].
  intros taskId status Hin.
  cbn [handleDeleteColumn_resume setColumnDeletionContext setFilters setColumns effects]
    in Hin.
  apply He', He in Hin. exact Hin.
Qed.

(** ** The layout of the board and the selects of the filter bar *)

Section Layout.

Implicit Types (b : Board) (column : Column.t) (task : Task.t).

Lemma filter_orb_disjoint {A : Type} (p q : A -> bool) (l : list A) :
  (forall x, x ∈ l -> p x = true -> q x = false) ->
  List.filter (fun x => p x || q x) l ≡ₚ List.filter p l ++ List.filter q l.
Proof.
  induction l as [|x l IH]; intros Hdis; [reflexivity|].
  assert (IH' : List.filter (fun x => p x || q x) l ≡ₚ List.filter p l ++ List.filter q l).
  { apply IH. intros y Hy. apply Hdis. right. exact Hy. }
  cbn [List.filter].
  destruct (p x) eqn:Hp; cbn [orb].
  - rewrite (Hdis x) by (left || exact Hp). cbn [app]. rewrite IH'. reflexivity.
  - destruct (q x); [|exact IH'].
    rewrite IH'. apply Permutation_middle.
Qed.

Lemma statusIn_spec (cols : list Column.t) task :
  statusIn cols task = true <-> Task.status task ∈ map Column.id cols.
Proof.
  unfold statusIn. rewrite existsb_exists, list_elem_of_fmap. split.
  - intros [column [Hin Heq]]. apply String.eqb_eq in Heq.
    exists column. split; [exact Heq | apply list_elem_of_In, Hin].
  - intros [column [Heq Hin]]. exists column.
    split; [apply list_elem_of_In, Hin | apply String.eqb_eq, Heq].
Qed.

(** With distinct identifiers, the cards of the columns are the cards whose
    status is one of the identifiers, each once. *)
Lemma columns_partition (cols : list Column.t) (cards : list Task.t) :
  NoDup (map Column.id cols) ->
  flat_map
    (fun column =>
       List.filter (fun task => String.eqb (Task.status task) (Column.id column)) cards)
    cols
  ≡ₚ List.filter (statusIn cols) cards.
Proof.
  induction cols as [|column rest IH]; intros Hnd.
  - cbn. induction cards as [|task cards IHc]; [reflexivity | exact IHc].
  - cbn [map] in Hnd. apply NoDup_cons in Hnd as [Hfresh Hnd].
    cbn [flat_map]. rewrite (IH Hnd).
    symmetry. apply (filter_orb_disjoint
      (fun task => String.eqb (Task.status task) (Column.id column)) (statusIn rest)).
    intros task _ Heq. apply String.eqb_eq in Heq.
    apply not_true_is_false. intros Hin. apply statusIn_spec in Hin.
    apply Hfresh. rewrite <- Heq. exact Hin.
Qed.

End Layout.

(** X10. The cards on the board: a task is rendered in some visible column
    exactly when it passes the filters and its status is the identifier of a
    displayed column, so a task whose status matches no column is rendered
    nowhere; with distinct column identifiers no card is rendered twice, the
    cards of the visible columns being a rearrangement of those tasks; and the
    grid has between 1 and 4 columns on large screens, 1 or 2 on small ones. *)
Theorem board_layout (b : Board) :
  (forall task,
     (exists column, column ∈ visibleColumns b /\ task ∈ columnTasks b column)
     <-> task ∈ filteredTasks (tasks b) (filters b)
         /\ Task.status task ∈ map Column.id (displayColumns b))
  /\ (NoDup (map Column.id (displayColumns b)) ->
      flat_map (columnTasks b) (visibleColumns b)
      ≡ₚ List.filter (statusIn (displayColumns b)) (filteredTasks (tasks b) (filters b)))
  /\ 1 <= largeBreakpointColumns b <= 4
  /\ 1 <= smallBreakpointColumns b <= 2
  /\ (1 <= displayColumnCount b <= 4 -> largeBreakpointColumns b = displayColumnCount b).
Proof.
  assert (Hcol : forall task, task ∈ filteredTasks (tasks b) (filters b) ->
            String.eqb (Filters.column (filters b)) "all" = false ->
            Task.status task = Filters.column (filters b)).
  { intros task Hin Hsel. apply filteredTasks_spec in Hin as [_ (Hc & _)].
    apply Hc. intros Heq. rewrite Heq in Hsel. discriminate. }
  assert (Hvis : forall task, task ∈ filteredTasks (tasks b) (filters b) ->
            statusIn (visibleColumns b) task = statusIn (displayColumns b) task).
  { intros task Hin. unfold visibleColumns.
    destruct (isReordering b); [reflexivity|].
    pose proof (Hcol task Hin) as Hst.
    destruct (String.eqb (Filters.column (filters b)) "all"); [reflexivity|].
    specialize (Hst eq_refl). unfold statusIn. rewrite <- Hst.
    induction (displayColumns b) as [|column rest IH]; [reflexivity|].
    cbn [List.filter existsb].
    rewrite (String.eqb_sym (Column.id column)).
    destruct (String.eqb (Task.status task) (Column.id column)) eqn:Heq;
      cbn [existsb orb]; [rewrite Heq; reflexivity | exact IH]. }
  split.
  { intros task. split.
    - intros (column & Hcolumn & Htask).
      apply list_elem_of_In, filter_In in Htask as [Htask Hst].
      apply list_elem_of_In in Htask. split; [exact Htask|].
      apply statusIn_spec. rewrite <- (Hvis task Htask).
      apply existsb_exists. exists column.
      split; [apply list_elem_of_In, Hcolumn | exact Hst].
    - intros [Htask Hst]. apply statusIn_spec in Hst.
      rewrite <- (Hvis task Htask) in Hst.
      apply existsb_exists in Hst as [column [Hcolumn Hst]].
      exists column. split; [apply list_elem_of_In, Hcolumn|].
      apply list_elem_of_In, filter_In. split; [apply list_elem_of_In, Htask | exact Hst]. }
  split.
  { intros Hnd. unfold columnTasks.
    rewrite columns_partition.
    - erewrite filter_ext_in; [reflexivity|]. intros task Hin.
      apply Hvis, list_elem_of_In, Hin.
    - unfold visibleColumns. destruct (isReordering b); [exact Hnd|].
      destruct (String.eqb _ "all"); [exact Hnd | apply NoDup_filter_ids, Hnd]. }
  unfold largeBreakpointColumns, smallBreakpointColumns. lia.
Qed.

Section FilterOptions.

Implicit Types (b : Board) (task : Task.t).

Lemma strNe_true (x y : string) : strNe x y = true <-> x <> y.
Proof. unfold strNe. rewrite negb_true_iff. apply String.eqb_neq. Qed.

(** The distinct non-empty values of a field. *)
Lemma distinct_values (field : Task.t -> string) (store : list Task.t) :
  NoDup (Js.arrayFromSet (List.filter truthy (map field store)))
  /\ forall x, x ∈ Js.arrayFromSet (List.filter truthy (map field store))
       <-> x <> "" /\ exists task, task ∈ store /\ field task = x.
Proof.
  unfold Js.arrayFromSet.
  destruct (addAll_appends [] (List.filter truthy (map field store)))
    as (added & -> & Hnew & Hall & Hnd).
  cbn [app] in *. split; [apply Hnd; constructor|].
  assert (Hsrc : forall x, x ∈ List.filter truthy (map field store)
                   <-> x <> "" /\ exists task, task ∈ store /\ field task = x).
  { intros x. rewrite list_elem_of_In, filter_In, <- list_elem_of_In, list_elem_of_fmap.
    unfold truthy. rewrite negb_true_iff.
    assert (Js.isEmpty x = false <-> x <> "").
    { destruct x; cbn; split; congruence. }
    split.
    - intros [[task [-> Hin]] He]. split; [tauto | eauto].
    - intros [Hne [task [Hin <-]]]. split; [eauto | tauto]. }
  intros x. split.
  - intros Hin. apply Hsrc, Hnew, Hin.
  - intros Hin. apply Hsrc, Hall in Hin. exact Hin.
Qed.

Lemma keepTask_job (v : string) task :
  keepTask (Filters.withJobNumber v Filters.initial) task
  = negb (strNe v "all" && strNe (Task.jobNumber task) v).
Proof. unfold keepTask. cbn. destruct (strNe v "all" && _); reflexivity. Qed.

Lemma keepTask_assignee (v : string) task :
  keepTask (Filters.withAssignee v Filters.initial) task
  = negb (strNe v "all" && strNe (Task.assignee task) v).
Proof. unfold keepTask. cbn. destruct (strNe v "all" && _); reflexivity. Qed.

Lemma keepTask_quote (v : string) task :
  keepTask (Filters.withServiceQuote v Filters.initial) task
  = negb (strNe v "all" && strNe (Task.serviceQuote task) v).
Proof. unfold keepTask. cbn. destruct (strNe v "all" && _); reflexivity. Qed.

(** Selecting a value of a field that some task has shows the tasks with that
    value, and there is one. *)
Lemma select_value (field : Task.t -> string) (keep : string -> Task.t -> bool)
    (store : list Task.t) (v : string) :
  (forall task, keep v task = negb (strNe v "all" && strNe (field task) v)) ->
  v <> "all" -> (exists task, task ∈ store /\ field task = v) ->
  List.filter (keep v) store
  = List.filter (fun task => String.eqb (field task) v) store
  /\ List.filter (keep v) store <> [].
Proof.
  intros Hkeep Hv [task [Hin Hfield]].
  assert (Heq : List.filter (keep v) store
                = List.filter (fun task => String.eqb (field task) v) store).
  { apply filter_ext. intros x. rewrite Hkeep.
    rewrite (proj2 (strNe_true v "all") Hv). cbn [andb]. unfold strNe.
    apply negb_involutive. }
  split; [exact Heq|]. rewrite Heq. intros Hnil.
  assert (Hx : In task (List.filter (fun task => String.eqb (field task) v) store)).
  { apply filter_In. split; [apply list_elem_of_In, Hin | apply String.eqb_eq, Hfield]. }
  rewrite Hnil in Hx. exact Hx.
Qed.

End FilterOptions.

Section FilterOptions2.

Implicit Types (b : Board) (task : Task.t).

Lemma selectServes_intro (field : Task.t -> string) (label : string)
    (withField : string -> Filters.t -> Filters.t)
    (select : option string -> Board -> Board) b :
  (forall v, select v (resetFilters b)
             = setFilters (fun _ => withField (default "all" v) Filters.initial) b) ->
  (forall v task, keepTask (withField v Filters.initial) task
                  = negb (strNe v "all" && strNe (field task) v)) ->
  selectServes field
    (SelectOption.mk "all" label
     :: map (fun v => SelectOption.mk v v)
          (Js.arrayFromSet (List.filter truthy (map field (tasks b)))))
    select b.
Proof.
  intros Hsel Hkeep.
  destruct (distinct_values field (tasks b)) as [Hnd Hval].
  set (values := Js.arrayFromSet (List.filter truthy (map field (tasks b)))) in *.
  split; [|split; [|split]].
  - intros task Hin Hne. right. apply list_elem_of_fmap. exists (field task).
    split; [reflexivity|]. apply Hval. eauto.
  - intros opt Hopt Hv. rewrite Hsel. cbn [tasks filters setFilters default].
    unfold filteredTasks.
    apply (select_value field (fun v => keepTask (withField v Filters.initial)));
      [exact (fun task => Hkeep _ task) | exact Hv |].
    apply elem_of_cons in Hopt as [->|Hopt]; [contradiction Hv; reflexivity|].
    apply list_elem_of_fmap in Hopt as [v [-> Hin]]. apply Hval in Hin as [_ Hin].
    exact Hin.
  - rewrite Hsel. cbn [tasks filters setFilters default]. unfold filteredTasks.
    apply filter_keeps, Forall_forall. intros task _. rewrite Hkeep. reflexivity.
  - cbn [map]. rewrite map_map. cbn [SelectOption.value]. rewrite map_id.
    rewrite NoDup_cons. split.
    + intros [Hall _] task Hin Heq. apply Hall. apply Hval.
      split; [discriminate | eauto].
    + intros Hall. split; [|exact Hnd]. intros Hin.
      apply Hval in Hin as [_ [task [Hin Heq]]]. exact (Hall task Hin Heq).
Qed.

End FilterOptions2.

(** X11. The three selects derived from the store (job number, employee,
    service quote) serve it: every non-empty value is offered; choosing an
    offered value other than ['all'] from reset filters shows exactly the
    tasks with that value, at least one; clearing shows the whole store; the
    offered values are distinct unless a task has the value ['all']. *)
Theorem filter_options_serve (b : Board) :
  selectServes Task.jobNumber (jobFilterOptions (tasks b)) onJobNumberFilterChange b
  /\ selectServes Task.assignee (assigneeFilterOptions (tasks b))
       onAssigneeFilterChange b
  /\ selectServes Task.serviceQuote (serviceQuoteFilterOptions (tasks b))
       onServiceQuoteFilterChange b.
Proof.
  split; [|split].
  - apply (selectServes_intro _ _ Filters.withJobNumber);
      [reflexivity | intros; apply keepTask_job].
  - apply (selectServes_intro _ _ Filters.withAssignee);
      [reflexivity | intros; apply keepTask_assignee].
  - apply (selectServes_intro _ _ Filters.withServiceQuote);
      [reflexivity | intros; apply keepTask_quote].
Qed.

(** X12. [handleAddTagOption] with a name that is blank changes nothing.
    Otherwise the trimmed name is afterwards both a tag option and a tag of
    the task form, each list only growing at its end by at most that name and
    gaining no duplicate; the name field is emptied, so pressing the button
    again changes nothing; tasks, columns and filters are untouched. *)
Theorem handleAddTagOption_adds (b : Board) :
  (Js.trim (newTagName b) = "" -> handleAddTagOption b = b)
  /\ (Js.trim (newTagName b) <> "" ->
      let tag := Js.trim (newTagName b) in
      let b' := handleAddTagOption b in
      tag ∈ tagOptions b' /\ tag ∈ taskFormTags b'
      /\ (tagOptions b' = tagOptions b \/ tagOptions b' = tagOptions b ++ [tag])
      /\ (taskFormTags b' = taskFormTags b \/ taskFormTags b' = taskFormTags b ++ [tag])
      /\ (NoDup (tagOptions b) -> NoDup (tagOptions b'))
      /\ (NoDup (taskFormTags b) -> NoDup (taskFormTags b'))
      /\ newTagName b' = ""
      /\ handleAddTagOption b' = b'
      /\ tasks b' = tasks b /\ columns b' = columns b /\ filters b' = filters b).
Proof.
  split.
  { intros Hblank. unfold handleAddTagOption. rewrite Hblank. reflexivity. }
  intros Hne tag b'.
  assert (He : Js.isEmpty tag = false).
  { destruct (Js.isEmpty tag) eqn:He; [|reflexivity].
    apply isEmpty_true in He. contradiction. }
  subst b'. unfold handleAddTagOption. fold tag. rewrite He.
  cbn [tagOptions taskFormTags newTagName setTaskFormTags setNewTagName setTagOptions
    tasks columns filters].
  assert (Hadd : forall l : list string,
            let l' := if Js.arrayIncludes tag l then l else l ++ [tag] in
            tag ∈ l' /\ (l' = l \/ l' = l ++ [tag]) /\ (NoDup l -> NoDup l')).
  { intros l. cbv zeta. destruct (Js.arrayIncludes tag l) eqn:Hin.
    - apply arrayIncludes_spec in Hin. auto.
    - apply arrayIncludes_false in Hin. split; [|split; [auto|]].
      + apply elem_of_app. right. left.
      + intros Hnd. apply NoDup_app. split; [exact Hnd|]. split.
        * intros x Hx Hx'. apply list_elem_of_singleton in Hx'. congruence.
        * apply NoDup_singleton. }
  destruct (Hadd (tagOptions b)) as (H1 & H2 & H3).
  destruct (Hadd (taskFormTags b)) as (H4 & H5 & H6).
  repeat split; try assumption.
Qed.

(** ** The task form *)

Lemma truthy_spec (s : string) : truthy s = true <-> s <> "".
Proof. destruct s; cbn; split; congruence. Qed.

Lemma truthy_false (s : string) : truthy s = false <-> s = "".
Proof. destruct s; cbn; split; congruence. Qed.

Lemma replace_same_task (store : list Task.t) (task : Task.t) :
  NoDup (map Task.id store) -> task ∈ store ->
  map (fun x => if Task.id x =? Task.id task then task else x) store = store.
Proof.
  intros Hnd Hin.
  transitivity (map (fun x : Task.t => x) store); [|apply map_id].
  apply map_ext_in. intros x Hx. apply list_elem_of_In in Hx.
  destruct (Z.eqb_spec (Task.id x) (Task.id task)) as [Heq|]; [|reflexivity].
  symmetry. exact (same_id_same_task store task x Hnd Hin Hx Heq).
Qed.

Section TaskForm.

Context {Date : Type}.
Variable formatDate : Date -> string.
Variable toDate : string -> Date.

Lemma validateTask_title (values : TaskFormValues Date) :
  TaskFormErrors.title (validateTask values) = None
  <-> Js.trim (form_title values) <> "".
Proof.
  unfold validateTask. cbn [TaskFormErrors.title]. rewrite length_zero.
  destruct (Js.isEmpty (Js.trim (form_title values))) eqn:He.
  - apply isEmpty_true in He. split; [discriminate|congruence].
  - split; [|reflexivity]. intros _ Hempty.
    apply isEmpty_true in Hempty. congruence.
Qed.

Lemma validateTask_status (values : TaskFormValues Date) :
  TaskFormErrors.status (validateTask values) = None
  <-> form_status values <> "".
Proof.
  unfold validateTask. cbn [TaskFormErrors.status].
  destruct (truthy (form_status values)) eqn:He.
  - apply truthy_spec in He. split; [auto|reflexivity].
  - apply truthy_false in He. split; [discriminate|congruence].
Qed.

Lemma validateTask_ok (values : TaskFormValues Date) :
  TaskFormErrors.hasErrors (validateTask values) = false
  <-> Js.trim (form_title values) <> "" /\ form_status values <> "".
Proof.
  rewrite <- validateTask_title, <- validateTask_status.
  unfold TaskFormErrors.hasErrors.
  destruct (TaskFormErrors.title (validateTask values)),
           (TaskFormErrors.status (validateTask values));
    split; try discriminate; try tauto; intros [? ?]; discriminate.
Qed.

Lemma validateTask_accepts (values : TaskFormValues Date) :
  Js.trim (form_title values) <> "" -> form_status values <> "" ->
  validateTask values = TaskFormErrors.none.
Proof.
  intros Ht Hs. apply validateTask_title in Ht. apply validateTask_status in Hs.
  destruct (validateTask values) as [t s]. cbn in *. subst. reflexivity.
Qed.

(** The request a submission of the page sends. *)
Lemma handleTaskSubmit_call_sends (p : Page Date) :
  Js.trim (form_title (taskFormValues p)) <> "" ->
  form_status (taskFormValues p) <> "" ->
  handleTaskSubmit_call formatDate p
  = (sendTaskRequest
       (match editingTask p with
        | Some task =>
            ApiPut (Task.id task) (formValuesToPayload formatDate (taskFormValues p))
        | None => ApiPost (formValuesToPayload formatDate (taskFormValues p))
        end)
       (setSavingTask true (setTaskFormErrors TaskFormErrors.none p)),
     Some (mkTaskSubmit (editingTask p))).
Proof.
  intros Ht Hs. unfold handleTaskSubmit_call.
  rewrite (validateTask_accepts _ Ht Hs). cbn [TaskFormErrors.hasErrors
    TaskFormErrors.none TaskFormErrors.title TaskFormErrors.status].
  destruct (editingTask p); reflexivity.
Qed.

End TaskForm.

(** X13. Submitting the task form sends a request exactly when the title is
    not blank and a status is chosen.  Otherwise nothing is sent and nothing
    but the errors changes: a blank title gets its message, an empty status
    gets its message.  A valid form sends one request with the payload of the
    form values, a [put] to the edited task when there is one and a [post]
    otherwise, and sets the saving flag; the board, the modal and the values
    are as before. *)
Theorem handleTaskSubmit_gate {Date : Type} (formatDate : Date -> string)
    (p : Page Date) :
  let values := taskFormValues p in
  let p1 := fst (handleTaskSubmit_call formatDate p) in
  let k := snd (handleTaskSubmit_call formatDate p) in
  (k = None <-> Js.trim (form_title values) = "" \/ form_status values = "")
  /\ (Js.trim (form_title values) = "" <->
      TaskFormErrors.title (taskFormErrors p1)
      = Some "Give the task a descriptive title.")
  /\ (form_status values = "" <->
      TaskFormErrors.status (taskFormErrors p1)
      = Some "Choose a column for this task.")
  /\ (k = None ->
      requests p1 = requests p /\ savingTask p1 = savingTask p
      /\ board p1 = board p /\ taskModalOpen p1 = taskModalOpen p
      /\ editingTask p1 = editingTask p /\ taskFormValues p1 = values)
  /\ (k <> None ->
      k = Some (mkTaskSubmit (editingTask p))
      /\ requests p1
         = requests p
           ++ [match editingTask p with
               | Some task => ApiPut (Task.id task) (formValuesToPayload formatDate values)
               | None => ApiPost (formValuesToPayload formatDate values)
               end]
      /\ savingTask p1 = true
      /\ board p1 = board p /\ taskModalOpen p1 = taskModalOpen p
      /\ editingTask p1 = editingTask p /\ taskFormValues p1 = values).
Proof.
  intros values p1 k.
  assert (Herr : taskFormErrors p1 = validateTask values).
  { subst p1. unfold handleTaskSubmit_call. fold values.
    destruct (TaskFormErrors.hasErrors (validateTask values)); [reflexivity|].
    destruct (editingTask p); reflexivity. }
  destruct (TaskFormErrors.hasErrors (validateTask values)) eqn:Hv.
  - assert (Hcall : handleTaskSubmit_call formatDate p
                    = (setTaskFormErrors (validateTask values) p, None)).
    { unfold handleTaskSubmit_call. fold values. rewrite Hv. reflexivity. }
    assert (Hbad : Js.trim (form_title values) = "" \/ form_status values = "").
    { destruct (decide (Js.trim (form_title values) = "")) as [|Ht]; [left; assumption|].
      destruct (decide (form_status values = "")) as [|Hs]; [right; assumption|].
      exfalso. pose proof (proj2 (validateTask_ok values) (conj Ht Hs)). congruence. }
    subst p1 k. rewrite Hcall in *. cbn [fst snd] in *.
    split; [tauto|].
    split.
    { rewrite Herr. unfold validateTask. cbn [TaskFormErrors.title]. rewrite length_zero.
      destruct (Js.isEmpty (Js.trim (form_title values))) eqn:He.
      - apply isEmpty_true in He. tauto.
      - split; [|discriminate]. intros H. apply isEmpty_true in H. congruence. }
    split.
    { rewrite Herr. unfold validateTask. cbn [TaskFormErrors.status].
      destruct (truthy (form_status values)) eqn:He.
      - apply truthy_spec in He. split; [tauto|discriminate].
      - apply truthy_false in He. tauto. }
    split; [|intros H; exfalso; apply H; reflexivity].
    intros _. repeat split; reflexivity.
  - apply validateTask_ok in Hv as [Ht Hs].
    pose proof (handleTaskSubmit_call_sends formatDate p Ht Hs) as Hcall. fold values in Hcall.
    pose proof (validateTask_accepts values Ht Hs) as Hnone.
    subst p1 k. rewrite Hcall in *. cbn [fst snd] in *.
    split; [split; [discriminate|tauto]|].
    split; [rewrite Herr, Hnone; split; [tauto|discriminate]|].
    split; [rewrite Herr, Hnone; split; [tauto|discriminate]|].
    split; [discriminate|].
    intros _. repeat split; reflexivity.
Qed.

(** X14. What the answer to a submitted task form does, with nothing else
    happening meanwhile.  When the call fails the store, the modal, the edited
    task and the form values are as before the submission, the saving flag is
    off and an error is shown, so that submitting again sends the same request
    once more.  When it succeeds the modal is closed, the form is reset, the
    saving flag is off and the queries are invalidated; a created task is
    appended to the store, an updated one replaces the tasks with the
    identifier of the answer, the identifiers of the store staying as they
    are. *)
Theorem handleTaskSubmit_outcomes {Date : Type} (formatDate : Date -> string)
    (p p1 : Page Date) (k : TaskSubmit) :
  handleTaskSubmit_call formatDate p = (p1, Some k) ->
  (let p2 := handleTaskSubmit_resume k None p1 in
   tasks (board p2) = tasks (board p)
   /\ taskModalOpen p2 = taskModalOpen p
   /\ editingTask p2 = editingTask p
   /\ taskFormValues p2 = taskFormValues p
   /\ savingTask p2 = false
   /\ (exists title, effects (board p2) = effects (board p) ++ [ShowApiError title])
   /\ exists request p3,
        requests p1 = requests p ++ [request]
        /\ handleTaskSubmit_call formatDate p2 = (p3, Some k)
        /\ requests p3 = requests p ++ [request; request])
  /\ (forall data : KanbanCard.t,
        let p2 := handleTaskSubmit_resume k (Some data) p1 in
        taskModalOpen p2 = false
        /\ editingTask p2 = None
        /\ savingTask p2 = false
        /\ taskFormValues p2 = initialTaskFormValues
        /\ taskFormErrors p2 = TaskFormErrors.none
        /\ newTagName (board p2) = ""
        /\ InvalidateQueries ∈ effects (board p2)
        /\ requests p2 = requests p1
        /\ match editingTask p with
           | None =>
               tasks (board p2) = tasks (board p) ++ [convertCardToTask data]
           | Some _ =>
               tasks (board p2)
               = map (fun task =>
                        if Task.id task =? KanbanCard.id data
                        then convertCardToTask data else task)
                   (tasks (board p))
               /\ map Task.id (tasks (board p2)) = map Task.id (tasks (board p))
           end).
Proof.
  intros Hcall.
  assert (Hvalid : Js.trim (form_title (taskFormValues p)) <> ""
                   /\ form_status (taskFormValues p) <> "").
  { apply validateTask_ok. unfold handleTaskSubmit_call in Hcall.
    destruct (TaskFormErrors.hasErrors (validateTask (taskFormValues p)));
      [discriminate|reflexivity]. }
  destruct Hvalid as [Ht Hs].
  rewrite (handleTaskSubmit_call_sends formatDate p Ht Hs) in Hcall.
  injection Hcall as Hp1 Hk. subst p1 k.
  split.
  - cbn zeta.
    split; [reflexivity|]. split; [reflexivity|]. split; [reflexivity|].
    split; [reflexivity|]. split; [reflexivity|].
    split; [eexists; reflexivity|].
    eexists. eexists. split; [reflexivity|].
    split.
    + rewrite handleTaskSubmit_call_sends by assumption. reflexivity.
    + cbn. rewrite <- app_assoc. reflexivity.
  - intros data p2. subst p2.
    destruct (editingTask p) as [task|] eqn:He.
    + repeat split; try reflexivity.
      * cbn. apply elem_of_app. right. left.
      * cbn. apply (map_id_replace (convertCardToTask data)).
    + repeat split; try reflexivity.
      cbn. apply elem_of_app. right. left.
Qed.

(** X15. Opening a task for editing and submitting it untouched asks the
    backend to store the task as it is: when the date library gives back the
    text of the due date (and that text is not empty), the payload of the
    opened form carries the fields of the task; with a title that is not
    blank and a status the submission is a [put] to that task with this
    payload, and when the backend answers with the task itself the store,
    with distinct identifiers, is unchanged. *)
Theorem openEditTaskModal_round_trip {Date : Type} (formatDate : Date -> string)
    (toDate : string -> Date) (task : Task.t) (p : Page Date) :
  (forall d, Task.dueDate task = Some d -> d <> "" /\ formatDate (toDate d) = d) ->
  let p0 := openEditTaskModal toDate task p in
  let payload :=
    KanbanCardPayload.mk (Task.title task) (Task.description task)
      (Task.status task) (Task.priority task) (Task.dueDate task)
      (Task.assignee task) (Task.tags task) (Task.company task)
      (Task.companyContactName task) (Task.companyContactPhone task)
      (Task.jobNumber task) (Task.serviceQuote task) in
  taskModalOpen p0 = true
  /\ editingTask p0 = Some task
  /\ formValuesToPayload formatDate (taskFormValues p0) = payload
  /\ tasks (board p0) = tasks (board p)
  /\ (Js.trim (Task.title task) <> "" -> Task.status task <> "" ->
      exists p1 k,
        handleTaskSubmit_call formatDate p0 = (p1, Some k)
        /\ requests p1 = requests p ++ [ApiPut (Task.id task) payload]
        /\ forall data,
             convertCardToTask data = task ->
             NoDup (map Task.id (tasks (board p))) ->
             task ∈ tasks (board p) ->
             tasks (board (handleTaskSubmit_resume k (Some data) p1))
             = tasks (board p)).
Proof.
  intros Hdate p0 payload.
  assert (Hpayload : formValuesToPayload formatDate (taskFormValues p0) = payload).
  { subst p0 payload. unfold formValuesToPayload, openEditTaskModal. cbn.
    f_equal. destruct (Task.dueDate task) as [d|] eqn:Hd; [|reflexivity].
    destruct (Hdate d eq_refl) as [Hne Hrt].
    apply truthy_spec in Hne. rewrite Hne. rewrite Hrt. reflexivity. }
  split; [reflexivity|]. split; [reflexivity|]. split; [exact Hpayload|].
  split; [reflexivity|].
  intros Ht Hs.
  assert (Hcall := handleTaskSubmit_call_sends formatDate p0).
  specialize (Hcall Ht Hs). rewrite Hpayload in Hcall.
  eexists. eexists. split; [exact Hcall|]. split; [reflexivity|].
  intros data Hdata Hnd Hin.
  cbn. rewrite Hdata.
  replace (KanbanCard.id data) with (Task.id task) by (rewrite <- Hdata; reflexivity).
  apply replace_same_task; assumption.
Qed.

(** X16. [openCreateTaskModal] opens an empty form for a new task whose status
    is the identifier of the first column of the registry, ['backlog'] only
    when there is no column; submitting it as it is sends nothing, the title
    being blank. *)
Theorem openCreateTaskModal_first_column {Date : Type} (formatDate : Date -> string)
    (p : Page Date) :
  let p0 := openCreateTaskModal p in
  taskModalOpen p0 = true
  /\ editingTask p0 = None
  /\ taskFormTags (board p0) = []
  /\ form_title (taskFormValues p0) = ""
  /\ (forall column, head (columns (board p)) = Some column ->
      form_status (taskFormValues p0) = Column.id column)
  /\ (columns (board p) = [] -> form_status (taskFormValues p0) = "backlog")
  /\ snd (handleTaskSubmit_call formatDate p0) = None
  /\ requests (fst (handleTaskSubmit_call formatDate p0)) = requests p.
Proof.
  intros p0. subst p0.
  split; [reflexivity|]. split; [reflexivity|]. split; [reflexivity|].
  split; [reflexivity|].
  split.
  { intros column Hhead. unfold openCreateTaskModal. cbn.
    destruct (columns (board p)) as [|c cs]; [discriminate|].
    cbn in Hhead. injection Hhead as ->. reflexivity. }
  split.
  { intros Hnil. unfold openCreateTaskModal. cbn. rewrite Hnil. reflexivity. }
  split; reflexivity.
Qed.

(** ** Drag and drop *)

Lemma pretty_N_go_nonempty (x : N) (s : string) :
  s <> "" -> pretty_N_go x s <> "".
Proof.
  revert s. induction (N.lt_wf_0 x) as [x _ IH]. intros s Hs.
  destruct (decide (x = 0)%N) as [->|Hx].
  - rewrite pretty_N_go_0. exact Hs.
  - rewrite pretty_N_go_step by lia. apply IH.
    + apply N.div_lt; lia.
    + discriminate.
Qed.

Lemma pretty_N_nonempty (x : N) : pretty x <> "".
Proof.
  unfold pretty, pretty_N. destruct (decide (x = 0)%N) as [|Hx]; [discriminate|].
  rewrite pretty_N_go_step by lia. apply pretty_N_go_nonempty. discriminate.
Qed.

Lemma pretty_Z_truthy (z : Z) : truthy (pretty z) = true.
Proof.
  apply truthy_spec. destruct z as [|x|x].
  - discriminate.
  - exact (pretty_N_nonempty (Npos x)).
  - discriminate.
Qed.

Section DragAndDrop.

Context {Date : Type}.
Variable toNumber : string -> option Z.
Variable api : Api.

(** The task a drop names: the number of the transferred text, else the
    card tracked since the drag started. *)
Lemma handleColumnDrop_board (rawId columnId : string) (p : Page Date) :
  board (handleColumnDrop toNumber api rawId columnId p)
  = match (if truthy rawId then toNumber rawId else draggingTaskId p) with
    | Some taskId => handleStatusChange api taskId columnId (board p)
    | None => board p
    end.
Proof.
  unfold handleColumnDrop, handleColumnDrop_call, handleStatusChange.
  destruct (truthy rawId).
  - destruct (toNumber rawId) as [taskId|]; [|reflexivity].
    destruct (handleStatusChange_call (tasks (board p)) taskId columnId (board p))
      as [b [k|]] eqn:Hcall; [|reflexivity].
    cbn. unfold handleStatusChange_call in Hcall.
    destruct (List.find _ _) as [currentTask|]; [|discriminate].
    destruct (String.eqb _ _); [discriminate|].
    injection Hcall as <- <-. reflexivity.
  - destruct (draggingTaskId p) as [taskId|]; [|reflexivity].
    destruct (handleStatusChange_call (tasks (board p)) taskId columnId (board p))
      as [b [k|]] eqn:Hcall; [|reflexivity].
    cbn. unfold handleStatusChange_call in Hcall.
    destruct (List.find _ _) as [currentTask|]; [|discriminate].
    destruct (String.eqb _ _); [discriminate|].
    injection Hcall as <- <-. reflexivity.
Qed.

Lemma handleColumnDrop_cells (rawId columnId : string) (p : Page Date) :
  let p' := handleColumnDrop toNumber api rawId columnId p in
  draggingTaskId p' = None /\ dragOverColumnId p' = None
  /\ taskModalOpen p' = taskModalOpen p /\ editingTask p' = editingTask p
  /\ taskFormStored p' = taskFormStored p /\ taskFormErrors p' = taskFormErrors p
  /\ savingTask p' = savingTask p /\ requests p' = requests p.
Proof.
  unfold handleColumnDrop, handleColumnDrop_call.
  destruct (truthy rawId).
  - destruct (toNumber rawId) as [taskId|]; [|cbn; tauto].
    destruct (handleStatusChange_call (tasks (board p)) taskId columnId (board p))
      as [b [k|]]; cbn; tauto.
  - destruct (draggingTaskId p) as [taskId|]; [|cbn; tauto].
    destruct (handleStatusChange_call (tasks (board p)) taskId columnId (board p))
      as [b [k|]]; cbn; tauto.
Qed.

Lemma handleColumnDrop_call_flags (rawId columnId : string) (p p1 : Page Date)
    (k : StatusChange) :
  handleColumnDrop_call toNumber rawId columnId p = (p1, DropAwaits (Some k)) ->
  sc_taskId k ∈ statusUpdating (board p1)
  /\ sc_status k = columnId
  /\ outstanding (board p1)
     = outstanding (board p) ++ [ApiPatch (sc_taskId k) columnId].
Proof.
  assert (Hcall : forall taskId b,
            handleStatusChange_call (tasks (board p)) taskId columnId (board p)
            = (b, Some k) ->
            sc_taskId k ∈ statusUpdating b /\ sc_status k = columnId
            /\ outstanding b = outstanding (board p) ++ [ApiPatch (sc_taskId k) columnId]).
  { intros taskId b. unfold handleStatusChange_call.
    destruct (List.find _ _) as [currentTask|]; [|discriminate].
    destruct (String.eqb _ _); [discriminate|].
    intros H. injection H as <- <-. cbn.
    split; [apply elem_of_union; left; apply elem_of_singleton; reflexivity|].
    split; reflexivity. }
  unfold handleColumnDrop_call.
  destruct (truthy rawId).
  - destruct (toNumber rawId) as [taskId|]; [|discriminate].
    destruct (handleStatusChange_call _ _ _ _) as [b k'] eqn:Hc.
    intros H. injection H as <- ->. exact (Hcall taskId b Hc).
  - destruct (draggingTaskId p) as [taskId|]; [|discriminate].
    destruct (handleStatusChange_call _ _ _ _) as [b k'] eqn:Hc.
    intros H. injection H as <- ->. exact (Hcall taskId b Hc).
Qed.

Lemma dragStep_hover (p : Page Date) (step : DragStep) :
  hoverWhileDragging p -> hoverWhileDragging (dragStep toNumber api p step).
Proof.
  unfold hoverWhileDragging, dragStep. intros Hinv.
  destruct (isReordering (board p)); [exact Hinv|].
  destruct step as [taskId| |columnId|outside columnId|rawId columnId].
  - discriminate.
  - reflexivity.
  - unfold handleColumnDragOver. destruct (draggingTaskId p) eqn:Hd.
    + destruct (bool_decide _); cbn; rewrite ?Hd; discriminate.
    + cbn. rewrite Hd. exact Hinv.
  - unfold handleColumnDragLeave. destruct outside; [|exact Hinv].
    cbn. intros Hd. rewrite (Hinv Hd). destruct (bool_decide _); reflexivity.
  - intros _. apply (handleColumnDrop_cells rawId columnId p).
Qed.

Lemma dragStep_board (p : Page Date) (step : DragStep) :
  (forall rawId columnId, step <> Drop rawId columnId) ->
  board (dragStep toNumber api p step) = board p.
Proof.
  intros Hstep. unfold dragStep.
  destruct (isReordering (board p)); [reflexivity|].
  destruct step as [taskId| |columnId|outside columnId|rawId columnId].
  - reflexivity.
  - reflexivity.
  - unfold handleColumnDragOver. destruct (draggingTaskId p); [|reflexivity].
    destruct (bool_decide _); reflexivity.
  - unfold handleColumnDragLeave. destruct outside; reflexivity.
  - exfalso. exact (Hstep rawId columnId eq_refl).
Qed.

End DragAndDrop.

(** X17. A drop on a column always ends the drag (no card is tracked, no
    column is hovered) and leaves the task form alone.  On the board it is the
    status change of the dropped task to that column: the task named by the
    transferred text when there is one, else the tracked card, and nothing
    when there is neither or the text is no number.  So dragging a card and
    dropping it, with the text the drag start wrote or with no text, is
    [handleStatusChange] for that card; the identifiers of the store are kept;
    and while the patch is outstanding the card cannot be dragged again. *)
Theorem handleColumnDrop_moves {Date : Type} (toNumber : string -> option Z)
    (api : Api) (rawId columnId : string) (p : Page Date) :
  let p' := handleColumnDrop toNumber api rawId columnId p in
  draggingTaskId p' = None /\ dragOverColumnId p' = None
  /\ taskModalOpen p' = taskModalOpen p /\ editingTask p' = editingTask p
  /\ taskFormStored p' = taskFormStored p /\ requests p' = requests p
  /\ (rawId = "" ->
      board p' = match draggingTaskId p with
                 | Some taskId => handleStatusChange api taskId columnId (board p)
                 | None => board p
                 end)
  /\ (rawId <> "" ->
      board p' = match toNumber rawId with
                 | Some taskId => handleStatusChange api taskId columnId (board p)
                 | None => board p
                 end)
  /\ (forall taskId : Z,
        toNumber (pretty taskId) = Some taskId ->
        let dragged := handleTaskDragStart taskId p in
        board (handleColumnDrop toNumber api (snd dragged) columnId (fst dragged))
        = handleStatusChange api taskId columnId (board p))
  /\ (forall taskId : Z,
        let dragged := handleTaskDragStart taskId p in
        board (handleColumnDrop toNumber api "" columnId (fst dragged))
        = handleStatusChange api taskId columnId (board p))
  /\ map Task.id (tasks (board p')) = map Task.id (tasks (board p))
  /\ (forall p1 k,
        handleColumnDrop_call toNumber rawId columnId p = (p1, DropAwaits (Some k)) ->
        draggable p1 (sc_taskId k) = false
        /\ ApiPatch (sc_taskId k) columnId ∈ outstanding (board p1)).
Proof.
  intros p'.
  destruct (handleColumnDrop_cells toNumber api rawId columnId p)
    as (H1 & H2 & H3 & H4 & H5 & _ & _ & H8).
  pose proof (handleColumnDrop_board toNumber api rawId columnId p) as Hb.
  fold p' in H1, H2, H3, H4, H5, H8, Hb.
  repeat (split; [assumption|]).
  split.
  { intros ->. exact Hb. }
  split.
  { intros Hne. apply truthy_spec in Hne. rewrite Hne in Hb. exact Hb. }
  split.
  { intros taskId Hnum dragged. rewrite handleColumnDrop_board.
    subst dragged. cbn [fst snd handleTaskDragStart].
    rewrite pretty_Z_truthy, Hnum. reflexivity. }
  split.
  { intros taskId dragged. rewrite handleColumnDrop_board. reflexivity. }
  split.
  { rewrite Hb.
    destruct (if truthy rawId then toNumber rawId else draggingTaskId p) as [taskId|];
      [|reflexivity].
    apply handleStatusChange_ids. }
  intros p1 k Hcall.
  destruct (handleColumnDrop_call_flags toNumber rawId columnId p p1 k Hcall) as (Hin & _ & Hout).
  split.
  - unfold draggable. rewrite (bool_decide_eq_true_2 _ Hin).
    cbn [negb]. apply andb_false_r.
  - rewrite Hout. apply elem_of_app. right. left.
Qed.

(** X18. Whatever drag events arrive, a column is hovered only while a card
    is being dragged, so from the initial page a column is outlined only
    during a drag.  A column accepts a drag-over exactly when a card is being
    dragged and is then the hovered one; leaving a column for the outside
    unhovers that column only; events other than a drop leave the board as it
    is; and in reorder mode no drag event changes anything. *)
Theorem drag_hover_invariant {Date : Type} (toNumber : string -> option Z)
    (api : Api) (steps : list DragStep) :
  (forall p : Page Date,
     hoverWhileDragging p ->
     hoverWhileDragging (foldl (dragStep toNumber api) p steps))
  /\ (forall columnId : string,
        columnOutlined (foldl (dragStep toNumber api) (@initialPage Date) steps) columnId
        = true ->
        draggingTaskId (foldl (dragStep toNumber api) (@initialPage Date) steps)
        <> None)
  /\ (forall (p : Page Date) (columnId : string),
        let over := handleColumnDragOver columnId p in
        (snd over = true <-> draggingTaskId p <> None)
        /\ (snd over = true -> dragOverColumnId (fst over) = Some columnId)
        /\ (snd over = false -> fst over = p))
  /\ (forall (p : Page Date) (columnId : string),
        dragOverColumnId (handleColumnDragLeave true columnId p)
        = (if bool_decide (dragOverColumnId p = Some columnId)
           then None else dragOverColumnId p)
        /\ handleColumnDragLeave false columnId p = p)
  /\ (forall p : Page Date,
        (forall rawId columnId, Drop rawId columnId ∉ steps) ->
        board (foldl (dragStep toNumber api) p steps) = board p)
  /\ (forall p : Page Date,
        isReordering (board p) = true ->
        foldl (dragStep toNumber api) p steps = p).
Proof.
  assert (Hpres : forall p : Page Date,
            hoverWhileDragging p ->
            hoverWhileDragging (foldl (dragStep toNumber api) p steps)).
  { induction steps as [|step steps IH]; intros p Hp; [exact Hp|].
    cbn [foldl]. apply IH. apply dragStep_hover. exact Hp. }
  split; [exact Hpres|].
  split.
  { intros columnId Hout Hnone.
    assert (Hinit : hoverWhileDragging (@initialPage Date)) by (intros _; reflexivity).
    pose proof (Hpres _ Hinit Hnone) as Hover.
    unfold columnOutlined in Hout. rewrite Hover in Hout.
    rewrite bool_decide_eq_false_2 in Hout by discriminate.
    rewrite andb_false_r in Hout. discriminate. }
  split.
  { intros p columnId over. subst over. unfold handleColumnDragOver.
    destruct (draggingTaskId p) eqn:Hd.
    - destruct (bool_decide (dragOverColumnId p = Some columnId)) eqn:Hb; cbn.
      + apply bool_decide_eq_true in Hb.
        split; [split; [discriminate|reflexivity]|].
        split; [intros _; exact Hb|discriminate].
      + split; [split; [discriminate|reflexivity]|].
        split; [reflexivity|discriminate].
    - cbn. split; [split; [discriminate|congruence]|].
      split; [discriminate|reflexivity]. }
  split.
  { intros p columnId. split; reflexivity. }
  clear Hpres. split.
  - induction steps as [|step steps IH]; intros p Hno; [reflexivity|].
    cbn [foldl]. rewrite IH.
    + apply dragStep_board. intros rawId columnId ->.
      apply (Hno rawId columnId). left.
    + intros rawId columnId Hin. apply (Hno rawId columnId). right. exact Hin.
  - induction steps as [|step steps IH]; intros p Hre; [reflexivity|].
    cbn [foldl]. unfold dragStep at 2. rewrite Hre. apply IH. exact Hre.
Qed.

(** ** The delete button of a column *)

Lemma findIndex_found {A : Type} (p : A -> bool) (l : list A) (x : A) :
  x ∈ l -> p x = true -> 0 <= Js.findIndex p l.
Proof.
  induction l as [|y l IH]; intros Hin Hp; [inversion Hin|].
  cbn [Js.findIndex]. destruct (p y) eqn:Hy; [lia|].
  apply elem_of_cons in Hin as [->|Hin]; [congruence|].
  specialize (IH Hin Hp).
  destruct (Z.ltb_spec (Js.findIndex p l) 0); lia.
Qed.

(** X19. The delete button of a column: it is never offered for the first
    column nor in reorder mode; where it is offered, pressing it opens the
    confirmation dialog for a column with that identifier and a fallback
    column, both of the registry; and with distinct column identifiers, out
    of reorder mode, every column of the registry but the first has it. *)
Theorem deleteOffered_spec (b : Board) :
  (forall column, head (columns b) = Some column -> deleteOffered b column = false)
  /\ (forall column, isReordering b = true -> deleteOffered b column = false)
  /\ (forall column,
        deleteOffered b column = true ->
        exists target fallbackColumn,
          columnDeletionContext (handleRequestDeleteColumn (Column.id column) b)
          = Some (ColumnDeletionContext.mk target fallbackColumn)
          /\ Column.id target = Column.id column
          /\ target ∈ columns b /\ fallbackColumn ∈ columns b)
  /\ (NoDup (map Column.id (columns b)) ->
      forall column,
        isReordering b = false -> column ∈ columns b ->
        head (columns b) <> Some column ->
        deleteOffered b column = true).
Proof.
  split.
  { intros column Hhead. unfold deleteOffered.
    destruct (columns b) as [|c cs]; [discriminate|].
    cbn in Hhead. injection Hhead as ->.
    cbn [Js.findIndex]. unfold columnIs at 1. rewrite String.eqb_refl.
    apply andb_false_r. }
  split.
  { intros column Hre. unfold deleteOffered. rewrite Hre. reflexivity. }
  split.
  { intros column Hoff. unfold deleteOffered in Hoff.
    apply andb_true_iff in Hoff as [_ Hpos]. apply Z.ltb_lt in Hpos.
    set (columnId := Column.id column) in *.
    destruct (findIndex_at (columnIs columnId) (columns b)) as [target [Hcol Hid]]; [lia|].
    destruct (at_inside (columns b) (Js.findIndex (columnIs columnId) (columns b) - 1))
      as [fallback Hfb].
    { pose proof (findIndex_upper (columnIs columnId) (columns b)). lia. }
    exists target, fallback.
    split.
    { unfold handleRequestDeleteColumn.
      rewrite (proj2 (Z.leb_gt _ _) Hpos), Hcol, Hfb. reflexivity. }
    split; [apply String.eqb_eq, Hid|].
    split; [apply at_Some in Hcol as [Hcol _]|apply at_Some in Hfb as [Hfb _]];
      eapply list_elem_of_lookup_2; eassumption. }
  intros Hnd column Hre Hin Hhead. unfold deleteOffered. rewrite Hre. cbn [negb andb].
  apply Z.ltb_lt.
  assert (Hfound : 0 <= Js.findIndex (columnIs (Column.id column)) (columns b)).
  { apply (findIndex_found _ _ column Hin). unfold columnIs. apply String.eqb_refl. }
  destruct (columns b) as [|c cs] eqn:Hcols; [inversion Hin|].
  cbn [Js.findIndex] in *. unfold columnIs at 1 in Hfound. unfold columnIs at 1.
  destruct (String.eqb (Column.id c) (Column.id column)) eqn:Heq.
  - exfalso. apply String.eqb_eq in Heq.
    apply elem_of_cons in Hin as [->|Hin]; [apply Hhead; reflexivity|].
    cbn [map] in Hnd. apply NoDup_cons in Hnd as [Hc _].
    apply Hc. rewrite Heq. apply list_elem_of_fmap. exists column. split; [reflexivity|exact Hin].
  - destruct (Z.ltb_spec (Js.findIndex (columnIs (Column.id column)) cs) 0); lia.
Qed.

(** ** The column select of the filter bar *)

Lemma keepTask_column (v : string) (task : Task.t) :
  keepTask (Filters.withColumn v Filters.initial) task
  = negb (strNe v "all" && strNe (Task.status task) v).
Proof. unfold keepTask. cbn. destruct (strNe v "all" && _); reflexivity. Qed.

Lemma filter_all {A : Type} (p : A -> bool) (l : list A) :
  (forall x, p x = true) -> List.filter p l = l.
Proof.
  intros Hp. induction l as [|x l IH]; [reflexivity|].
  cbn [List.filter]. rewrite Hp, IH. reflexivity.
Qed.

(** X20. The column select of the filter bar offers ['all'] and then the
    identifiers of the registry.  From reset filters, clearing it or choosing
    ['all'] shows every displayed column and the whole store; choosing another
    value shows the tasks with that status and, out of reorder mode, the
    columns with that identifier, while reorder mode shows the whole draft.
    The column form gives the identifier ['all'] to a column whose label has
    that slug, as the label [All] has; choosing that column in the select
    then shows every column. *)
Theorem column_filter_focus (b : Board) :
  map SelectOption.value (columnFilterOptions (columns b))
  = "all" :: map Column.id (columns b)
  /\ (forall value : option string,
        let chosen := default "all" value in
        let b' := onColumnFilterChange value (resetFilters b) in
        (chosen = "all" ->
         visibleColumns b' = displayColumns b
         /\ filteredTasks (tasks b') (filters b') = tasks b)
        /\ (chosen <> "all" ->
            filteredTasks (tasks b') (filters b')
            = List.filter (fun task => String.eqb (Task.status task) chosen) (tasks b)
            /\ (isReordering b = false ->
                visibleColumns b'
                = List.filter (fun column => String.eqb (Column.id column) chosen)
                    (columns b))
            /\ (isReordering b = true -> visibleColumns b' = pendingColumnOrder b)))
  /\ (forall generated label color : string,
        Js.trim label <> "" -> slugify generated label = "all" ->
        "all" ∉ map Column.id (columns b) ->
        let b1 := handleColumnSubmit generated (formFilled label color b) in
        columns b1 = columns b ++ [Column.mk "all" label color]
        /\ visibleColumns (onColumnFilterChange (Some "all") (resetFilters b1))
           = displayColumns b1)
  /\ (forall generated : string, slugify generated "All" = "all").
Proof.
  split.
  { unfold columnFilterOptions, columnOptions. cbn [map]. rewrite map_map. reflexivity. }
  split.
  { intros value chosen b'.
    assert (Hf : filters b' = Filters.withColumn chosen Filters.initial) by reflexivity.
    assert (Ht : tasks b' = tasks b) by reflexivity.
    assert (Hd : displayColumns b' = displayColumns b) by reflexivity.
    assert (Hr : isReordering b' = isReordering b) by reflexivity.
    split.
    - intros Hall. split.
      + unfold visibleColumns. rewrite Hd, Hf, Hall. cbn.
        destruct (isReordering b); reflexivity.
      + rewrite Hf, Ht. unfold filteredTasks. apply filter_all. intros task.
        rewrite keepTask_column, Hall. reflexivity.
    - intros Hne. split.
      + rewrite Hf, Ht. unfold filteredTasks. apply filter_ext. intros task.
        rewrite keepTask_column. rewrite (proj2 (strNe_true chosen "all") Hne).
        cbn [andb]. unfold strNe. apply negb_involutive.
      + split.
        * intros Hre. unfold visibleColumns. rewrite Hr, Hd, Hf, Hre.
          cbn [Filters.column Filters.withColumn].
          rewrite (proj2 (String.eqb_neq chosen "all") Hne).
          unfold displayColumns. rewrite Hre. reflexivity.
        * intros Hre. unfold visibleColumns. rewrite Hr, Hd, Hre.
          unfold displayColumns. rewrite Hre. reflexivity. }
  split.
  { intros generated label color Hlabel Hslug Hfresh b1.
    assert (Hcols : columns b1 = columns b ++ [Column.mk "all" label color]).
    { subst b1. unfold handleColumnSubmit, formFilled.
      cbn [columnFormValues setColumnForm ColumnFormValues.label ColumnFormValues.color
           columns].
      rewrite (validateLabel_ok label Hlabel), Hslug.
      destruct (existsb _ (columns b)) eqn:Hex.
      - apply columnId_taken in Hex. contradiction.
      - reflexivity. }
    split; [exact Hcols|].
    unfold visibleColumns. cbn. destruct (isReordering b1); reflexivity. }
  intros generated. reflexivity.
Qed.

(** ** The rest of the component on concrete boards *)

(** X7 on [exampleBoard]: the first column moved right and back. *)
Lemma moveColumn_back_example :
  moveColumns [(0, 1); (1, -1)] (enterReorderMode exampleBoard)
  = Some (enterReorderMode exampleBoard).
Proof.
  apply (moveColumn_back (enterReorderMode exampleBoard) 0 1).
  - change (0 <= 0 < 3). lia.
  - change (0 <= 1 < 3). lia.
Defined.

(** X8 on [exampleBoard]: deleting [doing] and adding [QA / Test]. *)
Lemma column_registry_kept_example :
  head (columns (handleDeleteColumn workingApi "doing" exampleBoard))
  = Some (Column.mk "backlog" "Backlog" "gray")
  /\ NoDup (map Column.id
              (columns (handleColumnSubmit "k3" (formFilled "QA / Test" "red" exampleBoard)))).
Proof.
  split.
  - destruct (column_registry_kept workingApi "k3" exampleBoard) as (_ & Hdel & _).
    + discriminate.
    + apply (bool_decide_unpack _). vm_compute. exact I.
    + exact (proj2 (Hdel "doing")).
  - destruct (column_registry_kept workingApi "k3"
                (formFilled "QA / Test" "red" exampleBoard)) as ((Hsub & _) & _).
    + discriminate.
    + apply (bool_decide_unpack _). vm_compute. exact I.
    + exact Hsub.
Defined.

(** X14 on [examplePage]: task 1 edited, the update rejected by the backend. *)
Lemma handleTaskSubmit_outcomes_example :
  let p := openEditTaskModal isoDate pumpTask examplePage in
  let p1 := fst (handleTaskSubmit_call isoFormat p) in
  tasks (board (handleTaskSubmit_resume (mkTaskSubmit (Some pumpTask)) None p1))
  = tasks exampleBoard
  /\ taskModalOpen (handleTaskSubmit_resume (mkTaskSubmit (Some pumpTask)) None p1)
     = true.
Proof.
  intros p p1.
  destruct (handleTaskSubmit_outcomes isoFormat p p1 (mkTaskSubmit (Some pumpTask)))
    as ((Hstore & Hopen & _) & _).
  - reflexivity.
  - split; [exact Hstore | exact Hopen].
Defined.

(** X15 on [examplePage]: a task with a due date opened for editing. *)
Lemma openEditTaskModal_round_trip_example :
  KanbanCardPayload.due_date
    (formValuesToPayload isoFormat
       (taskFormValues (openEditTaskModal isoDate datedTask examplePage)))
  = Some "2025-03-01"
  /\ KanbanCardPayload.tags
       (formValuesToPayload isoFormat
          (taskFormValues (openEditTaskModal isoDate datedTask examplePage)))
     = ["A"].
Proof.
  destruct (openEditTaskModal_round_trip isoFormat isoDate datedTask examplePage)
    as (_ & _ & Hpayload & _).
  - intros d [= <-]. split; [discriminate | reflexivity].
  - split; [exact (f_equal KanbanCardPayload.due_date Hpayload)
           | exact (f_equal KanbanCardPayload.tags Hpayload)].
Defined.
